(** * boGO: schema parser, naming, type mapping, templates and migrations

    A shallow embedding of the Go generator.  Go strings are byte strings;
    they are modelled by [string] (a sequence of 8-bit [ascii] values).
    [strings.ToUpper], [strings.ToLower], [strings.TrimSpace] and
    [strings.Fields] are modelled on their ASCII path (the one Go takes when
    every byte of the input is below 0x80); the byte-level functions
    ([strings.Contains], [HasPrefix], [HasSuffix], [TrimSuffix], [Split],
    [ReplaceAll] with a non-empty pattern, slicing) are exact on all input.
    Module [Unicode] gives [strings.ToUpper], [strings.ToLower] and
    [toCamelCase] on every byte string, UTF-8 decoding included, over the
    case tables of package [unicode], which are parameters there. *)

From Stdlib Require Import String Ascii List Bool Arith NArith Lia Permutation.
Import ListNotations.
Open Scope list_scope.
Open Scope string_scope.
Open Scope nat_scope.

(** ** Characters *)

Definition byteIn (lo hi : nat) (c : ascii) : bool :=
  (lo <=? nat_of_ascii c) && (nat_of_ascii c <=? hi).

Definition isUpperAZ (c : ascii) : bool := byteIn 65 90 c.
Definition isLowerAZ (c : ascii) : bool := byteIn 97 122 c.
Definition isDigit (c : ascii) : bool := byteIn 48 57 c.

Definition upperByte (c : ascii) : ascii :=
  if isLowerAZ c then ascii_of_nat (nat_of_ascii c - 32) else c.

Definition lowerByte (c : ascii) : ascii :=
  if isUpperAZ c then ascii_of_nat (nat_of_ascii c + 32) else c.

Definition tab : ascii := "009"%char.
Definition newline : ascii := "010"%char.
Definition vtab : ascii := "011"%char.
Definition formfeed : ascii := "012"%char.
Definition creturn : ascii := "013"%char.
Definition space : ascii := " "%char.

(** The ASCII white space of the [strings] package. *)
Definition isSpace (c : ascii) : bool :=
  Ascii.eqb c tab || Ascii.eqb c newline || Ascii.eqb c vtab ||
  Ascii.eqb c formfeed || Ascii.eqb c creturn || Ascii.eqb c space.

(** [\s] of the [regexp] package: tab, newline, form feed, return, space. *)
Definition reSpace (c : ascii) : bool :=
  Ascii.eqb c tab || Ascii.eqb c newline ||
  Ascii.eqb c formfeed || Ascii.eqb c creturn || Ascii.eqb c space.

(** [\w] of the [regexp] package. *)
Definition reWord (c : ascii) : bool :=
  isDigit c || isUpperAZ c || isLowerAZ c || Ascii.eqb c "_"%char.

Definition isASCIIByte (c : ascii) : bool := nat_of_ascii c <? 128.

(** ** The [strings] package *)

Fixpoint mapString (f : ascii -> ascii) (s : string) : string :=
  match s with
  | EmptyString => EmptyString
  | String c r => String (f c) (mapString f r)
  end.

Fixpoint allString (p : ascii -> bool) (s : string) : bool :=
  match s with
  | EmptyString => true
  | String c r => p c && allString p r
  end.

Fixpoint takeWhile (p : ascii -> bool) (s : string) : string :=
  match s with
  | EmptyString => EmptyString
  | String c r => if p c then String c (takeWhile p r) else EmptyString
  end.

Fixpoint dropWhile (p : ascii -> bool) (s : string) : string :=
  match s with
  | EmptyString => EmptyString
  | String c r => if p c then dropWhile p r else s
  end.

Definition isASCII (s : string) : bool := allString isASCIIByte s.

Definition ToUpper (s : string) : string := mapString upperByte s.
Definition ToLower (s : string) : string := mapString lowerByte s.

Definition HasPrefix (s pre : string) : bool := prefix pre s.

(** [s[:n]] and [s[n:]]. *)
Definition sliceTo (s : string) (n : nat) : string := substring 0 n s.
Definition sliceFrom (s : string) (n : nat) : string :=
  substring n (String.length s - n) s.

Definition HasSuffix (s suf : string) : bool :=
  (String.length suf <=? String.length s) &&
  String.eqb (sliceFrom s (String.length s - String.length suf)) suf.

Definition TrimSuffix (s suf : string) : string :=
  if HasSuffix s suf then sliceTo s (String.length s - String.length suf)
  else s.

Fixpoint Contains (s sub : string) : bool :=
  prefix sub s ||
  match s with
  | EmptyString => false
  | String _ r => Contains r sub
  end.

Fixpoint trimRightSpace (s : string) : string :=
  match s with
  | EmptyString => EmptyString
  | String c r =>
      let r' := trimRightSpace r in
      if isSpace c && String.eqb r' EmptyString then EmptyString
      else String c r'
  end.

Definition TrimSpace (s : string) : string :=
  trimRightSpace (dropWhile isSpace s).

(** [strings.Fields]: the maximal runs of non-space bytes.  [cur] holds the
    bytes of the field being read, last byte first. *)
Fixpoint revString (acc s : string) : string :=
  match s with
  | EmptyString => acc
  | String c r => revString (String c acc) r
  end.

Fixpoint fieldsFrom (cur : string) (s : string) : list string :=
  match s with
  | EmptyString =>
      match cur with
      | EmptyString => []
      | _ => [revString EmptyString cur]
      end
  | String c r =>
      if isSpace c then
        match cur with
        | EmptyString => fieldsFrom EmptyString r
        | _ => revString EmptyString cur :: fieldsFrom EmptyString r
        end
      else fieldsFrom (String c cur) r
  end.

Definition Fields (s : string) : list string := fieldsFrom EmptyString s.

(** Prepend a byte to the first piece of a split. *)
Definition consHead (c : ascii) (l : list string) : list string :=
  match l with
  | [] => [String c EmptyString]
  | h :: t => String c h :: t
  end.

(** [strings.Split s sep] for a non-empty [sep]: cut at every occurrence of
    [sep], leftmost first, occurrences not overlapping.  [skip] counts the
    bytes of a matched separator still to pass over. *)
Fixpoint splitFrom (sep : string) (skip : nat) (s : string) : list string :=
  match s with
  | EmptyString => [EmptyString]
  | String c r =>
      match skip with
      | S k => splitFrom sep k r
      | O =>
          if prefix sep s
          then EmptyString :: splitFrom sep (String.length sep - 1) r
          else consHead c (splitFrom sep 0 r)
      end
  end.

Definition Split (s sep : string) : list string := splitFrom sep 0 s.

(** [strings.Join]. *)
Definition Join (parts : list string) (sep : string) : string :=
  String.concat sep parts.

(** [strings.ReplaceAll s old new] for a non-empty [old]. *)
Fixpoint replaceFrom (old new : string) (skip : nat) (s : string) : string :=
  match s with
  | EmptyString => EmptyString
  | String c r =>
      match skip with
      | S k => replaceFrom old new k r
      | O =>
          if prefix old s
          then new ++ replaceFrom old new (String.length old - 1) r
          else String c (replaceFrom old new 0 r)
      end
  end.

Definition ReplaceAll (s old new : string) : string := replaceFrom old new 0 s.

(** Membership in the labels of a [switch] case. *)
Fixpoint oneOf (s : string) (labels : list string) : bool :=
  match labels with
  | [] => false
  | l :: rest => String.eqb s l || oneOf s rest
  end.

Definition str1 (c : ascii) : string := String c EmptyString.
Definition dq : string := str1 "034"%char.
Definition nl : string := str1 newline.
Definition tb : string := str1 tab.

(** ** Identifier normalisation (toCamelCase and the entity name) *)

(** The body of the loop of [toCamelCase] on one part. *)
Definition camelPart (p : string) : string :=
  match p with
  | EmptyString => p
  | String c r =>
      if String.eqb p "id" then "ID"
      else ToUpper (str1 c) ++ r
  end.

Definition toCamelCase (s : string) : string :=
  Join (map camelPart (Split (ToLower s) "_")) "".

(** [if strings.HasSuffix(structName, "s") { structName = structName[:len-1] }] *)
Definition singularize (structName : string) : string :=
  if HasSuffix structName "s"
  then sliceTo structName (String.length structName - 1)
  else structName.

(** The entity name as derived by the per-table generators. *)
Definition structNameOf (tableName : string) : string :=
  singularize (toCamelCase tableName).

(** The entity name as derived by [generateMainGo]. *)
Definition mainGoStructName (tableName : string) : string :=
  toCamelCase (TrimSuffix tableName "s").

(** ** Data model *)

(** The structs [Column] and [Table]; the field [Type] of [Column] is
    [Type_] here. *)
Module Column.
Record t : Type := mk {
  Name : string;
  Type_ : string;
  IsPrimaryKey : bool;
  IsNullable : bool;
  DefaultValue : string;
  GoType : string;
  GormTag : string;
  JSONTag : string
}.

Definition withPrimaryKey (c : t) (b : bool) : t :=
  mk (Name c) (Type_ c) b (IsNullable c) (DefaultValue c)
     (GoType c) (GormTag c) (JSONTag c).
Definition withNullable (c : t) (b : bool) : t :=
  mk (Name c) (Type_ c) (IsPrimaryKey c) b (DefaultValue c)
     (GoType c) (GormTag c) (JSONTag c).
Definition withDefault (c : t) (d : string) : t :=
  mk (Name c) (Type_ c) (IsPrimaryKey c) (IsNullable c) d
     (GoType c) (GormTag c) (JSONTag c).
Definition withGoInfo (c : t) (goType gormTag jsonTag : string) : t :=
  mk (Name c) (Type_ c) (IsPrimaryKey c) (IsNullable c) (DefaultValue c)
     goType gormTag jsonTag.
End Column.

Module Table.
Record t : Type := mk {
  Name : string;
  Columns : list Column.t
}.
End Table.

Inductive result (A : Type) : Type :=
| Ok (a : A)
| Err (e : string).
Arguments Ok {A} a.
Arguments Err {A} e.

(** ** The regular expressions of the parser

    Each of the three patterns can match in one way only at a given start
    (a repetition is always followed by a byte outside its class), so the
    leftmost match of [regexp] is the first start at which the pattern
    matches when read left to right. *)

(** A literal under [(?i)]; [lit] is given in upper case. *)
Fixpoint matchFold (lit s : string) : option string :=
  match lit with
  | EmptyString => Some s
  | String l lit' =>
      match s with
      | EmptyString => None
      | String c r =>
          if Ascii.eqb (upperByte c) l then matchFold lit' r else None
      end
  end.

Definition startsWith (p : ascii -> bool) (s : string) : bool :=
  match s with
  | EmptyString => false
  | String c _ => p c
  end.

(** [(?i)CREATE\s+TABLE\s+(\w+)\s*\(] anchored at the start of [s]; the
    result is the submatch. *)
Definition createTableAt (s : string) : option string :=
  match matchFold "CREATE" s with
  | None => None
  | Some r1 =>
      if negb (startsWith reSpace r1) then None else
      match matchFold "TABLE" (dropWhile reSpace r1) with
      | None => None
      | Some r2 =>
          if negb (startsWith reSpace r2) then None else
          let r3 := dropWhile reSpace r2 in
          let name := takeWhile reWord r3 in
          if String.eqb name EmptyString then None else
          if startsWith (Ascii.eqb "("%char)
               (dropWhile reSpace (dropWhile reWord r3))
          then Some name else None
      end
  end.

Fixpoint findCreateTable (s : string) : option string :=
  match createTableAt s with
  | Some name => Some name
  | None =>
      match s with
      | EmptyString => None
      | String _ r => findCreateTable r
      end
  end.

Definition defaultValueByte (c : ascii) : bool :=
  negb (Ascii.eqb c ","%char) && negb (reSpace c).

(** [(?i)DEFAULT\s+([^,\s]+)] anchored at the start of [s]. *)
Definition defaultAt (s : string) : option string :=
  match matchFold "DEFAULT" s with
  | None => None
  | Some r1 =>
      if negb (startsWith reSpace r1) then None else
      let v := takeWhile defaultValueByte (dropWhile reSpace r1) in
      if String.eqb v EmptyString then None else Some v
  end.

Fixpoint findDefault (s : string) : option string :=
  match defaultAt s with
  | Some v => Some v
  | None =>
      match s with
      | EmptyString => None
      | String _ r => findDefault r
      end
  end.

(** [^([A-Z]+)] with [FindString]: the leading run of capitals, or the empty
    string when there is none. *)
Definition baseTypeOf (sqlType : string) : string := takeWhile isUpperAZ sqlType.

(** ** Schema parser *)

Definition constraintKeywords : list string :=
  ["CONSTRAINT"; "PRIMARY KEY"; "FOREIGN KEY"; "UNIQUE"; "CHECK"; "INDEX"].

Definition isConstraintLine (lineUpper : string) : bool :=
  existsb (fun keyword => Contains lineUpper keyword) constraintKeywords.

Definition parseColumnDefinition (line0 : string) : option Column.t :=
  let line := TrimSuffix (TrimSpace line0) "," in
  let lineUpper := ToUpper line in
  if isConstraintLine lineUpper then None else
  match Fields line with
  | name :: ty :: rest =>
      let columnType :=
        match rest with
        | p2 :: _ =>
            if String.eqb (ToUpper ty) "DOUBLE" &&
               String.eqb (ToUpper p2) "PRECISION"
            then "DOUBLE PRECISION" else ty
        | [] => ty
        end in
      let column := Column.mk name columnType false true "" "" "" "" in
      let fullLine := ToUpper line in
      let column :=
        if Contains fullLine "PRIMARY KEY"
        then Column.withPrimaryKey column true else column in
      let column :=
        if Contains fullLine "NOT NULL"
        then Column.withNullable column false else column in
      let column :=
        match findDefault line with
        | Some v => Column.withDefault column v
        | None => column
        end in
      Some column
  | _ => None
  end.

Definition goTypeFor (baseType : string) (isPrimaryKey : bool) : string :=
  if oneOf baseType ["INT"; "INTEGER"; "SERIAL"; "BIGSERIAL"; "BIGINT"] then
    (if isPrimaryKey then "int64" else "int64")
  else if oneOf baseType ["VARCHAR"; "TEXT"; "CHAR"] then "string"
  else if oneOf baseType ["JSONB"; "JSON"] then "[]string"
  else if oneOf baseType ["BOOLEAN"; "BOOL"] then "bool"
  else if oneOf baseType ["TIMESTAMP"; "DATETIME"] then "time.Time"
  else if oneOf baseType ["DATE"] then "time.Time"
  else if oneOf baseType
            ["DECIMAL"; "NUMERIC"; "FLOAT"; "REAL"; "DOUBLE"; "DOUBLE PRECISION"]
       then "float64"
  else if oneOf baseType ["UUID"] then "string"
  else "string".

Definition generateGoFieldInfo (column : Column.t) : Column.t :=
  let sqlType := ToUpper (Column.Type_ column) in
  let baseType := baseTypeOf sqlType in
  let goType := goTypeFor baseType (Column.IsPrimaryKey column) in
  let columnNameLower := ToLower (Column.Name column) in
  let gormParts :=
    List.concat
      [ ["column:" ++ columnNameLower];
        if Column.IsPrimaryKey column then ["primarykey"] else [];
        if negb (Column.IsNullable column) then ["not null"] else [];
        if Contains sqlType "JSONB" then ["type:jsonb"]
        else if Contains sqlType "JSON" then ["type:json"] else [] ] in
  let gormTag := "gorm:" ++ dq ++ Join gormParts ";" ++ dq in
  let jsonTag := "json:" ++ dq ++ Column.Name column ++ ",omitempty" ++ dq in
  Column.withGoInfo column goType gormTag jsonTag.

(** What [os.Open] and the [bufio.Scanner] give the parser: the file cannot
    be opened, or the scanner yields [lines] and ends with or without an
    error. *)
Inductive FileRead : Type :=
| OpenFails
| Scanned (lines : list string) (scanErr : bool).

(** The state of the line loop: the tables closed so far, the table being
    read, and the [inTableDefinition] flag. *)
Record ParseState : Type := mkParseState {
  tables : list Table.t;
  currentTable : option Table.t;
  inTableDefinition : bool
}.

Definition parseLine (st : ParseState) (rawLine : string) : ParseState :=
  let line := TrimSpace rawLine in
  if HasPrefix line "--" || HasPrefix line "/*" || String.eqb line "" then st
  else
    match findCreateTable line with
    | Some tableName =>
        mkParseState (tables st) (Some (Table.mk tableName [])) true
    | None =>
        if inTableDefinition st && Contains line ");" then
          match currentTable st with
          | Some t => mkParseState (tables st ++ [t])%list None false
          | None => mkParseState (tables st) None false
          end
        else
          match inTableDefinition st, currentTable st with
          | true, Some t =>
              match parseColumnDefinition line with
              | Some column =>
                  mkParseState (tables st)
                    (Some (Table.mk (Table.Name t)
                             (Table.Columns t ++ [column])%list))
                    true
              | None => st
              end
          | _, _ => st
          end
    end.

Definition withGoFieldInfo (t : Table.t) : Table.t :=
  Table.mk (Table.Name t) (map generateGoFieldInfo (Table.Columns t)).

Definition parseLines (lines : list string) : list Table.t :=
  map withGoFieldInfo
      (tables (fold_left parseLine lines (mkParseState [] None false))).

Definition parseSQLSchema (file : FileRead) : result (list Table.t) :=
  match file with
  | OpenFails => Err "failed to open SQL file"
  | Scanned lines true => Err "error reading SQL file"
  | Scanned lines false => Ok (parseLines lines)
  end.

(** [bufio.ScanLines] on a text whose lines fit the scanner's buffer: the
    lines without their terminator, a final carriage return dropped. *)
Fixpoint scanLinesFrom (cur : string) (s : string) : list string :=
  match s with
  | EmptyString =>
      match cur with
      | EmptyString => []
      | _ => [TrimSuffix (revString EmptyString cur) (str1 creturn)]
      end
  | String c r =>
      if Ascii.eqb c newline
      then TrimSuffix (revString EmptyString cur) (str1 creturn)
             :: scanLinesFrom EmptyString r
      else scanLinesFrom (String c cur) r
  end.

Definition scanLines (text : string) : list string :=
  scanLinesFrom EmptyString text.

Definition linesText (lines : list string) : string :=
  String.concat nl lines.

(** The schema of the README and of the "no tables" error message. *)
Definition usersSchema : list string :=
  [ "CREATE TABLE users (";
    "    id BIGSERIAL PRIMARY KEY,";
    "    name VARCHAR(255) NOT NULL,";
    "    email VARCHAR(255) UNIQUE NOT NULL,";
    "    created_at TIMESTAMPTZ DEFAULT NOW()";
    ");" ].

(** The same table with the uniqueness of email as a clause of its own. *)
Definition usersSchemaUniqueClause : list string :=
  [ "CREATE TABLE users (";
    "    id BIGSERIAL PRIMARY KEY,";
    "    name VARCHAR(255) NOT NULL,";
    "    email VARCHAR(255) NOT NULL,";
    "    created_at TIMESTAMPTZ DEFAULT NOW(),";
    "    UNIQUE (email)";
    ");" ].

Definition columnNames (t : Table.t) : list string :=
  map Column.Name (Table.Columns t).

(** ** Template engine *)

(** The [variables] map is given as the list of its entries in the order the
    [range] loop visits them (Go leaves that order unspecified). *)
Definition Bindings : Type := list (string * string).

Definition placeholder (key : string) : string := "<" ++ key ++ ">".

Definition replaceTemplateVariables (template : string) (variables : Bindings)
  : string :=
  fold_left
    (fun result kv => ReplaceAll result (placeholder (fst kv)) (snd kv))
    variables template.

Section Templates.
(** The template store: the content of [templates/<dir>/<name>.template],
    or [None] when the file cannot be read. *)
Variable templates : string -> option string.

Definition loadTemplate (templateName : string) : result string :=
  match templates templateName with
  | Some content => Ok content
  | None => Err ("failed to read template " ++ templateName)
  end.

Definition processTemplate (templateName : string) (variables : Bindings)
  : result string :=
  match loadTemplate templateName with
  | Ok template => Ok (replaceTemplateVariables template variables)
  | Err e => Err e
  end.
End Templates.

(** ** Domain model and DTO generators *)

Definition nameIs (col : Column.t) (lower : string) : bool :=
  String.eqb (ToLower (Column.Name col)) lower.

(** The [hasID] loop of [generateDomainModel]. *)
Definition hasIDColumn (table : Table.t) : bool :=
  existsb (fun col => nameIs col "id") (Table.Columns table).

(** The [continue] test of the field loop of [generateDomainModel]. *)
Definition domainSkips (col : Column.t) : bool :=
  nameIs col "created_at" || nameIs col "updated_at" ||
  nameIs col "deleted_at" || nameIs col "is_deleted".

Definition domainFieldLine (col : Column.t) : string :=
  tb ++ toCamelCase (Column.Name col) ++ " " ++ Column.GoType col ++ " `" ++
  Column.GormTag col ++ " " ++ Column.JSONTag col ++ "`" ++ nl.

Definition domainModelFields (table : Table.t) : string :=
  fold_left
    (fun fields col =>
       if domainSkips col then fields else fields ++ domainFieldLine col)
    (Table.Columns table)
    (if hasIDColumn table then "" else tb ++ "MetaField" ++ nl).

Definition importSkips (col : Column.t) : bool :=
  nameIs col "created_at" || nameIs col "updated_at" ||
  nameIs col "deleted_at".

Definition getImportStatement (table : Table.t) : string :=
  if existsb
       (fun col => negb (importSkips col) &&
                   String.eqb (Column.GoType col) "time.Time")
       (Table.Columns table)
  then "import " ++ dq ++ "time" ++ dq else "".

Definition domainModelVariables (table : Table.t) : Bindings :=
  let structName := structNameOf (Table.Name table) in
  [ ("import_statement", getImportStatement table);
    ("struct_name", structName);
    ("entity_name", ToLower structName);
    ("fields", domainModelFields table);
    ("table_name", Table.Name table) ].

(** A failed template is a [panic] in the source; it is the [Err] here. *)
Definition generateDomainModel (templates : string -> option string)
           (table : Table.t) : result string :=
  processTemplate templates "domain-model" (domainModelVariables table).

(** The [continue] test of the field loop of [generateDTO]. *)
Definition dtoSkips (col : Column.t) : bool :=
  nameIs col "id" || nameIs col "created_at" || nameIs col "updated_at" ||
  nameIs col "deleted_at" || nameIs col "is_deleted".

Definition getDTOImportStatement (table : Table.t) : string :=
  if existsb
       (fun col => negb (dtoSkips col) &&
                   String.eqb (Column.GoType col) "time.Time")
       (Table.Columns table)
  then tb ++ dq ++ "time" ++ dq else "".

(** The three builders of [generateDTO]. *)
Record DTOBuilders : Type := mkDTOBuilders {
  dtoFieldsText : string;
  marshalFields : string;
  unmarshalFields : string
}.

Definition dtoIDLine : string :=
  tb ++ "ID int64 `json:" ++ dq ++ "id,omitempty" ++ dq ++ "`" ++ nl.

Definition dtoStep (b : DTOBuilders) (col : Column.t) : DTOBuilders :=
  if dtoSkips col then b else
  let fieldName := toCamelCase (Column.Name col) in
  let jsonTag :=
    "`json:" ++ dq ++ ToLower (Column.Name col) ++ ",omitempty" ++ dq ++ "`" in
  mkDTOBuilders
    (dtoFieldsText b ++
       tb ++ fieldName ++ " " ++ Column.GoType col ++ " " ++ jsonTag ++ nl)
    (marshalFields b ++ nl ++ tb ++ tb ++ fieldName ++ ": d." ++ fieldName ++ ",")
    (unmarshalFields b ++
       nl ++ tb ++ "d." ++ fieldName ++ " = domainModel." ++ fieldName).

Definition dtoBuilders (table : Table.t) : DTOBuilders :=
  fold_left dtoStep (Table.Columns table) (mkDTOBuilders dtoIDLine "" "").

Definition dtoFields (table : Table.t) : string :=
  dtoFieldsText (dtoBuilders table).

Definition dtoVariables (moduleName : string) (table : Table.t) : Bindings :=
  let structName := structNameOf (Table.Name table) in
  let b := dtoBuilders table in
  [ ("module_name", moduleName);
    ("dto_struct_name", structName);
    ("entity_name", ToLower structName);
    ("fields", dtoFieldsText b);
    ("plural_name", structName ++ "s");
    ("struct_name", structName);
    ("import_statement", getDTOImportStatement table);
    ("marshal_fields", marshalFields b);
    ("unmarshal_fields", unmarshalFields b) ].

Definition generateDTO (templates : string -> option string)
           (moduleName : string) (table : Table.t) : result string :=
  processTemplate templates "dto" (dtoVariables moduleName table).

(** ** Migration generator *)

(** The five flags set by the first loop of [generateCreateTable]. *)
Record MetaFlags : Type := mkMetaFlags {
  hasID : bool;
  hasCreatedAt : bool;
  hasUpdatedAt : bool;
  hasDeletedAt : bool;
  hasIsDeleted : bool
}.

Definition noMetaFlags : MetaFlags := mkMetaFlags false false false false false.

(** The [switch lowerName] of that loop. *)
Definition markMeta (f : MetaFlags) (col : Column.t) : MetaFlags :=
  let lowerName := ToLower (Column.Name col) in
  if String.eqb lowerName "id" then
    mkMetaFlags true (hasCreatedAt f) (hasUpdatedAt f) (hasDeletedAt f) (hasIsDeleted f)
  else if String.eqb lowerName "created_at" then
    mkMetaFlags (hasID f) true (hasUpdatedAt f) (hasDeletedAt f) (hasIsDeleted f)
  else if String.eqb lowerName "updated_at" then
    mkMetaFlags (hasID f) (hasCreatedAt f) true (hasDeletedAt f) (hasIsDeleted f)
  else if String.eqb lowerName "deleted_at" then
    mkMetaFlags (hasID f) (hasCreatedAt f) (hasUpdatedAt f) true (hasIsDeleted f)
  else if String.eqb lowerName "is_deleted" then
    mkMetaFlags (hasID f) (hasCreatedAt f) (hasUpdatedAt f) (hasDeletedAt f) true
  else f.

Definition metaFlagsOf (table : Table.t) : MetaFlags :=
  fold_left markMeta (Table.Columns table) noMetaFlags.

Definition mapGoTypeToPGType (goType columnName : string) : string :=
  let lowerName := ToLower columnName in
  if String.eqb lowerName "id" then "BIGSERIAL"
  else if HasSuffix lowerName "_id" &&
          (String.eqb goType "int64" || String.eqb goType "uint" ||
           String.eqb goType "int") then "BIGINT"
  else if String.eqb lowerName "created_at" ||
          String.eqb lowerName "updated_at" ||
          String.eqb lowerName "deleted_at" then "TIMESTAMPTZ"
  else if Contains lowerName "timestamp" || Contains lowerName "_ts" ||
          String.eqb lowerName "key_time" then "BIGINT"
  else if String.eqb lowerName "state" &&
          (String.eqb goType "string" || String.eqb goType "[]byte") then "JSONB"
  else if String.eqb goType "[]int" then "JSONB"
  else if String.eqb goType "string" then
    if Contains lowerName "type" || String.eqb lowerName "activity_flag" ||
       String.eqb lowerName "awake_state" || String.eqb lowerName "light_state" ||
       String.eqb lowerName "deep_state" || String.eqb lowerName "rem_state"
    then "INTEGER"
    else if Contains lowerName "name" ||
            Contains lowerName "id" && negb (HasSuffix lowerName "_id")
    then "TEXT"
    else "TEXT"
  else if oneOf goType ["int"; "int32"] then "INTEGER"
  else if String.eqb goType "int64" then "BIGINT"
  else if String.eqb goType "float32" then "REAL"
  else if String.eqb goType "float64" then "DOUBLE PRECISION"
  else if String.eqb goType "bool" then "BOOLEAN"
  else if String.eqb goType "time.Time" then "TIMESTAMPTZ"
  else if String.eqb goType "[]byte" then "BYTEA"
  else if existsb (Contains lowerName)
            ["count"; "battery"; "mins"; "hr"; "pp"; "idx"] then "INTEGER"
  else if existsb (Contains lowerName)
            ["distance"; "calories"; "threshold"; "psv"; "conv_"; "pwm"; "rr";
             "psf"; "lf"; "hf"; "rmssd"; "tatpim"; "bmr"; "sdhr"]
       then "DOUBLE PRECISION"
  else "TEXT".

Definition generateColumnDefinition (col : Column.t) (tableName : string)
  : string :=
  let pgType :=
    if negb (String.eqb (Column.Type_ col) "") then Column.Type_ col
    else mapGoTypeToPGType (Column.GoType col) (Column.Name col) in
  Column.Name col ++ " " ++ pgType ++
  (if Column.IsPrimaryKey col then " PRIMARY KEY" else "") ++
  (if negb (Column.IsNullable col) && negb (Column.IsPrimaryKey col)
   then " NOT NULL" else "") ++
  (if negb (String.eqb (Column.DefaultValue col) "") &&
      negb (Column.IsPrimaryKey col)
   then " DEFAULT " ++ Column.DefaultValue col else "").

(** [tableName] of the migration generators: the schema-qualified name. *)
Definition qualifiedName (table : Table.t) (schema : string) : string :=
  if negb (String.eqb schema "") then schema ++ "." ++ Table.Name table
  else Table.Name table.

Definition generateCreateTable (table : Table.t) (schema : string) : string :=
  let f := metaFlagsOf table in
  let sql := "CREATE TABLE IF NOT EXISTS " ++ qualifiedName table schema ++
             " (" ++ nl in
  let sql := if negb (hasID f)
             then sql ++ "    id BIGSERIAL PRIMARY KEY," ++ nl else sql in
  let sql :=
    fold_left
      (fun sql col =>
         sql ++ "    " ++ generateColumnDefinition col (Table.Name table) ++
         "," ++ nl)
      (Table.Columns table) sql in
  let sql := if negb (hasCreatedAt f)
             then sql ++ "    created_at TIMESTAMPTZ DEFAULT NOW()," ++ nl
             else sql in
  let sql := if negb (hasUpdatedAt f)
             then sql ++ "    updated_at TIMESTAMPTZ DEFAULT NOW()," ++ nl
             else sql in
  let sql := if negb (hasDeletedAt f)
             then sql ++ "    deleted_at TIMESTAMPTZ," ++ nl else sql in
  let sql := if negb (hasIsDeleted f)
             then sql ++ "    is_deleted BOOLEAN DEFAULT FALSE" ++ nl
             else TrimSuffix sql ("," ++ nl) ++ nl in
  sql ++ ");".

(** The test of [generateIndexes] and [generateDropIndexes]. *)
Definition isIndexed (col : Column.t) : bool :=
  let lowerName := ToLower (Column.Name col) in
  Contains lowerName "user_id" ||
  Contains lowerName "_id" && negb (Column.IsPrimaryKey col) ||
  String.eqb lowerName "timestamp" ||
  String.eqb lowerName "key_time" ||
  String.eqb lowerName "start_ts" ||
  String.eqb lowerName "end_ts".

Definition schemaPrefixOf (schema : string) : string :=
  if negb (String.eqb schema "") then schema ++ "." else "".

Definition indexNameOf (table : Table.t) (col : Column.t) : string :=
  "idx_" ++ Table.Name table ++ "_" ++ Column.Name col.

Definition generateIndexes (table : Table.t) (schema : string) : string :=
  fold_left
    (fun indexes col =>
       if isIndexed col then
         indexes ++ "CREATE INDEX IF NOT EXISTS " ++ schemaPrefixOf schema ++
         indexNameOf table col ++ " ON " ++ qualifiedName table schema ++
         "(" ++ Column.Name col ++ ");" ++ nl
       else indexes)
    (Table.Columns table) "".

Definition generateDropIndexes (table : Table.t) (schema : string) : string :=
  fold_left
    (fun drops col =>
       if isIndexed col then
         drops ++ "DROP INDEX IF EXISTS " ++ schemaPrefixOf schema ++
         indexNameOf table col ++ ";" ++ nl
       else drops)
    (Table.Columns table) "".

(** The four builders filled by the table loop of [generateGooseMigration]. *)
Record MigrationBuilders : Type := mkMigrationBuilders {
  tableCreations : string;
  tableDrops : string;
  indexCreations : string;
  indexDrops : string
}.

Definition dropTableLine (schema : string) (table : Table.t) : string :=
  "DROP TABLE IF EXISTS " ++ qualifiedName table schema ++ ";" ++ nl.

Definition migrationStep (schema : string) (b : MigrationBuilders)
           (table : Table.t) : MigrationBuilders :=
  mkMigrationBuilders
    (tableCreations b ++ generateCreateTable table schema ++ nl)
    (tableDrops b ++ dropTableLine schema table)
    (indexCreations b ++ generateIndexes table schema)
    (indexDrops b ++ generateDropIndexes table schema).

Definition migrationBuilders (tables : list Table.t) (schema : string)
  : MigrationBuilders :=
  fold_left (migrationStep schema) tables (mkMigrationBuilders "" "" "" "").

(** The loop [for i := len(tableDropLines) - 1; i >= 0; i--]. *)
Definition reverseDropLines (tableDrops : string) : string :=
  fold_left
    (fun reversedDrops line =>
       if negb (String.eqb line "") then reversedDrops ++ line ++ nl
       else reversedDrops)
    (rev (Split (TrimSpace tableDrops) nl)) "".

Definition gooseMigrationVariables (tables : list Table.t) (schema : string)
  : Bindings :=
  let b := migrationBuilders tables schema in
  [ ("schema_creation",
     if negb (String.eqb schema "")
     then "CREATE SCHEMA IF NOT EXISTS " ++ dq ++ schema ++ dq ++ ";" ++ nl ++ nl
     else "");
    ("table_creations", tableCreations b);
    ("index_creations", indexCreations b);
    ("index_drops", indexDrops b);
    ("table_drops", reverseDropLines (tableDrops b));
    ("schema_drops",
     if negb (String.eqb schema "")
     then "DROP SCHEMA IF EXISTS " ++ dq ++ schema ++ dq ++ " CASCADE;" ++ nl
     else "") ].

(** The schema [generateAllFiles] passes to [generateGooseMigration]. *)
Definition migrationSchema (moduleName : string) : string :=
  if String.eqb moduleName "wearable-service" then "wearable" else "".

(** The value bound to [key], as a Go map lookup. *)
Fixpoint binding (key : string) (variables : Bindings) : string :=
  match variables with
  | [] => ""
  | (k, v) :: rest => if String.eqb k key then v else binding key rest
  end.

(** The text of the migration file; [None] when there is no table (the
    function returns without writing). *)
Definition gooseMigrationContent (templates : string -> option string)
           (tables : list Table.t) (schema : string) : option (result string) :=
  match tables with
  | [] => None
  | _ => Some (processTemplate templates "goose-migration"
                 (gooseMigrationVariables tables schema))
  end.

Definition accountsSchema : list string :=
  [ "CREATE TABLE accounts (";
    "    id BIGSERIAL PRIMARY KEY,";
    "    name VARCHAR(255) NOT NULL";
    ");";
    "";
    "CREATE TABLE sessions (";
    "    id BIGSERIAL PRIMARY KEY,";
    "    account_id BIGINT NOT NULL,";
    "    token TEXT";
    ");" ].

(** ** Orchestration *)

(** A Go [error]: [None] is [nil]. *)
Definition error : Type := option string.

Definition noTablesError (sqlSchemaFile : string) : string :=
  "❌ No tables found in SQL schema '" ++ sqlSchemaFile ++ "'." ++ nl ++
  "💡 Please ensure your SQL file contains valid CREATE TABLE statements." ++ nl ++
  "📋 Example:" ++ nl ++
  "   CREATE TABLE users (" ++ nl ++
  "       id BIGSERIAL PRIMARY KEY," ++ nl ++
  "       name VARCHAR(255) NOT NULL," ++ nl ++
  "       email VARCHAR(255) UNIQUE NOT NULL," ++ nl ++
  "       created_at TIMESTAMPTZ DEFAULT NOW()" ++ nl ++
  "   );".

Section Orchestrator.
(** The file system and the external tools are the [World]; each step of
    the run that touches it is a state transformer with a Go [error].
    What the run prints on the console is not part of it. *)
Variable World : Type.
Variable openSchema : string -> World -> FileRead.
Variable createDirectoryStructure : string -> World -> error * World.
Variable generateAllFiles : string -> list Table.t -> World -> error * World.
Variable formatGeneratedFiles : string -> World -> error * World.
Variable initializeGoModule : string -> World -> error * World.

Definition createHexagonalArchitecture (moduleName sqlSchemaFile : string)
           (w : World) : error * World :=
  match parseSQLSchema (openSchema sqlSchemaFile w) with
  | Err e => (Some ("failed to parse SQL schema: " ++ e), w)
  | Ok tables =>
      if Nat.eqb (List.length tables) 0
      then (Some (noTablesError sqlSchemaFile), w)
      else
        match createDirectoryStructure moduleName w with
        | (Some e, w1) =>
            (Some ("failed to create directory structure: " ++ e), w1)
        | (None, w1) =>
            match generateAllFiles moduleName tables w1 with
            | (Some e, w2) => (Some ("failed to generate files: " ++ e), w2)
            | (None, w2) =>
                (* a formatting failure is only reported *)
                let w3 := snd (formatGeneratedFiles moduleName w2) in
                match initializeGoModule moduleName w3 with
                | (Some e, w4) =>
                    (Some ("failed to initialize Go module: " ++ e), w4)
                | (None, w4) => (None, w4)
                end
            end
        end
  end.
End Orchestrator.

(** A world that records what is done to it, to run the orchestrator on. *)
Inductive FsEvent : Type :=
| MkdirAll (moduleName : string)
| WriteFiles (moduleName : string) (tables : list Table.t)
| RunGofmt (moduleName : string)
| RunGoModTidy (moduleName : string).

Record LogWorld : Type := mkLogWorld {
  schemaFile : list string;
  events : list FsEvent
}.

Definition logStep (e : FsEvent) (w : LogWorld) : error * LogWorld :=
  (None, mkLogWorld (schemaFile w) (events w ++ [e])%list).

Definition runLogged (moduleName sqlSchemaFile : string) (w : LogWorld)
  : error * LogWorld :=
  createHexagonalArchitecture LogWorld
    (fun _ w => Scanned (schemaFile w) false)
    (fun m => logStep (MkdirAll m))
    (fun m ts => logStep (WriteFiles m ts))
    (fun m => logStep (RunGofmt m))
    (fun m => logStep (RunGoModTidy m))
    moduleName sqlSchemaFile w.

(** ** Identifier normalisation: toSnakeCase *)

(** The loop of [toSnakeCase]; [first] says that the byte read is at index
    0, where no separator is written. *)
Fixpoint snakeFrom (first : bool) (s : string) : string :=
  match s with
  | EmptyString => EmptyString
  | String r rest =>
      (if negb first && String.eqb (ToUpper (str1 r)) (str1 r)
       then "_" else "") ++
      ToLower (str1 r) ++ snakeFrom false rest
  end.

Definition toSnakeCase (s : string) : string := snakeFrom true s.

(** ** main.go and the REST layer *)

(** A [for i, x := range l] loop over a builder state. *)
Fixpoint foldIndexed {A B : Type} (f : B -> nat -> A -> B) (i : nat)
         (l : list A) (b : B) : B :=
  match l with
  | [] => b
  | x :: rest => foldIndexed f (S i) rest (f b i x)
  end.

(** The builders of [generateMainGo] filled by its table loop. *)
Record MainGoBuilders : Type := mkMainGoBuilders {
  repoInit : string;
  appServiceInit : string;
  adapterInit : string;
  mainServiceParams : string;
  endpoints : string
}.

Definition mainGoStep (b : MainGoBuilders) (i : nat) (table : Table.t)
  : MainGoBuilders :=
  let structName := toCamelCase (TrimSuffix (Table.Name table) "s") in
  let entityName := ToLower structName in
  let entityPlural := ToLower (Table.Name table) in
  mkMainGoBuilders
    (repoInit b ++ tb ++ entityName ++ "Repo := postgres.New" ++ structName ++
       "Repo(db)" ++ nl)
    (appServiceInit b ++ tb ++ entityName ++ "AppService := application.New" ++
       structName ++ "Domain(ctx, " ++ entityName ++ "Repo)" ++ nl)
    (adapterInit b ++ tb ++ entityName ++ "Adapter := interactor.New" ++
       structName ++ "Adapter(ctx, " ++ entityName ++ "AppService)" ++ nl)
    ((if 0 <? i then mainServiceParams b ++ ", " else mainServiceParams b) ++
       entityName ++ "Adapter")
    (endpoints b ++
       nl ++ tb ++ "log.Info(" ++ dq ++ "  GET/POST /" ++ entityPlural ++
       " - " ++ structName ++ " management" ++ dq ++ ")" ++
       nl ++ tb ++ "log.Info(" ++ dq ++ "  GET/PUT/DELETE /" ++ entityPlural ++
       "/{id} - " ++ structName ++ " operations" ++ dq ++ ")").

Definition mainGoBuilders (tables : list Table.t) : MainGoBuilders :=
  foldIndexed mainGoStep 0 tables
    (mkMainGoBuilders
       (nl ++ tb ++ "// Initialize repositories" ++ nl)
       (nl ++ tb ++ "// Initialize application services" ++ nl)
       (nl ++ tb ++ "// Initialize interactor adapters" ++ nl)
       "" "").

Definition mainGoVariables (moduleName : string) (tables : list Table.t)
  : Bindings :=
  let b := mainGoBuilders tables in
  [ ("module_name", moduleName);
    ("additional_imports",
     nl ++ tb ++ dq ++ moduleName ++ "/internal/application" ++ dq ++
     nl ++ tb ++ dq ++ moduleName ++ "/internal/interactor" ++ dq ++
     nl ++ tb ++ dq ++ moduleName ++ "/internal/interactor/rest" ++ dq ++
     nl ++ tb ++ dq ++ moduleName ++
       "/internal/repository/implementor/postgres" ++ dq);
    ("repository_initialization", repoInit b);
    ("application_service_initialization", appServiceInit b);
    ("adapter_initialization", adapterInit b);
    ("service_parameters", ", " ++ mainServiceParams b);
    ("endpoint_logging", endpoints b) ].

(** A [panic] is the [Err] of the result. *)
Definition generateMainGo (templates : string -> option string)
           (moduleName : string) (tables : list Table.t) : result string :=
  if Nat.eqb (List.length tables) 0
  then Err "Failed to generate main.go (no tables)"
  else
    match processTemplate templates "main-go"
            (mainGoVariables moduleName tables) with
    | Ok content => Ok content
    | Err e => Err ("Failed to generate main.go: " ++ e)
    end.

(** The builders of [generateRestAPIMain]. *)
Record RestBuilders : Type := mkRestBuilders {
  serviceFields : string;
  restServiceParams : string;
  serviceInit : string;
  routeRegistrations : string
}.

Definition restStep (b : RestBuilders) (i : nat) (table : Table.t)
  : RestBuilders :=
  let structName := singularize (toCamelCase (Table.Name table)) in
  let interfaceName := "interactor.I" ++ structName ++ "Service" in
  let fieldName := ToLower structName ++ "Service" in
  let entityName := ToLower structName in
  let entityPlural := entityName ++ "s" in
  mkRestBuilders
    (serviceFields b ++ tb ++ fieldName ++ " " ++ interfaceName ++ nl)
    ((if 0 <? i then restServiceParams b ++ ", " else restServiceParams b) ++
       fieldName ++ " " ++ interfaceName)
    (serviceInit b ++ tb ++ tb ++ fieldName ++ ": " ++ fieldName ++ "," ++ nl)
    (routeRegistrations b ++
       (nl ++ tb ++ "// " ++ structName ++ " routes" ++ nl) ++
       (tb ++ entityName ++ "Handler := New" ++ structName ++
          "Handler(r.ctx, r." ++ fieldName ++ ")" ++ nl) ++
       (tb ++ "router.GET(" ++ dq ++ "/" ++ entityPlural ++ dq ++ ", " ++
          entityName ++ "Handler.GetAll" ++ (structName ++ "s") ++ ")" ++ nl) ++
       (tb ++ "router.POST(" ++ dq ++ "/" ++ entityPlural ++ dq ++ ", " ++
          entityName ++ "Handler.Create" ++ structName ++ ")" ++ nl) ++
       (tb ++ "router.GET(" ++ dq ++ "/" ++ entityPlural ++ "/:id" ++ dq ++
          ", " ++ entityName ++ "Handler.Get" ++ structName ++ "ByID)" ++ nl) ++
       (tb ++ "router.PUT(" ++ dq ++ "/" ++ entityPlural ++ "/:id" ++ dq ++
          ", " ++ entityName ++ "Handler.Update" ++ structName ++ ")" ++ nl) ++
       (tb ++ "router.DELETE(" ++ dq ++ "/" ++ entityPlural ++ "/:id" ++ dq ++
          ", " ++ entityName ++ "Handler.Delete" ++ structName ++ ")" ++ nl)).

Definition restBuilders (tables : list Table.t) : RestBuilders :=
  foldIndexed restStep 0 tables (mkRestBuilders "" "" "" "").

Definition restAPIMainVariables (moduleName : string) (tables : list Table.t)
  : Bindings :=
  let b := restBuilders tables in
  [ ("module_name", moduleName);
    ("service_fields", serviceFields b);
    ("service_params",
     if 0 <? String.length (restServiceParams b)
     then ", " ++ restServiceParams b else "");
    ("service_init", serviceInit b);
    ("route_registrations", routeRegistrations b);
    ("interactor_import",
     if 0 <? List.length tables
     then nl ++ nl ++ tb ++ dq ++ moduleName ++ "/internal/interactor" ++ dq
     else "") ].

Definition generateRestAPIMain (templates : string -> option string)
           (moduleName : string) (tables : list Table.t) : result string :=
  match processTemplate templates "rest-api-main"
          (restAPIMainVariables moduleName tables) with
  | Ok content => Ok content
  | Err e => Err ("Error processing rest-api-main template: " ++ e)
  end.

(** The [continue] test of the column loop of [generateRestParameter]. *)
Definition restParameterSkips (col : Column.t) : bool :=
  nameIs col "id" || nameIs col "created_at" || nameIs col "updated_at" ||
  nameIs col "deleted_at" || nameIs col "is_deleted".

Definition reflectTypeOf (col : Column.t) : string :=
  if String.eqb (Column.GoType col) "int64" then "reflect.Int64"
  else if String.eqb (Column.GoType col) "float64" then "reflect.Float64"
  else if String.eqb (Column.GoType col) "bool" then "reflect.Bool"
  else "reflect.String".

Record ParameterBuilders : Type := mkParameterBuilders {
  filterFields : string;
  sortingFields : string
}.

Definition parameterStep (b : ParameterBuilders) (col : Column.t)
  : ParameterBuilders :=
  if restParameterSkips col then b else
  mkParameterBuilders
    (filterFields b ++
       nl ++ tb ++ tb ++ "{Omitempty: true, DBKey: " ++ dq ++ Column.Name col ++
       dq ++ ", Kind: " ++ reflectTypeOf col ++ ", QueryKey: " ++ dq ++
       Column.Name col ++ dq ++ "},")
    (sortingFields b ++
       nl ++ tb ++ tb ++ "{DBKey: " ++ dq ++ Column.Name col ++ dq ++
       ", QueryKey: " ++ dq ++ Column.Name col ++ dq ++ ", Kind: " ++
       reflectTypeOf col ++ "},").

Definition parameterBuilders (table : Table.t) : ParameterBuilders :=
  fold_left parameterStep (Table.Columns table)
    (mkParameterBuilders
       (nl ++ tb ++ tb ++ "{Omitempty: true, DBKey: " ++ dq ++ "id" ++ dq ++
        ", Kind: reflect.Int64, QueryKey: " ++ dq ++ "id" ++ dq ++ "},")
       (nl ++ tb ++ tb ++ "{DBKey: " ++ dq ++ "id" ++ dq ++ ", QueryKey: " ++
        dq ++ "id" ++ dq ++ ", Kind: reflect.Int64},")).

Definition restParameterVariables (table : Table.t) : Bindings :=
  let structName := singularize (toCamelCase (Table.Name table)) in
  let b := parameterBuilders table in
  [ ("entity_snake", ToLower structName);
    ("filter_fields", filterFields b);
    ("sorting_fields", sortingFields b) ].

Definition restParameterHeader : string :=
  "package rest" ++ nl ++ nl ++
  "import (" ++ nl ++
  tb ++ dq ++ "reflect" ++ dq ++ nl ++ nl ++
  tb ++ "httpHelper " ++ dq ++ "github.com/RizkiAnurka/go-library/http-helper" ++
  dq ++ nl ++
  ")" ++ nl ++ nl ++
  "var (" ++ nl.

(** The table loop of [generateRestParameter]; a template that cannot be
    read is a [panic], the [Err] here. *)
Definition restParameterStep (templates : string -> option string) (n : nat)
           (acc : result string) (i : nat) (table : Table.t) : result string :=
  match acc with
  | Err e => Err e
  | Ok allContent =>
      match processTemplate templates "rest-parameter"
              (restParameterVariables table) with
      | Err e => Err ("Error processing rest-parameter template: " ++ e)
      | Ok rendered =>
          Ok (if i <? n - 1 then allContent ++ rendered ++ nl
              else allContent ++ rendered)
      end
  end.

Definition generateRestParameter (templates : string -> option string)
           (tables : list Table.t) : result string :=
  match foldIndexed (restParameterStep templates (List.length tables)) 0 tables
          (Ok restParameterHeader) with
  | Ok allContent => Ok (allContent ++ nl ++ ")" ++ nl)
  | Err e => Err e
  end.

(** ** Identifier normalisation on every byte string

    Off ASCII, [strings.ToUpper] and [strings.ToLower] are
    [strings.Map(unicode.ToUpper, s)] and [strings.Map(unicode.ToLower, s)]:
    the string is decoded as UTF-8, rune by rune, each rune is mapped and
    encoded again.  Runes are numbers; the two case tables belong to package
    [unicode] and are parameters here. *)

Module Unicode.

Definition RuneError : N := 65533.
Definition MaxRune : N := 1114111.

Definition byteIn (lo hi : N) (b : ascii) : bool :=
  ((lo <=? N_of_ascii b) && (N_of_ascii b <=? hi))%N.

(** The six payload bits of a continuation byte. *)
Definition continuation (b : ascii) : N := (N_of_ascii b - 128)%N.

(** The second byte a three-byte and a four-byte lead accept (no overlong
    form, no surrogate, nothing above [MaxRune]). *)
Definition second3 (b0 b1 : ascii) : bool :=
  if (N_of_ascii b0 =? 224)%N then byteIn 160 191 b1
  else if (N_of_ascii b0 =? 237)%N then byteIn 128 159 b1
  else byteIn 128 191 b1.

Definition second4 (b0 b1 : ascii) : bool :=
  if (N_of_ascii b0 =? 240)%N then byteIn 144 191 b1
  else if (N_of_ascii b0 =? 244)%N then byteIn 128 143 b1
  else byteIn 128 191 b1.

(** The runes a [range] loop over the string sees
    ([utf8.DecodeRuneInString] repeated): a byte that starts no valid
    encoding gives [RuneError] and is passed alone. *)
Fixpoint runes (s : string) : list N :=
  match s with
  | EmptyString => []
  | String b0 r0 =>
      let invalid := RuneError :: runes r0 in
      if (N_of_ascii b0 <? 128)%N then N_of_ascii b0 :: runes r0 else
      match r0 with
      | EmptyString => invalid
      | String b1 r1 =>
          if byteIn 194 223 b0 then
            if byteIn 128 191 b1
            then ((N_of_ascii b0 - 192) * 64 + continuation b1)%N :: runes r1
            else invalid
          else
          match r1 with
          | EmptyString => invalid
          | String b2 r2 =>
              if byteIn 224 239 b0 then
                if second3 b0 b1 && byteIn 128 191 b2
                then ((N_of_ascii b0 - 224) * 4096 + continuation b1 * 64 +
                      continuation b2)%N :: runes r2
                else invalid
              else
              match r2 with
              | EmptyString => invalid
              | String b3 r3 =>
                  if byteIn 240 244 b0 && second4 b0 b1 &&
                     byteIn 128 191 b2 && byteIn 128 191 b3
                  then ((N_of_ascii b0 - 240) * 262144 +
                        continuation b1 * 4096 + continuation b2 * 64 +
                        continuation b3)%N :: runes r3
                  else invalid
              end
          end
      end
  end.

Definition byte (n : N) : ascii := ascii_of_N n.

(** [utf8.AppendRune]: one to four bytes; a surrogate or a number above
    [MaxRune] is written as [RuneError]. *)
Definition encodeRune (r : N) : string :=
  if (r <=? 127)%N then str1 (byte r)
  else if (r <=? 2047)%N then
    String (byte (192 + r / 64)) (str1 (byte (128 + r mod 64)))
  else if (MaxRune <? r)%N || ((55296 <=? r) && (r <=? 57343))%N then
    String (byte 239) (String (byte 191) (str1 (byte 189)))
  else if (r <=? 65535)%N then
    String (byte (224 + r / 4096))
      (String (byte (128 + (r / 64) mod 64)) (str1 (byte (128 + r mod 64))))
  else
    String (byte (240 + r / 262144))
      (String (byte (128 + (r / 4096) mod 64))
         (String (byte (128 + (r / 64) mod 64))
            (str1 (byte (128 + r mod 64))))).

(** [strings.Map] for a mapping that drops no rune: the encodings of the
    mapped runes, an invalid byte counting as [RuneError]. *)
Definition Map (mapping : N -> N) (s : string) : string :=
  String.concat "" (map (fun c => encodeRune (mapping c)) (runes s)).

(** [string(b)] for a byte [b]: the encoding of the rune of that number. *)
Definition stringOfByte (b : ascii) : string := encodeRune (N_of_ascii b).

Section CaseTables.

(** [unicode.ToUpper] and [unicode.ToLower]. *)
Variables unicodeToUpper unicodeToLower : N -> N.

Definition ToUpper (s : string) : string :=
  if isASCII s then mapString upperByte s else Map unicodeToUpper s.

Definition ToLower (s : string) : string :=
  if isASCII s then mapString lowerByte s else Map unicodeToLower s.

(** The body of the loop of [toCamelCase] on one part. *)
Definition camelPart (p : string) : string :=
  match p with
  | EmptyString => p
  | String c r =>
      if String.eqb p "id" then "ID"
      else ToUpper (stringOfByte c) ++ r
  end.

Definition toCamelCase (s : string) : string :=
  Join (map camelPart (Split (ToLower s) "_")) "".

End CaseTables.

End Unicode.

(** * Vocabulary of the statements *)

(** The Go types [generateGoFieldInfo] can assign, and the labels of its
    [switch]. *)
Definition targetTypes : list string :=
  ["int64"; "string"; "[]string"; "bool"; "time.Time"; "float64"].

Definition recognizedBaseTypes : list string :=
  ["INT"; "INTEGER"; "SERIAL"; "BIGSERIAL"; "BIGINT";
   "VARCHAR"; "TEXT"; "CHAR";
   "JSONB"; "JSON";
   "BOOLEAN"; "BOOL";
   "TIMESTAMP"; "DATETIME";
   "DATE";
   "DECIMAL"; "NUMERIC"; "FLOAT"; "REAL"; "DOUBLE"; "DOUBLE PRECISION";
   "UUID"].

(** No column of [t] is marked primary key. *)
Definition noPrimaryKey (t : Table.t) : Prop :=
  Forall (fun c => Column.IsPrimaryKey c = false) (Table.Columns t).

(** What holds of every table the parser builds. *)
Definition parsedTable (t : Table.t) : Prop :=
  allString reWord (Table.Name t) = true /\ noPrimaryKey t.

(** The invariant of the line loop. *)
Definition parseStateOK (st : ParseState) : Prop :=
  Forall parsedTable (tables st) /\
  (forall t, currentTable st = Some t -> parsedTable t).

(** The table the parser returns for [usersSchema]. *)
Definition usersTable : Table.t :=
  Table.mk "users"
    [ Column.mk "name" "VARCHAR(255)" false false "" "string"
        ("gorm:" ++ dq ++ "column:name;not null" ++ dq)
        ("json:" ++ dq ++ "name,omitempty" ++ dq);
      Column.mk "created_at" "TIMESTAMPTZ" false true "NOW()" "string"
        ("gorm:" ++ dq ++ "column:created_at" ++ dq)
        ("json:" ++ dq ++ "created_at,omitempty" ++ dq) ].

(** The fixed Meta Contract column names. *)
Definition metaContractNames : list string :=
  ["id"; "created_at"; "updated_at"; "deleted_at"; "is_deleted"].

(** Whether the [switch] of [generateCreateTable] takes a case on [col],
    which suppresses the synthesized column of that name. *)
Definition migrationMarks (col : Column.t) : bool :=
  let f := markMeta noMetaFlags col in
  hasID f || hasCreatedAt f || hasUpdatedAt f || hasDeletedAt f || hasIsDeleted f.

(** A declared column id, as the parser and type mapper would fill it. *)
Definition idColumn : Column.t :=
  Column.mk "id" "BIGINT" false true "" "int64"
    ("gorm:" ++ dq ++ "column:id" ++ dq) ("json:" ++ dq ++ "id,omitempty" ++ dq).

Definition notAngle (c : ascii) : bool :=
  negb (Ascii.eqb c "<"%char) && negb (Ascii.eqb c ">"%char).

(** A placeholder key is a name: it holds neither delimiter. *)
Definition angleFree (key : string) : bool := allString notAngle key.

(** A template store with one template. *)
Definition oneTemplate (name body : string) : string -> option string :=
  fun templateName => if String.eqb templateName name then Some body else None.

(** [s] does not hold the byte [d]. *)
Definition noByte (d : ascii) (s : string) : bool :=
  allString (fun c => negb (Ascii.eqb c d)) s.

(** What a loop that writes [f x] for each [x] leaves in its builder. *)
Definition concatMap {A : Type} (f : A -> string) (l : list A) : string :=
  String.concat "" (map f l).

(** A drop line without its line feed. *)
Definition dropStatement (schema : string) (table : Table.t) : string :=
  "DROP TABLE IF EXISTS " ++ qualifiedName table schema ++ ";".

(** Whether the first occurrence of [a] in [text] comes before the first
    occurrence of [b]. *)
Definition precedes (a b text : string) : bool :=
  match index 0 a text, index 0 b text with
  | Some i, Some j => i <? j
  | _, _ => false
  end.

(** A word of lower-case letters: not empty, every byte in a-z. *)
Definition lowerWord (s : string) : Prop :=
  s <> "" /\ allString isLowerAZ s = true.

(** A line the loop of [parseSQLSchema] skips: a comment or a blank line. *)
Definition isIgnored (rawLine : string) : bool :=
  HasPrefix (TrimSpace rawLine) "--" || HasPrefix (TrimSpace rawLine) "/*" ||
  String.eqb (TrimSpace rawLine) "".

(** A line that opens a table, and the table it opens. *)
Definition opensTable (rawLine : string) : option string :=
  if isIgnored rawLine then None else findCreateTable (TrimSpace rawLine).

(** A line that holds the closing [);] and opens no table. *)
Definition closesTable (rawLine : string) : bool :=
  negb (isIgnored rawLine) &&
  match findCreateTable (TrimSpace rawLine) with
  | Some _ => false
  | None => Contains (TrimSpace rawLine) ");"
  end.

(** The column a line between the opening and the closing line gives, if
    any. *)
Definition bodyColumn (rawLine : string) : list Column.t :=
  if isIgnored rawLine then [] else
  match parseColumnDefinition (TrimSpace rawLine) with
  | Some column => [column]
  | None => []
  end.

(** A line between the opening and the closing line: it neither opens nor
    closes a table. *)
Definition isBodyLine (rawLine : string) : bool :=
  match opensTable rawLine with
  | Some _ => false
  | None => negb (closesTable rawLine)
  end.

Definition notSpace (c : ascii) : bool := negb (isSpace c).

Definition initialParseState : ParseState := mkParseState [] None false.

(** Outside a table there is no table being read. *)
Definition parseStateClosed (st : ParseState) : Prop :=
  inTableDefinition st = false -> currentTable st = None.

(** A token as [strings.Fields] returns them: not empty, no white space. *)
Definition isField (f : string) : Prop :=
  f <> "" /\ allString notSpace f = true.

(** Whether a line opens a table. *)
Definition isOpening (rawLine : string) : bool :=
  match opensTable rawLine with
  | Some _ => true
  | None => false
  end.

(** The tables closed so far plus the one being read. *)
Definition tablesStarted (st : ParseState) : nat :=
  List.length (tables st) +
  match currentTable st with
  | Some _ => 1
  | None => 0
  end.

Definition isLetter (c : ascii) : bool := isUpperAZ c || isLowerAZ c.

(** Whether some column of the table has the given lower-case name. *)
Definition declares (table : Table.t) (lower : string) : bool :=
  existsb (fun col => nameIs col lower) (Table.Columns table).

(** The columns that give a field of the domain model, and of the DTO. *)
Definition domainColumns (table : Table.t) : list Column.t :=
  filter (fun col => negb (domainSkips col)) (Table.Columns table).

Definition dtoColumns (table : Table.t) : list Column.t :=
  filter (fun col => negb (dtoSkips col)) (Table.Columns table).

(** What [generateDTO] writes for one column into each of its builders. *)
Definition dtoFieldLine (col : Column.t) : string :=
  tb ++ toCamelCase (Column.Name col) ++ " " ++ Column.GoType col ++ " " ++
  ("`json:" ++ dq ++ ToLower (Column.Name col) ++ ",omitempty" ++ dq ++ "`") ++
  nl.

Definition marshalLine (col : Column.t) : string :=
  nl ++ tb ++ tb ++ toCamelCase (Column.Name col) ++ ": d." ++
  toCamelCase (Column.Name col) ++ ",".

Definition unmarshalLine (col : Column.t) : string :=
  nl ++ tb ++ "d." ++ toCamelCase (Column.Name col) ++ " = domainModel." ++
  toCamelCase (Column.Name col).

Definition isTime (col : Column.t) : bool :=
  String.eqb (Column.GoType col) "time.Time".

(** The statements [generateIndexes] and [generateDropIndexes] write for
    one column. *)
Definition createIndexLine (table : Table.t) (schema : string)
           (col : Column.t) : string :=
  "CREATE INDEX IF NOT EXISTS " ++ schemaPrefixOf schema ++
  indexNameOf table col ++ " ON " ++ qualifiedName table schema ++
  "(" ++ Column.Name col ++ ");" ++ nl.

Definition dropIndexLine (table : Table.t) (schema : string)
           (col : Column.t) : string :=
  "DROP INDEX IF EXISTS " ++ schemaPrefixOf schema ++
  indexNameOf table col ++ ";" ++ nl.

Definition indexedColumns (table : Table.t) : list Column.t :=
  filter isIndexed (Table.Columns table).






Definition lookupColumnNames : list string :=
  ["timestamp"; "key_time"; "start_ts"; "end_ts"].




(** A template read as a sequence of pieces: literal text and
    placeholders. *)
Inductive Piece : Type :=
| Text (s : string)
| Hole (key : string).

Definition pieceText (p : Piece) : string :=
  match p with
  | Text s => s
  | Hole key => placeholder key
  end.

Definition flatten (pieces : list Piece) : string := concatMap pieceText pieces.

(** Literal text holds no [<]; a placeholder key is a name. *)
Definition wellFormedPiece (p : Piece) : Prop :=
  match p with
  | Text s => noByte "<" s = true
  | Hole key => angleFree key = true
  end.

(** The value of [key] in the map, if it is bound. *)
Fixpoint lookupBinding (key : string) (variables : Bindings) : option string :=
  match variables with
  | [] => None
  | (k, v) :: rest =>
      if String.eqb key k then Some v else lookupBinding key rest
  end.

(** A piece after substitution of every bound key at once. *)
Definition fillPiece (variables : Bindings) (p : Piece) : Piece :=
  match p with
  | Text s => Text s
  | Hole key =>
      match lookupBinding key variables with
      | Some v => Text v
      | None => Hole key
      end
  end.

(** A piece after the replacement of one key. *)
Definition fillOne (bound value : string) (p : Piece) : Piece :=
  match p with
  | Text s => Text s
  | Hole key => if String.eqb key bound then Text value else Hole key
  end.

(** Keys are names and values hold no [<]. *)
Definition cleanBinding (kv : string * string) : Prop :=
  angleFree (fst kv) = true /\ noByte "<" (snd kv) = true.

(** The argument [generateMainGo] passes for a table and the parameter
    [generateRestAPIMain] declares for it. *)
Definition mainAdapterArg (table : Table.t) : string :=
  ToLower (mainGoStructName (Table.Name table)) ++ "Adapter".

Definition restServiceParam (table : Table.t) : string :=
  (ToLower (structNameOf (Table.Name table)) ++ "Service") ++ " " ++
  ("interactor.I" ++ structNameOf (Table.Name table) ++ "Service").

(** The descriptors [generateRestParameter] writes for one column. *)
Definition filterLine (col : Column.t) : string :=
  nl ++ tb ++ tb ++ "{Omitempty: true, DBKey: " ++ dq ++ Column.Name col ++
  dq ++ ", Kind: " ++ reflectTypeOf col ++ ", QueryKey: " ++ dq ++
  Column.Name col ++ dq ++ "},".

Definition sortingLine (col : Column.t) : string :=
  nl ++ tb ++ tb ++ "{DBKey: " ++ dq ++ Column.Name col ++ dq ++
  ", QueryKey: " ++ dq ++ Column.Name col ++ dq ++ ", Kind: " ++
  reflectTypeOf col ++ "},".

Definition idFilterLine : string :=
  nl ++ tb ++ tb ++ "{Omitempty: true, DBKey: " ++ dq ++ "id" ++ dq ++
  ", Kind: reflect.Int64, QueryKey: " ++ dq ++ "id" ++ dq ++ "},".

Definition idSortingLine : string :=
  nl ++ tb ++ tb ++ "{DBKey: " ++ dq ++ "id" ++ dq ++ ", QueryKey: " ++
  dq ++ "id" ++ dq ++ ", Kind: reflect.Int64},".

(** The block of one table in the REST parameter file. *)
Definition parameterBlock (body : string) (table : Table.t) : string :=
  replaceTemplateVariables body (restParameterVariables table).

(** The line as [parseColumnDefinition] reads it: trimmed, without a final
    comma. *)
Definition columnLine (line : string) : string :=
  TrimSuffix (TrimSpace line) ",".

(** [unicode.ToLower] on the runes below 0x80. *)
Definition asciiToLower (r : N) : N :=
  if ((65 <=? r) && (r <=? 90))%N then (r + 32)%N else r.

(** The case tables of Unicode on U+0000..U+00FF (Basic Latin and Latin-1
    Supplement); above, these leave the rune as it is. *)
Definition latin1ToUpper (r : N) : N :=
  if ((97 <=? r) && (r <=? 122))%N then (r - 32)%N
  else if (r =? 181)%N then 924%N
  else if ((224 <=? r) && (r <=? 254) && negb (r =? 247))%N then (r - 32)%N
  else if (r =? 255)%N then 376%N
  else r.

Definition latin1ToLower (r : N) : N :=
  if ((65 <=? r) && (r <=? 90))%N then (r + 32)%N
  else if ((192 <=? r) && (r <=? 222) && negb (r =? 215))%N then (r + 32)%N
  else r.

(** The column name ecole_id with an e-acute, in UTF-8: the letter U+00E9
    is the two bytes 0xC3 0xA9. *)
Definition ecoleID : string := String "195" (String "169" "cole_id").

(** * Properties *)

(** ** The model at work *)

Example toCamelCase_user_id : toCamelCase "user_id" = "UserID".
Proof. reflexivity. Qed.
Example toCamelCase_upper : toCamelCase "CREATED_AT" = "CreatedAt".
Proof. reflexivity. Qed.
Example structNameOf_users : structNameOf "users" = "User".
Proof. reflexivity. Qed.
Example fields_ex : Fields "  a  bc d " = ["a"; "bc"; "d"].
Proof. reflexivity. Qed.
Example trim_ex : TrimSpace "  a b  " = "a b".
Proof. reflexivity. Qed.
Example replace_ex : ReplaceAll "x<k>y<k>" "<k>" "ab" = "xabyab".
Proof. reflexivity. Qed.
Example split_ex : Split "a_b__c" "_" = ["a"; "b"; ""; "c"].
Proof. reflexivity. Qed.

(** ** Strings *)

Lemma append_empty_r (s : string) : s ++ "" = s.
Proof. induction s as [|c s IH]; simpl; [reflexivity | now rewrite IH]. Qed.

Lemma append_assoc' (a b c : string) : (a ++ b) ++ c = a ++ (b ++ c).
Proof. induction a as [|x a IH]; simpl; [reflexivity | now rewrite IH]. Qed.

Lemma length_append (a b : string) :
  String.length (a ++ b) = String.length a + String.length b.
Proof. induction a as [|x a IH]; simpl; [reflexivity | now rewrite IH]. Qed.

Lemma length_sliceTo (s : string) (n : nat) :
  String.length (sliceTo s n) = Nat.min n (String.length s).
Proof.
  unfold sliceTo. revert n.
  induction s as [|c s IH]; intros [|n]; simpl; try reflexivity.
  now rewrite IH.
Qed.

Lemma HasSuffix_length (s suf : string) :
  HasSuffix s suf = true -> String.length suf <= String.length s.
Proof.
  unfold HasSuffix. intros H.
  apply andb_true_iff in H. destruct H as [H _].
  now apply Nat.leb_le.
Qed.

Lemma oneOf_app (s : string) (l1 l2 : list string) :
  oneOf s (l1 ++ l2)%list = oneOf s l1 || oneOf s l2.
Proof.
  induction l1 as [|x l1 IH]; simpl; [reflexivity|].
  now rewrite IH, orb_assoc.
Qed.

Lemma oneOf_In (s : string) (l : list string) :
  oneOf s l = true <-> In s l.
Proof.
  induction l as [|x l IH]; simpl.
  - split; [discriminate | tauto].
  - rewrite orb_true_iff, IH, String.eqb_eq. split; intros [H|H]; auto.
Qed.

(** ** Entity names: [singularize] *)

Example singularize_users : singularize "Users" = "User".
Proof. reflexivity. Qed.
Example singularize_status : singularize "Status" = "Statu".
Proof. reflexivity. Qed.

(** C4, as stated, fails: stripping one trailing "s" from "Class" gives
    "Clas", and stripping again gives "Cla". *)
Lemma singularize_twice_Class :
  singularize (singularize "Class") <> singularize "Class".
Proof. vm_compute. discriminate. Qed.

(** C4 (amended): a second [singularize] changes nothing exactly when the
    first result no longer ends in "s"; otherwise it strips a further "s". *)
Theorem singularize_idempotent_iff (name : string) :
  singularize (singularize name) = singularize name <->
  HasSuffix (singularize name) "s" = false.
Proof.
  set (x := singularize name).
  unfold singularize at 1. fold x.
  destruct (HasSuffix x "s") eqn:E.
  - split; [|discriminate].
    intros H. apply HasSuffix_length in E. simpl in E.
    apply (f_equal String.length) in H.
    rewrite length_sliceTo in H. lia.
  - split; reflexivity.
Qed.

(** The two derivations of the entity name agree on the conventional
    lower-case plural but not on every table name. *)
Example struct_names_agree_users :
  structNameOf "users" = mainGoStructName "users".
Proof. reflexivity. Qed.
Example struct_names_differ_upper :
  structNameOf "USERS" = "User" /\ mainGoStructName "USERS" = "Users".
Proof. split; reflexivity. Qed.

(** ** Type mapping: [generateGoFieldInfo] *)

Lemma goTypeFor_target (baseType : string) (pk : bool) :
  In (goTypeFor baseType pk) targetTypes.
Proof.
  unfold goTypeFor, targetTypes.
  repeat match goal with
         | |- context [if oneOf ?b ?l then _ else _] => destruct (oneOf b l)
         end;
    destruct pk; simpl; tauto.
Qed.

Lemma goTypeFor_fallback (baseType : string) (pk : bool) :
  oneOf baseType recognizedBaseTypes = false ->
  goTypeFor baseType pk = "string".
Proof.
  intros H. unfold goTypeFor.
  repeat match goal with
         | |- context [if oneOf ?b ?l then _ else _] =>
             let E := fresh "E" in
             destruct (oneOf b l) eqn:E;
             [ exfalso; apply oneOf_In in E;
               apply not_true_iff_false in H; apply H; apply oneOf_In;
               unfold recognizedBaseTypes; simpl in E |- *; tauto | ]
         end.
  reflexivity.
Qed.

Example goType_bigserial :
  Column.GoType (generateGoFieldInfo
                   (Column.mk "id" "bigserial" true false "" "" "" "")) = "int64".
Proof. reflexivity. Qed.
Example goType_timestamptz :
  Column.GoType (generateGoFieldInfo
                   (Column.mk "at" "TIMESTAMPTZ" false true "" "" "" "")) = "string".
Proof. reflexivity. Qed.

(** C9: the forward type mapping is a total function that gives every
    column, whatever its source type string, one of the six target types
    (never the empty string), and the generic "string" whenever the base
    type is not one of the recognized ones. *)
Theorem generateGoFieldInfo_total (column : Column.t) :
  In (Column.GoType (generateGoFieldInfo column)) targetTypes /\
  Column.GoType (generateGoFieldInfo column) <> "" /\
  (oneOf (baseTypeOf (ToUpper (Column.Type_ column))) recognizedBaseTypes = false ->
   Column.GoType (generateGoFieldInfo column) = "string") /\
  Column.GoType (generateGoFieldInfo (Column.mk "" "" false true "" "" "" ""))
    = "string".
Proof.
  unfold generateGoFieldInfo. cbn [Column.withGoInfo Column.GoType].
  pose proof (goTypeFor_target (baseTypeOf (ToUpper (Column.Type_ column)))
                               (Column.IsPrimaryKey column)) as HT.
  repeat split.
  - exact HT.
  - intros E. rewrite E in HT. unfold targetTypes in HT. simpl in HT.
    repeat (destruct HT as [HT|HT]; [discriminate|]). exact HT.
  - apply goTypeFor_fallback.
Qed.

Lemma generateGoFieldInfo_total_witness :
  oneOf (baseTypeOf (ToUpper "geometry(Point)")) recognizedBaseTypes = false /\
  Column.GoType
    (generateGoFieldInfo (Column.mk "shape" "geometry(Point)" false true "" "" "" ""))
    = "string".
Proof.
  split; [reflexivity|].
  apply (proj1 (proj2 (proj2
           (generateGoFieldInfo_total
              (Column.mk "shape" "geometry(Point)" false true "" "" "" ""))))).
  reflexivity.
Defined.

(** ** Schema parser: constraint lines and the primary-key flag *)

Lemma isConstraintLine_false (lineUpper : string) :
  isConstraintLine lineUpper = false ->
  Contains lineUpper "PRIMARY KEY" = false /\
  Contains lineUpper "UNIQUE" = false.
Proof.
  unfold isConstraintLine, constraintKeywords. cbn [existsb].
  intros H.
  repeat (apply orb_false_iff in H; destruct H as [? H]).
  now split.
Qed.

Lemma isConstraintLine_primary_key (lineUpper : string) :
  Contains lineUpper "PRIMARY KEY" = true -> isConstraintLine lineUpper = true.
Proof.
  intros H. destruct (isConstraintLine lineUpper) eqn:E; [reflexivity|].
  apply isConstraintLine_false in E. destruct E as [E _]. congruence.
Qed.

Lemma primary_key_line_rejected (line : string) :
  Contains (ToUpper (TrimSuffix (TrimSpace line) ",")) "PRIMARY KEY" = true ->
  parseColumnDefinition line = None.
Proof.
  intros H. unfold parseColumnDefinition.
  now rewrite (isConstraintLine_primary_key _ H).
Qed.

Lemma parseColumnDefinition_flags (line : string) (c : Column.t) :
  parseColumnDefinition line = Some c ->
  Column.IsPrimaryKey c = false /\
  Column.IsNullable c =
    negb (Contains (ToUpper (TrimSuffix (TrimSpace line) ",")) "NOT NULL").
Proof.
  unfold parseColumnDefinition.
  destruct (isConstraintLine _) eqn:E; [discriminate|].
  apply isConstraintLine_false in E. destruct E as [E _].
  destruct (Fields _) as [|name [|ty rest]]; try discriminate.
  rewrite E.
  destruct (Contains _ "NOT NULL"), (findDefault _);
    intros H; injection H as <-; split; reflexivity.
Qed.

Lemma allString_takeWhile (p : ascii -> bool) (s : string) :
  allString p (takeWhile p s) = true.
Proof.
  induction s as [|c s IH]; simpl; [reflexivity|].
  destruct (p c) eqn:E; simpl; [now rewrite E|reflexivity].
Qed.

(** The name captured by the CREATE TABLE pattern is a run of word bytes. *)
Lemma createTableAt_word (s name : string) :
  createTableAt s = Some name -> allString reWord name = true.
Proof.
  unfold createTableAt.
  destruct (matchFold "CREATE" s) as [r1|]; [|discriminate].
  destruct (negb (startsWith reSpace r1)); [discriminate|].
  destruct (matchFold "TABLE" (dropWhile reSpace r1)) as [r2|]; [|discriminate].
  destruct (negb (startsWith reSpace r2)); [discriminate|].
  destruct (String.eqb _ ""); [discriminate|].
  destruct (startsWith _ _); [|discriminate].
  intros [= <-]. apply allString_takeWhile.
Qed.

Lemma findCreateTable_word (s name : string) :
  findCreateTable s = Some name -> allString reWord name = true.
Proof.
  induction s as [|c s IH]; cbn [findCreateTable].
  - destruct (createTableAt "") eqn:E; [|discriminate].
    intros [= <-]. now apply createTableAt_word in E.
  - destruct (createTableAt (String c s)) eqn:E.
    + intros [= <-]. now apply createTableAt_word in E.
    + exact IH.
Qed.

Lemma parseLine_OK (st : ParseState) (rawLine : string) :
  parseStateOK st -> parseStateOK (parseLine st rawLine).
Proof.
  intros [HT HC]. unfold parseLine.
  destruct (_ || _ || _); [now split|].
  destruct (findCreateTable _) as [tableName|] eqn:Ef.
  - split; [exact HT|]. cbn. intros t [= <-]. split.
    + now apply findCreateTable_word in Ef.
    + constructor.
  - destruct (inTableDefinition st && _).
    + destruct (currentTable st) as [t|] eqn:Et; split; cbn;
        try discriminate; try exact HT.
      apply Forall_app. split; [exact HT|]. constructor; [|constructor].
      now apply HC.
    + destruct (inTableDefinition st); [|now split].
      destruct (currentTable st) as [t|] eqn:Et; [|now split; [|rewrite Et]].
      destruct (parseColumnDefinition _) as [column|] eqn:Ec;
        [|now split; [|rewrite Et]].
      split; [exact HT|]. cbn. intros t' [= <-].
      destruct (HC t eq_refl) as [Hn Hk].
      split; [exact Hn|].
      unfold noPrimaryKey. cbn. apply Forall_app. split.
      * exact Hk.
      * constructor; [|constructor].
        now apply parseColumnDefinition_flags in Ec.
Qed.

Lemma fold_parseLine_OK (lines : list string) (st : ParseState) :
  parseStateOK st -> parseStateOK (fold_left parseLine lines st).
Proof.
  revert st. induction lines as [|l lines IH]; intros st H; cbn.
  - exact H.
  - apply IH. now apply parseLine_OK.
Qed.

Lemma parseLines_parsed (lines : list string) :
  Forall parsedTable (parseLines lines).
Proof.
  unfold parseLines.
  assert (H : parseStateOK (fold_left parseLine lines (mkParseState [] None false))).
  { apply fold_parseLine_OK. split; [constructor | discriminate]. }
  destruct H as [H _]. revert H.
  generalize (tables (fold_left parseLine lines (mkParseState [] None false))).
  intros ts H. induction H as [|t ts [Hn Ht] _ IH]; cbn; constructor; [|exact IH].
  split; [exact Hn|].
  unfold noPrimaryKey, withGoFieldInfo in *. cbn.
  induction Ht as [|c cs Hc _ IHc]; cbn; constructor; [exact Hc | exact IHc].
Qed.

Lemma parseLines_noPrimaryKey (lines : list string) :
  Forall noPrimaryKey (parseLines lines).
Proof.
  eapply Forall_impl; [|apply parseLines_parsed]. now intros t [_ H].
Qed.

(** C10: a line whose upper-cased text contains "PRIMARY KEY" is rejected by
    the constraint test before the column is built, so every column of every
    table the parser returns has its primary-key flag equal to false. *)
Theorem parsed_columns_never_primary_key :
  (forall line : string,
      Contains (ToUpper (TrimSuffix (TrimSpace line) ",")) "PRIMARY KEY" = true ->
      parseColumnDefinition line = None) /\
  (forall (file : FileRead) (tables : list Table.t) (t : Table.t) (c : Column.t),
      parseSQLSchema file = Ok tables ->
      In t tables -> In c (Table.Columns t) ->
      Column.IsPrimaryKey c = false).
Proof.
  split; [exact primary_key_line_rejected|].
  intros file tables t c Hp Ht Hc.
  destruct file as [|lines [|]]; try discriminate.
  injection Hp as <-.
  pose proof (parseLines_noPrimaryKey lines) as H.
  rewrite Forall_forall in H. specialize (H t Ht).
  unfold noPrimaryKey in H. rewrite Forall_forall in H. now apply H.
Qed.

Example parse_usersSchema :
  parseSQLSchema (Scanned usersSchema false) = Ok [usersTable].
Proof. reflexivity. Qed.

Example scanLines_usersSchema : scanLines (linesText usersSchema) = usersSchema.
Proof. reflexivity. Qed.

Lemma parsed_columns_never_primary_key_witness :
  Contains (ToUpper (TrimSuffix (TrimSpace "  id BIGSERIAL PRIMARY KEY,") ","))
           "PRIMARY KEY" = true /\
  parseColumnDefinition "  id BIGSERIAL PRIMARY KEY," = None /\
  parseSQLSchema (Scanned usersSchema false) = Ok [usersTable] /\
  Forall (fun c => Column.IsPrimaryKey c = false) (Table.Columns usersTable).
Proof.
  split; [reflexivity|].
  split; [apply (proj1 parsed_columns_never_primary_key); reflexivity|].
  split; [reflexivity|].
  apply Forall_forall. intros c Hc.
  apply (proj2 parsed_columns_never_primary_key
               (Scanned usersSchema false) [usersTable] usersTable c).
  - reflexivity.
  - simpl. left. reflexivity.
  - exact Hc.
Defined.

(** C2: on the column line "id BIGSERIAL PRIMARY KEY," the parser returns no
    column at all (the constraint test matches the substring "PRIMARY KEY"
    wherever it stands), while a line with NOT NULL and no constraint keyword
    is parsed with its nullable flag cleared and one without NOT NULL keeps
    nullable. *)
Theorem inline_primary_key_line_is_dropped :
  parseColumnDefinition "    id BIGSERIAL PRIMARY KEY," = None /\
  parseColumnDefinition "    name VARCHAR(255) NOT NULL," =
    Some (Column.mk "name" "VARCHAR(255)" false false "" "" "" "") /\
  parseColumnDefinition "    bio TEXT," =
    Some (Column.mk "bio" "TEXT" false true "" "" "" "").
Proof. repeat split; reflexivity. Qed.

(** C1: on the users schema of the README the parser keeps only the columns
    name and created_at: the id line (PRIMARY KEY) and the email line
    (UNIQUE) are skipped as constraints.  The entity is named User and embeds
    MetaField, but neither the domain model nor the DTO has an Email field. *)
Theorem users_schema_loses_email :
  parseSQLSchema (Scanned usersSchema false) = Ok [usersTable] /\
  columnNames usersTable = ["name"; "created_at"] /\
  binding "struct_name" (domainModelVariables usersTable) = "User" /\
  domainModelFields usersTable =
    tb ++ "MetaField" ++ nl ++
    tb ++ "Name string `gorm:" ++ dq ++ "column:name;not null" ++ dq ++
    " json:" ++ dq ++ "name,omitempty" ++ dq ++ "`" ++ nl /\
  dtoFields usersTable =
    tb ++ "ID int64 `json:" ++ dq ++ "id,omitempty" ++ dq ++ "`" ++ nl ++
    tb ++ "Name string `json:" ++ dq ++ "name,omitempty" ++ dq ++ "`" ++ nl /\
  Contains (domainModelFields usersTable) "Email" = false /\
  Contains (dtoFields usersTable) "Email" = false.
Proof. repeat split; reflexivity. Qed.

(** When the uniqueness of email is a clause of its own, the email line is a
    column line like any other and both artifacts have the Email field. *)
Example users_schema_unique_clause :
  map columnNames (parseLines usersSchemaUniqueClause) =
    [["name"; "email"; "created_at"]] /\
  map domainModelFields (parseLines usersSchemaUniqueClause) =
    [ tb ++ "MetaField" ++ nl ++
      tb ++ "Name string `gorm:" ++ dq ++ "column:name;not null" ++ dq ++
      " json:" ++ dq ++ "name,omitempty" ++ dq ++ "`" ++ nl ++
      tb ++ "Email string `gorm:" ++ dq ++ "column:email;not null" ++ dq ++
      " json:" ++ dq ++ "email,omitempty" ++ dq ++ "`" ++ nl ] /\
  map dtoFields (parseLines usersSchemaUniqueClause) =
    [ tb ++ "ID int64 `json:" ++ dq ++ "id,omitempty" ++ dq ++ "`" ++ nl ++
      tb ++ "Name string `json:" ++ dq ++ "name,omitempty" ++ dq ++ "`" ++ nl ++
      tb ++ "Email string `json:" ++ dq ++ "email,omitempty" ++ dq ++ "`" ++ nl ].
Proof. repeat split; reflexivity. Qed.

(** ** The Meta Contract tests of the three generators *)

(** C3, as stated, fails on the column id: the DTO generator skips it and the
    migration generator marks it, but the domain-model generator emits it. *)
Lemma meta_tests_disagree_on_id :
  In "id" metaContractNames /\
  ToLower (Column.Name idColumn) = "id" /\
  ~ (domainSkips idColumn = dtoSkips idColumn /\
     dtoSkips idColumn = migrationMarks idColumn) /\
  Contains (domainModelFields (Table.mk "orders" [idColumn])) "ID int64" = true.
Proof.
  repeat split; try reflexivity.
  - simpl. tauto.
  - vm_compute. intros [H _]. discriminate.
Qed.

(** C3 (amended): for every column whose name is a case variant of a Meta
    Contract name, the DTO generator skips it and the migration generator
    marks it; the domain-model generator skips it too unless the name is a
    case variant of id, which it emits as a field. *)
Theorem meta_tests_by_generator (col : Column.t) (m : string) :
  In m metaContractNames ->
  ToLower (Column.Name col) = m ->
  dtoSkips col = true /\
  migrationMarks col = true /\
  domainSkips col = negb (String.eqb m "id").
Proof.
  intros Hm Hn.
  unfold dtoSkips, migrationMarks, markMeta, domainSkips, nameIs.
  rewrite Hn.
  unfold metaContractNames in Hm. simpl in Hm.
  repeat (destruct Hm as [<-|Hm]; [repeat split; reflexivity|]).
  contradiction.
Qed.

Lemma meta_tests_by_generator_witness :
  In "created_at" metaContractNames /\
  ToLower "Created_AT" = "created_at" /\
  dtoSkips (Column.mk "Created_AT" "TIMESTAMP" false true "" "" "" "") = true /\
  migrationMarks (Column.mk "Created_AT" "TIMESTAMP" false true "" "" "" "") = true /\
  domainSkips (Column.mk "Created_AT" "TIMESTAMP" false true "" "" "" "") = true.
Proof.
  assert (Hm : In "created_at" metaContractNames) by (simpl; tauto).
  split; [exact Hm|]. split; [reflexivity|].
  exact (meta_tests_by_generator
           (Column.mk "Created_AT" "TIMESTAMP" false true "" "" "" "")
           "created_at" Hm eq_refl).
Defined.

(** ** Orchestration: the empty schema *)

(** C7: when the parser returns no table, the run ends with the "No tables
    found" error and the world is the one it started from: no directory is
    created and no generation, formatting or module step is run. *)
Theorem no_tables_fails_before_output
        (World : Type)
        (openSchema : string -> World -> FileRead)
        (createDirectoryStructure : string -> World -> error * World)
        (generateAllFiles : string -> list Table.t -> World -> error * World)
        (formatGeneratedFiles initializeGoModule : string -> World -> error * World)
        (moduleName sqlSchemaFile : string) (w : World) :
  parseSQLSchema (openSchema sqlSchemaFile w) = Ok [] ->
  createHexagonalArchitecture World openSchema createDirectoryStructure
    generateAllFiles formatGeneratedFiles initializeGoModule
    moduleName sqlSchemaFile w
  = (Some (noTablesError sqlSchemaFile), w).
Proof.
  intros H. unfold createHexagonalArchitecture. now rewrite H.
Qed.

Example run_users_schema :
  events (snd (runLogged "user-service" "schema.sql" (mkLogWorld usersSchema [])))
  = [ MkdirAll "user-service"; WriteFiles "user-service" [usersTable];
      RunGofmt "user-service"; RunGoModTidy "user-service" ].
Proof. reflexivity. Qed.

Lemma no_tables_fails_before_output_witness :
  parseSQLSchema (Scanned ["-- no table here"; "SELECT 1;"] false) = Ok [] /\
  runLogged "user-service" "schema.sql"
    (mkLogWorld ["-- no table here"; "SELECT 1;"] [])
  = (Some (noTablesError "schema.sql"),
     mkLogWorld ["-- no table here"; "SELECT 1;"] []).
Proof.
  split; [reflexivity|].
  unfold runLogged.
  apply (no_tables_fails_before_output LogWorld).
  reflexivity.
Defined.

(** ** Template engine: unresolved placeholders *)

Lemma allString_app (p : ascii -> bool) (a b : string) :
  allString p (a ++ b) = allString p a && allString p b.
Proof.
  induction a as [|c a IH]; simpl; [reflexivity|].
  now rewrite IH, andb_assoc.
Qed.

Lemma prefix_cons (a b : ascii) (p s : string) :
  prefix (String a p) (String b s) = Ascii.eqb a b && prefix p s.
Proof.
  simpl. destruct (ascii_dec a b) as [->|N].
  - now rewrite Ascii.eqb_refl.
  - apply Ascii.eqb_neq in N. now rewrite N.
Qed.

Lemma prefix_empty (s : string) : prefix "" s = true.
Proof. destruct s; reflexivity. Qed.

Lemma prefix_length (p s : string) :
  prefix p s = true -> String.length p <= String.length s.
Proof.
  revert s. induction p as [|a p IH]; intros s H; simpl; [lia|].
  destruct s as [|b s]; [discriminate|].
  rewrite prefix_cons in H. apply andb_true_iff in H. destruct H as [_ H].
  apply IH in H. simpl. lia.
Qed.

Lemma prefix_app_l (p a b : string) :
  prefix p a = true -> prefix p (a ++ b) = true.
Proof.
  revert a. induction p as [|x p IH]; intros a H.
  - apply prefix_empty.
  - destruct a as [|y a]; [discriminate|].
    rewrite prefix_cons in H. apply andb_true_iff in H. destruct H as [Hx H].
    change (String y a ++ b) with (String y (a ++ b)).
    rewrite prefix_cons, Hx. now apply IH.
Qed.

(** A prefix of [a ++ b] is a prefix of [a] or runs over into [b]. *)
Lemma prefix_app_split (p a b : string) :
  prefix p (a ++ b) = true ->
  prefix p a = true \/
  exists c w, p = a ++ String c w /\ prefix (String c w) b = true.
Proof.
  revert p. induction a as [|y a IH]; intros p H.
  - destruct p as [|c w]; [left; reflexivity|].
    right. exists c, w. now split.
  - destruct p as [|x p]; [left; reflexivity|].
    change (String y a ++ b) with (String y (a ++ b)) in H.
    rewrite prefix_cons in H. apply andb_true_iff in H. destruct H as [Hx H].
    apply Ascii.eqb_eq in Hx. subst y.
    destruct (IH p H) as [Hp | (c & w & -> & Hw)].
    + left. now rewrite prefix_cons, Ascii.eqb_refl.
    + right. exists c, w. now split.
Qed.

Section OneReplacement.
(** One [ReplaceAll] of [<bound>] inside a template that holds an
    occurrence of [<key>], for two distinct names. *)
Variables bound key new old : string.
Hypothesis bound_name : angleFree bound = true.
Hypothesis key_name : angleFree key = true.
Hypothesis distinct : bound <> key.

Hypothesis old_def : old = placeholder bound.

Lemma placeholder_cons (k : string) : placeholder k = String "<" (k ++ ">").
Proof. reflexivity. Qed.

Lemma old_not_at (c : ascii) (s : string) :
  Ascii.eqb c "<"%char = false -> prefix old (String c s) = false.
Proof.
  intros H. rewrite old_def, placeholder_cons, prefix_cons.
  rewrite Ascii.eqb_sym, H. reflexivity.
Qed.

Lemma names_equal (a b v : string) :
  angleFree a = true -> angleFree b = true ->
  prefix (a ++ ">") (b ++ ">" ++ v) = true -> a = b.
Proof.
  revert b. induction a as [|x a IH]; intros [|y b] Ha Hb H.
  - reflexivity.
  - exfalso.
    change (prefix (String ">" "") (String y (b ++ ">" ++ v)) = true) in H.
    rewrite prefix_cons in H. apply andb_true_iff in H. destruct H as [H _].
    apply Ascii.eqb_eq in H. subst y. discriminate Hb.
  - exfalso. change (prefix (String x (a ++ ">")) (String ">" v) = true) in H.
    rewrite prefix_cons in H. apply andb_true_iff in H. destruct H as [H _].
    apply Ascii.eqb_eq in H. subst x. discriminate Ha.
  - change (prefix (String x (a ++ ">")) (String y (b ++ ">" ++ v)) = true) in H.
    rewrite prefix_cons in H. apply andb_true_iff in H. destruct H as [Hx H].
    apply Ascii.eqb_eq in Hx. subst y.
    simpl in Ha, Hb.
    apply andb_true_iff in Ha. destruct Ha as [_ Ha].
    apply andb_true_iff in Hb. destruct Hb as [_ Hb].
    f_equal. now apply IH.
Qed.

Lemma old_not_at_key (v : string) :
  prefix old (placeholder key ++ v) = false.
Proof.
  destruct (prefix old (placeholder key ++ v)) eqn:E; [|reflexivity].
  exfalso. apply distinct.
  rewrite old_def, !placeholder_cons in E.
  change (String "<" (key ++ ">") ++ v) with (String "<" ((key ++ ">") ++ v)) in E.
  rewrite prefix_cons, append_assoc' in E. simpl in E.
  now apply (names_equal bound key v).
Qed.

(** Past the opening delimiter, nothing of [<key>] can start a match. *)
Lemma replace_inside_key (k v : string) :
  angleFree k = true ->
  replaceFrom old new 0 (k ++ ">" ++ v) =
  k ++ ">" ++ replaceFrom old new 0 v.
Proof.
  induction k as [|c k IH]; intros Hk.
  - change ("" ++ ">" ++ v) with (String ">" v).
    cbn [replaceFrom]. now rewrite old_not_at.
  - simpl in Hk. apply andb_true_iff in Hk. destruct Hk as [Hc Hk].
    change (String c k ++ ">" ++ v) with (String c (k ++ ">" ++ v)).
    cbn [replaceFrom]. rewrite old_not_at.
    + rewrite (IH Hk). reflexivity.
    + unfold notAngle in Hc. apply andb_true_iff in Hc.
      destruct Hc as [Hc _]. now apply negb_true_iff in Hc.
Qed.

(** A match that starts before [<key>] ends before it. *)
Lemma old_stays_left (c : ascii) (u v : string) :
  prefix old (String c u ++ placeholder key ++ v) =
  prefix old (String c u).
Proof.
  destruct (prefix old (String c u)) eqn:E.
  - now apply prefix_app_l.
  - destruct (prefix old (String c u ++ placeholder key ++ v)) eqn:F;
      [|reflexivity].
    exfalso.
    apply prefix_app_split in F.
    destruct F as [F | (d & w & Hold & Hw)]; [congruence|].
    rewrite placeholder_cons in Hw.
    change (String "<" (key ++ ">") ++ v) with (String "<" ((key ++ ">") ++ v)) in Hw.
    rewrite prefix_cons in Hw. apply andb_true_iff in Hw.
    destruct Hw as [Hd _]. apply Ascii.eqb_eq in Hd. subst d.
    rewrite old_def, placeholder_cons in Hold.
    injection Hold as _ Hold.
    assert (A : allString (fun x => negb (Ascii.eqb x "<"%char)) (bound ++ ">") = true).
    { rewrite allString_app. apply andb_true_iff. split; [|reflexivity].
      clear -bound_name. induction bound as [|x b IH]; [reflexivity|].
      simpl in *. apply andb_true_iff in bound_name.
      destruct bound_name as [Hx Hb]. rewrite (IH Hb), andb_true_r.
      unfold notAngle in Hx. now apply andb_true_iff in Hx. }
    rewrite Hold, allString_app in A. apply andb_true_iff in A.
    destruct A as [_ A]. discriminate A.
Qed.

Lemma replaceFrom_around_key (post pre : string) (skip : nat) :
  skip <= String.length pre ->
  replaceFrom old new skip (pre ++ placeholder key ++ post) =
  replaceFrom old new skip pre ++ placeholder key ++
  replaceFrom old new 0 post.
Proof.
  revert skip. induction pre as [|c u IH]; intros skip Hs.
  - simpl in Hs. assert (skip = 0) as -> by lia.
    change ("" ++ placeholder key ++ post) with (placeholder key ++ post).
    pose proof (old_not_at_key post) as N.
    rewrite placeholder_cons in N |- *.
    change (String "<" (key ++ ">") ++ post)
      with (String "<" ((key ++ ">") ++ post)) in N |- *.
    cbn [replaceFrom]. rewrite N. rewrite append_assoc'.
    rewrite (replace_inside_key key post key_name).
    change (replaceFrom old new 0 "") with "".
    change ("" ++ String "<" (key ++ ">") ++ replaceFrom old new 0 post)
      with (String "<" ((key ++ ">") ++ replaceFrom old new 0 post)).
    now rewrite append_assoc'.
  - destruct skip as [|k].
    + pose proof (old_stays_left c u post) as L.
      change (String c u ++ placeholder key ++ post)
        with (String c (u ++ placeholder key ++ post)) in L |- *.
      cbn [replaceFrom]. rewrite L.
      destruct (prefix old (String c u)) eqn:E.
      * apply prefix_length in E.
        change (String.length (String c u)) with (S (String.length u)) in E.
        rewrite IH by lia. now rewrite append_assoc'.
      * rewrite IH by lia. reflexivity.
    + change (String c u ++ placeholder key ++ post)
        with (String c (u ++ placeholder key ++ post)).
      cbn [replaceFrom]. simpl in Hs. apply IH. lia.
Qed.

Lemma ReplaceAll_around_key (pre post : string) :
  ReplaceAll (pre ++ placeholder key ++ post) old new =
  ReplaceAll pre old new ++ placeholder key ++ ReplaceAll post old new.
Proof. unfold ReplaceAll. apply replaceFrom_around_key. lia. Qed.
End OneReplacement.

Lemma replaceTemplateVariables_around_key
      (variables : Bindings) (key pre post : string) :
  angleFree key = true ->
  Forall (fun kv => angleFree (fst kv) = true) variables ->
  ~ In key (map fst variables) ->
  replaceTemplateVariables (pre ++ placeholder key ++ post) variables =
  replaceTemplateVariables pre variables ++ placeholder key ++
  replaceTemplateVariables post variables.
Proof.
  intros Hk. revert pre post.
  induction variables as [|[b v] vars IH]; intros pre post Hall Hnot.
  - reflexivity.
  - unfold replaceTemplateVariables in *. cbn [fold_left fst snd].
    inversion Hall as [|? ? Hb Hvars]; subst. cbn [fst] in Hb.
    simpl in Hnot.
    rewrite (ReplaceAll_around_key b key v (placeholder b) Hb Hk) by tauto.
    apply IH; [exact Hvars | tauto].
Qed.

Example render_partial :
  replaceTemplateVariables "type <struct_name> struct { <fields> } // <owner>"
    [("fields", "ID int64"); ("struct_name", "User")]
  = "type User struct { ID int64 } // <owner>".
Proof. reflexivity. Qed.

(** With a delimiter inside a key the tokens of a template overlap, and a
    replacement can take part of another token with it. *)
Example overlapping_tokens :
  replaceTemplateVariables "<a><b>" [("a><b", "X")] = "X".
Proof. reflexivity. Qed.

(** C5: whatever the template around it and whatever the bindings (in any
    iteration order, with any values), an occurrence of [<key>] whose key is
    not bound stays in the output where it was, between the renderings of
    what precedes and what follows it; the rendering of a template that
    loads is always a result, never an error. *)
Theorem unresolved_placeholder_left_verbatim
        (templates : string -> option string) (templateName : string)
        (variables : Bindings) (key pre post : string) :
  angleFree key = true ->
  Forall (fun kv => angleFree (fst kv) = true) variables ->
  ~ In key (map fst variables) ->
  templates templateName = Some (pre ++ placeholder key ++ post) ->
  processTemplate templates templateName variables =
  Ok (replaceTemplateVariables pre variables ++ placeholder key ++
      replaceTemplateVariables post variables).
Proof.
  intros Hk Hall Hnot Ht.
  unfold processTemplate, loadTemplate. rewrite Ht.
  now rewrite replaceTemplateVariables_around_key.
Qed.

Lemma unresolved_placeholder_left_verbatim_witness :
  angleFree "owner" = true /\
  Forall (fun kv => angleFree (fst kv) = true)
         [("fields", "ID int64"); ("struct_name", "User")] /\
  ~ In "owner" (map fst [("fields", "ID int64"); ("struct_name", "User")]) /\
  processTemplate
    (oneTemplate "domain-model"
       "type <struct_name> struct { <fields> } // <owner> <fields>")
    "domain-model" [("fields", "ID int64"); ("struct_name", "User")]
  = Ok "type User struct { ID int64 } // <owner> ID int64".
Proof.
  assert (H1 : Forall (fun kv : string * string => angleFree (fst kv) = true)
                      [("fields", "ID int64"); ("struct_name", "User")]).
  { repeat constructor. }
  assert (H2 : ~ In "owner"
                 (map fst [("fields", "ID int64"); ("struct_name", "User")])).
  { simpl. intros [H|[H|[]]]; discriminate. }
  split; [reflexivity|]. split; [exact H1|]. split; [exact H2|].
  exact (unresolved_placeholder_left_verbatim
           (oneTemplate "domain-model"
              "type <struct_name> struct { <fields> } // <owner> <fields>")
           "domain-model" [("fields", "ID int64"); ("struct_name", "User")]
           "owner" "type <struct_name> struct { <fields> } // " " <fields>"
           eq_refl H1 H2 eq_refl).
Defined.

(** ** Splitting and joining on one byte *)

Lemma prefix_str1 (d c : ascii) (s : string) :
  prefix (str1 d) (String c s) = Ascii.eqb d c.
Proof.
  unfold str1. now rewrite prefix_cons, prefix_empty, andb_true_r.
Qed.

Lemma splitFrom_last (d : ascii) (b : string) :
  noByte d b = true -> splitFrom (str1 d) 0 b = [b].
Proof.
  induction b as [|c b IH]; intros H; [reflexivity|].
  simpl in H. apply andb_true_iff in H. destruct H as [Hc Hb].
  cbn [splitFrom]. rewrite prefix_str1, Ascii.eqb_sym.
  apply negb_true_iff in Hc. rewrite Hc, (IH Hb). reflexivity.
Qed.

Lemma splitFrom_piece (d : ascii) (b rest : string) :
  noByte d b = true ->
  splitFrom (str1 d) 0 (b ++ String d rest) = b :: splitFrom (str1 d) 0 rest.
Proof.
  induction b as [|c b IH]; intros H.
  - change ("" ++ String d rest) with (String d rest).
    cbn [splitFrom]. now rewrite prefix_str1, Ascii.eqb_refl.
  - simpl in H. apply andb_true_iff in H. destruct H as [Hc Hb].
    change (String c b ++ String d rest) with (String c (b ++ String d rest)).
    cbn [splitFrom]. rewrite prefix_str1, Ascii.eqb_sym.
    apply negb_true_iff in Hc. rewrite Hc, (IH Hb). reflexivity.
Qed.

Lemma Join_cons2 (a b : string) (l : list string) (sep : string) :
  Join (a :: b :: l) sep = a ++ sep ++ Join (b :: l) sep.
Proof. reflexivity. Qed.

Lemma Split_Join (d : ascii) (parts : list string) :
  parts <> [] ->
  Forall (fun b => noByte d b = true) parts ->
  Split (Join parts (str1 d)) (str1 d) = parts.
Proof.
  unfold Split. intros Hne H.
  induction H as [|a l Ha Hl IH]; [contradiction|].
  destruct l as [|b l].
  - now apply splitFrom_last.
  - rewrite Join_cons2.
    change (a ++ str1 d ++ Join (b :: l) (str1 d))
      with (a ++ String d (Join (b :: l) (str1 d))).
    rewrite (splitFrom_piece d a _ Ha). f_equal.
    apply IH. discriminate.
Qed.

(** ** Concatenating the pieces a loop writes *)

Lemma concatMap_cons {A : Type} (f : A -> string) (x : A) (l : list A) :
  concatMap f (x :: l) = f x ++ concatMap f l.
Proof.
  unfold concatMap. destruct l as [|y l]; cbn [map String.concat].
  - now rewrite append_empty_r.
  - reflexivity.
Qed.

Lemma concatMap_app {A : Type} (f : A -> string) (l1 l2 : list A) :
  concatMap f (l1 ++ l2)%list = concatMap f l1 ++ concatMap f l2.
Proof.
  induction l1 as [|x l1 IH]; [reflexivity|].
  change ((x :: l1) ++ l2)%list with (x :: (l1 ++ l2))%list.
  now rewrite !concatMap_cons, IH, append_assoc'.
Qed.


(** ** Migration generator: the order of the statements *)

Lemma dropTableLine_statement (schema : string) (table : Table.t) :
  dropTableLine schema table = dropStatement schema table ++ nl.
Proof.
  unfold dropTableLine, dropStatement. now rewrite !append_assoc'.
Qed.

Lemma migrationBuilders_closed (schema : string) (tables : list Table.t)
      (b : MigrationBuilders) :
  fold_left (migrationStep schema) tables b =
  mkMigrationBuilders
    (tableCreations b ++
       concatMap (fun t => generateCreateTable t schema ++ nl) tables)
    (tableDrops b ++ concatMap (dropTableLine schema) tables)
    (indexCreations b ++ concatMap (fun t => generateIndexes t schema) tables)
    (indexDrops b ++ concatMap (fun t => generateDropIndexes t schema) tables).
Proof.
  revert b. induction tables as [|t ts IH]; intros b; cbn [fold_left].
  - unfold concatMap. cbn. rewrite !append_empty_r. now destruct b.
  - rewrite IH. unfold migrationStep.
    cbn [tableCreations tableDrops indexCreations indexDrops].
    now rewrite !concatMap_cons, !append_assoc'.
Qed.

Lemma trimRightSpace_nonspace (s t : string) (c : ascii) :
  isSpace c = false ->
  trimRightSpace (s ++ String c t) = s ++ String c (trimRightSpace t).
Proof.
  intros Hc. induction s as [|x s IH].
  - cbn. now rewrite Hc.
  - change (String x s ++ String c t) with (String x (s ++ String c t)).
    cbn [trimRightSpace]. rewrite IH.
    destruct s; cbn; now rewrite andb_false_r.
Qed.

(** The text left by [TrimSpace] of the drop lines is the drop statements
    joined by line feeds. *)
Lemma Join_dropStatements_shape (schema : string) (t : Table.t)
      (ts : list Table.t) :
  exists y z,
    Join (map (dropStatement schema) (t :: ts)) nl = String "D" y /\
    Join (map (dropStatement schema) (t :: ts)) nl = z ++ ";".
Proof.
  revert t. induction ts as [|t' ts IH]; intros t.
  - cbn [map Join String.concat]. unfold dropStatement.
    eexists. exists ("DROP TABLE IF EXISTS " ++ qualifiedName t schema).
    split; [reflexivity|]. now rewrite append_assoc'.
  - destruct (IH t') as (y & z & _ & Hz).
    cbn [map]. rewrite Join_cons2. cbn [map] in Hz. rewrite Hz.
    eexists. exists (dropStatement schema t ++ nl ++ z).
    split; [reflexivity|]. now rewrite !append_assoc'.
Qed.

Lemma concatMap_lines {A : Type} (f : A -> string) (x : A) (l : list A) :
  concatMap (fun a => f a ++ nl) (x :: l) = Join (map f (x :: l)) nl ++ nl.
Proof.
  revert x. induction l as [|y l IH]; intros x.
  - rewrite concatMap_cons. unfold concatMap. cbn.
    now rewrite append_empty_r.
  - rewrite concatMap_cons, IH. cbn [map]. rewrite Join_cons2.
    now rewrite !append_assoc'.
Qed.

Lemma TrimSpace_dropLines (schema : string) (t : Table.t) (ts : list Table.t) :
  TrimSpace (concatMap (dropTableLine schema) (t :: ts)) =
  Join (map (dropStatement schema) (t :: ts)) nl.
Proof.
  assert (E : concatMap (dropTableLine schema) (t :: ts) =
              concatMap (fun a => dropStatement schema a ++ nl) (t :: ts)).
  { unfold concatMap. f_equal. apply map_ext. intros a.
    apply dropTableLine_statement. }
  rewrite E, concatMap_lines.
  destruct (Join_dropStatements_shape schema t ts) as (y & z & Hy & Hz).
  unfold TrimSpace. rewrite Hy.
  change (dropWhile isSpace (String "D" y ++ nl)) with (String "D" y ++ nl).
  rewrite <- Hy, Hz, append_assoc'.
  change (";" ++ nl) with (String ";" nl).
  rewrite trimRightSpace_nonspace by reflexivity.
  reflexivity.
Qed.

Lemma fold_nonempty_lines (lines : list string) (acc : string) :
  Forall (fun l => l <> "") lines ->
  fold_left
    (fun reversedDrops line =>
       if negb (String.eqb line "") then reversedDrops ++ line ++ nl
       else reversedDrops)
    lines acc
  = acc ++ concatMap (fun l => l ++ nl) lines.
Proof.
  intros H. revert acc.
  induction H as [|l ls Hl _ IH]; intros acc; cbn [fold_left].
  - now rewrite append_empty_r.
  - apply String.eqb_neq in Hl. rewrite Hl. cbn [negb].
    now rewrite IH, concatMap_cons, append_assoc'.
Qed.

Lemma reWord_not_newline (c : ascii) :
  reWord c = true -> negb (Ascii.eqb c newline) = true.
Proof.
  destruct (Ascii.eqb c newline) eqn:E; [|reflexivity].
  apply Ascii.eqb_eq in E. subst c. discriminate.
Qed.

Lemma word_noNewline (s : string) :
  allString reWord s = true -> noByte newline s = true.
Proof.
  unfold noByte. induction s as [|c s IH]; [reflexivity|].
  cbn [allString]. intros H. apply andb_true_iff in H. destruct H as [Hc Hs].
  now rewrite (reWord_not_newline c Hc), (IH Hs).
Qed.

Lemma dropStatement_line (schema : string) (t : Table.t) :
  noByte newline schema = true ->
  noByte newline (Table.Name t) = true ->
  noByte newline (dropStatement schema t) = true /\ dropStatement schema t <> "".
Proof.
  intros Hs Hn. split; [|discriminate].
  unfold dropStatement, qualifiedName, noByte in *.
  destruct (negb (String.eqb schema ""));
    rewrite ?allString_app, ?Hs, ?Hn; reflexivity.
Qed.

(** The reversal loop of [generateGooseMigration] gives the drop lines of
    the tables in reverse order. *)
Lemma reverseDropLines_rev (schema : string) (tables : list Table.t) :
  noByte newline schema = true ->
  Forall (fun t => noByte newline (Table.Name t) = true) tables ->
  reverseDropLines (concatMap (dropTableLine schema) tables) =
  concatMap (dropTableLine schema) (rev tables).
Proof.
  intros Hs Hn. destruct tables as [|t ts]; [reflexivity|].
  unfold reverseDropLines. rewrite TrimSpace_dropLines.
  assert (HL : Forall (fun t => noByte newline (dropStatement schema t) = true /\
                                dropStatement schema t <> "") (t :: ts)).
  { eapply Forall_impl; [|exact Hn]. intros a Ha.
    now apply dropStatement_line. }
  change nl with (str1 newline) at 1 2.
  rewrite Split_Join.
  - rewrite fold_nonempty_lines.
    + rewrite <- map_rev. unfold concatMap. rewrite map_map.
      cbn. f_equal. apply map_ext. intros a.
      now rewrite dropTableLine_statement.
    + apply Forall_rev. rewrite Forall_map.
      eapply Forall_impl; [|exact HL]. now intros a [_ H].
  - discriminate.
  - rewrite Forall_map. eapply Forall_impl; [|exact HL]. now intros a [H _].
Qed.

Lemma migrationSchema_word (moduleName : string) :
  allString reWord (migrationSchema moduleName) = true.
Proof.
  unfold migrationSchema.
  destruct (String.eqb moduleName "wearable-service"); reflexivity.
Qed.

(** The three scripts for any tables whose names (and the schema) hold no
    line feed. *)
Lemma migration_order_general (tables : list Table.t) (schema : string) :
  noByte newline schema = true ->
  Forall (fun t => noByte newline (Table.Name t) = true) tables ->
  let vars := gooseMigrationVariables tables schema in
  binding "table_creations" vars =
    concatMap (fun t => generateCreateTable t schema ++ nl) tables /\
  binding "table_drops" vars = concatMap (dropTableLine schema) (rev tables) /\
  binding "index_creations" vars =
    concatMap (fun t => generateIndexes t schema) tables.
Proof.
  intros Hs Hn. unfold gooseMigrationVariables, migrationBuilders.
  rewrite migrationBuilders_closed.
  cbn [binding String.eqb Ascii.eqb Bool.eqb
       tableCreations tableDrops indexCreations indexDrops].
  change ("" ++ ?x) with x.
  repeat split.
  now apply reverseDropLines_rev.
Qed.

Example accounts_tables :
  map Table.Name (parseLines accountsSchema) = ["accounts"; "sessions"] /\
  map columnNames (parseLines accountsSchema) =
    [["name"]; ["account_id"; "token"]].
Proof. split; reflexivity. Qed.

(** C6: for the tables of any parsed schema, the forward script holds the
    CREATE TABLE statements in table order, the backward script holds the
    DROP TABLE lines in the reverse order, and the index statements follow
    table order; for accounts then sessions (with account_id), accounts is
    created before sessions, sessions is dropped before accounts, and the
    index idx_sessions_account_id is created. *)
Theorem migration_statement_order :
  (forall (lines : list string) (moduleName : string),
      let tables := parseLines lines in
      let schema := migrationSchema moduleName in
      let vars := gooseMigrationVariables tables schema in
      binding "table_creations" vars =
        concatMap (fun t => generateCreateTable t schema ++ nl) tables /\
      binding "table_drops" vars =
        concatMap (dropTableLine schema) (rev tables) /\
      binding "index_creations" vars =
        concatMap (fun t => generateIndexes t schema) tables) /\
  (let vars := gooseMigrationVariables (parseLines accountsSchema)
                 (migrationSchema "auth-service") in
   map Table.Name (parseLines accountsSchema) = ["accounts"; "sessions"] /\
   precedes "CREATE TABLE IF NOT EXISTS accounts"
            "CREATE TABLE IF NOT EXISTS sessions"
            (binding "table_creations" vars) = true /\
   precedes "DROP TABLE IF EXISTS sessions" "DROP TABLE IF EXISTS accounts"
            (binding "table_drops" vars) = true /\
   binding "index_creations" vars =
     "CREATE INDEX IF NOT EXISTS idx_sessions_account_id ON sessions(account_id);"
     ++ nl).
Proof.
  split.
  - intros lines moduleName tables schema vars.
    apply migration_order_general.
    + apply word_noNewline, migrationSchema_word.
    + eapply Forall_impl; [|apply parseLines_parsed].
      intros t [Hn _]. now apply word_noNewline.
  - vm_compute. repeat split.
Qed.

(** ** Identifier normalisation: [toCamelCase] by segment *)

Lemma mapString_app (f : ascii -> ascii) (a b : string) :
  mapString f (a ++ b) = mapString f a ++ mapString f b.
Proof. induction a as [|c a IH]; simpl; [reflexivity | now rewrite IH]. Qed.

Lemma lowerByte_underscore (c : ascii) :
  Ascii.eqb (lowerByte c) "_"%char = Ascii.eqb c "_"%char.
Proof. destruct c as [[] [] [] [] [] [] [] []]; reflexivity. Qed.

Lemma upperByte_lowerByte (c : ascii) : upperByte (lowerByte c) = upperByte c.
Proof. destruct c as [[] [] [] [] [] [] [] []]; reflexivity. Qed.

Lemma ToLower_noUnderscore (s : string) :
  noByte "_" s = true -> noByte "_" (ToLower s) = true.
Proof.
  unfold noByte, ToLower. induction s as [|c s IH]; [reflexivity|].
  cbn [allString mapString]. intros H.
  apply andb_true_iff in H. destruct H as [Hc Hs].
  now rewrite lowerByte_underscore, Hc, (IH Hs).
Qed.

Lemma ToLower_Join (segs : list string) :
  ToLower (Join segs "_") = Join (map ToLower segs) "_".
Proof.
  induction segs as [|a [|b l] IH]; try reflexivity.
  rewrite Join_cons2. unfold ToLower in *. rewrite !mapString_app, IH.
  reflexivity.
Qed.

(** Every string is the join of its pieces, none of which holds the
    separator: the segments of an identifier are those of [strings.Split]. *)
Lemma Split_pieces (d : ascii) (s : string) :
  Split s (str1 d) <> [] /\
  Forall (fun b => noByte d b = true) (Split s (str1 d)) /\
  Join (Split s (str1 d)) (str1 d) = s.
Proof.
  unfold Split. induction s as [|c s IH].
  - repeat split; [discriminate | repeat constructor].
  - destruct IH as (Hne & Hall & Hj).
    cbn [splitFrom]. rewrite prefix_str1.
    destruct (Ascii.eqb d c) eqn:E.
    + apply Ascii.eqb_eq in E. subst c.
      change (String.length (str1 d) - 1) with 0.
      repeat split; [discriminate | constructor; [reflexivity | exact Hall] |].
      destruct (splitFrom (str1 d) 0 s) as [|h t] eqn:Es; [contradiction|].
      rewrite Join_cons2, Hj. reflexivity.
    + destruct (splitFrom (str1 d) 0 s) as [|h t] eqn:Es; [contradiction|].
      cbn [consHead]. apply Forall_cons_iff in Hall. destruct Hall as [Hh Ht].
      repeat split; [discriminate | |].
      * constructor; [|exact Ht]. unfold noByte in *. cbn [allString].
        now rewrite Ascii.eqb_sym, E, Hh.
      * destruct t as [|h2 t]; [exact (f_equal (String c) Hj)|].
        rewrite Join_cons2 in Hj |- *. exact (f_equal (String c) Hj).
Qed.


Lemma toCamelCase_Join (segs : list string) :
  segs <> [] ->
  Forall (fun seg => noByte "_" seg = true) segs ->
  toCamelCase (Join segs "_") =
  String.concat "" (map (fun seg => camelPart (ToLower seg)) segs).
Proof.
  intros Hne H. unfold toCamelCase.
  rewrite ToLower_Join.
  change "_" with (str1 "_"%char).
  rewrite Split_Join.
  - unfold Join. now rewrite map_map.
  - destruct segs; [contradiction | discriminate].
  - rewrite Forall_map. eapply Forall_impl; [|exact H].
    intros a. apply ToLower_noUnderscore.
Qed.

Lemma camelPart_ToLower (c : ascii) (r : string) :
  ToLower (String c r) <> "id" ->
  camelPart (ToLower (String c r)) = String (upperByte c) (ToLower r).
Proof.
  intros H. apply String.eqb_neq in H.
  unfold camelPart. cbn [ToLower mapString] in *. fold (ToLower r) in *.
  rewrite H. cbn [ToUpper str1 mapString append].
  now rewrite upperByte_lowerByte.
Qed.

Example toCamelCase_ids :
  toCamelCase "Id_user_ID_idea" = "IDUserIDIdea".
Proof. reflexivity. Qed.
Example toCamelCase_empty_segments : toCamelCase "_a__b_" = "AB".
Proof. reflexivity. Qed.

(** X25: for an ASCII identifier given by its underscore-separated
    segments, the output is the concatenation, segment by segment, of: the
    literal "ID" for a segment that is "id" in any case, and otherwise the
    segment with its first letter in upper case (the rest in lower case); an
    empty segment gives nothing.  By [Split_pieces] every string is such a
    join, and by [Unicode_toCamelCase_ascii] below the function of this
    statement is the code on ASCII input. *)
Theorem toCamelCase_by_segment (segs : list string) :
  segs <> [] ->
  Forall (fun seg => isASCII seg = true /\ noByte "_" seg = true) segs ->
  exists outs : list string,
    toCamelCase (Join segs "_") = String.concat "" outs /\
    Forall2
      (fun seg out =>
         (ToLower seg = "id" -> out = "ID") /\
         (forall c r, seg = String c r -> ToLower seg <> "id" ->
                      out = String (upperByte c) (ToLower r)) /\
         (seg = "" -> out = ""))
      segs outs.
Proof.
  intros Hne H.
  exists (map (fun seg => camelPart (ToLower seg)) segs). split.
  - apply toCamelCase_Join; [exact Hne|].
    eapply Forall_impl; [|exact H]. now intros a [_ Ha].
  - clear. induction segs as [|seg segs IH]; cbn [map]; constructor; [|exact IH].
    repeat split.
    + intros ->. reflexivity.
    + intros c r -> Hn. now apply camelPart_ToLower.
    + intros ->. reflexivity.
Qed.

Lemma toCamelCase_by_segment_witness :
  ["user"; "ID"; "createdAt"] <> [] /\
  Forall (fun seg => isASCII seg = true /\ noByte "_" seg = true)
         ["user"; "ID"; "createdAt"] /\
  Join ["user"; "ID"; "createdAt"] "_" = "user_ID_createdAt" /\
  toCamelCase "user_ID_createdAt" = "UserIDCreatedat" /\
  exists outs : list string,
    toCamelCase (Join ["user"; "ID"; "createdAt"] "_") = String.concat "" outs /\
    Forall2
      (fun seg out =>
         (ToLower seg = "id" -> out = "ID") /\
         (forall c r, seg = String c r -> ToLower seg <> "id" ->
                      out = String (upperByte c) (ToLower r)) /\
         (seg = "" -> out = ""))
      ["user"; "ID"; "createdAt"] outs.
Proof.
  assert (H1 : ["user"; "ID"; "createdAt"] <> []) by discriminate.
  assert (H2 : Forall (fun seg => isASCII seg = true /\ noByte "_" seg = true)
                      ["user"; "ID"; "createdAt"]).
  { repeat constructor. }
  split; [exact H1|]. split; [exact H2|].
  split; [reflexivity|]. split; [reflexivity|].
  exact (toCamelCase_by_segment ["user"; "ID"; "createdAt"] H1 H2).
Defined.

(** ** Identifier normalisation: names that are not ASCII *)

Lemma stringOfByte_ToUpper (unicodeToUpper : N -> N) (c : ascii) :
  Unicode.ToUpper unicodeToUpper (Unicode.stringOfByte c) =
  if isASCIIByte c then str1 (upperByte c)
  else Unicode.encodeRune (unicodeToUpper (N_of_ascii c)).
Proof. destruct c as [[] [] [] [] [] [] [] []]; reflexivity. Qed.

Lemma Unicode_camelPart_ascii (unicodeToUpper : N -> N) (p : string) :
  isASCII p = true -> Unicode.camelPart unicodeToUpper p = camelPart p.
Proof.
  destruct p as [|c r]; [reflexivity|].
  unfold Unicode.camelPart, camelPart.
  destruct (String.eqb (String c r) "id"); [reflexivity|].
  intros H. cbn [isASCII allString] in H. apply andb_true_iff in H.
  rewrite stringOfByte_ToUpper, (proj1 H). reflexivity.
Qed.

Lemma lowerByte_ascii (c : ascii) : isASCIIByte (lowerByte c) = isASCIIByte c.
Proof. destruct c as [[] [] [] [] [] [] [] []]; reflexivity. Qed.

Lemma isASCII_ToLower (s : string) : isASCII (ToLower s) = isASCII s.
Proof.
  unfold isASCII, ToLower. induction s as [|c s IH]; [reflexivity|].
  cbn [mapString allString]. now rewrite lowerByte_ascii, IH.
Qed.

Lemma isASCII_Join (sep : string) (l : list string) :
  isASCII (Join l sep) = true -> Forall (fun p => isASCII p = true) l.
Proof.
  induction l as [|a l IH]; intros H; [constructor|].
  destruct l as [|b l].
  - constructor; [exact H | constructor].
  - rewrite Join_cons2 in H. unfold isASCII in H.
    rewrite !allString_app in H.
    apply andb_true_iff in H. destruct H as [Ha H].
    apply andb_true_iff in H. destruct H as [_ H].
    constructor; [exact Ha | exact (IH H)].
Qed.

(** On ASCII input the function on every byte string is the byte-wise one,
    whatever the case tables. *)
Lemma Unicode_toCamelCase_ascii (unicodeToUpper unicodeToLower : N -> N)
      (s : string) :
  isASCII s = true ->
  Unicode.toCamelCase unicodeToUpper unicodeToLower s = toCamelCase s.
Proof.
  intros H. unfold Unicode.toCamelCase, toCamelCase, Unicode.ToLower.
  rewrite H. fold (ToLower s). f_equal.
  apply map_ext_in. intros p Hp. apply Unicode_camelPart_ascii.
  assert (HA : isASCII (ToLower s) = true) by now rewrite isASCII_ToLower.
  destruct (Split_pieces "_" (ToLower s)) as (_ & _ & HJ).
  rewrite <- HJ in HA. apply isASCII_Join in HA.
  rewrite Forall_forall in HA. exact (HA p Hp).
Qed.

(** A part that starts with a byte from 0x80 on: that byte alone is taken
    for a rune, and the bytes after it are kept as they are. *)
Lemma Unicode_camelPart_lead_byte (unicodeToUpper : N -> N) (c : ascii)
      (r : string) :
  isASCIIByte c = false ->
  Unicode.camelPart unicodeToUpper (String c r) =
  Unicode.encodeRune (unicodeToUpper (N_of_ascii c)) ++ r.
Proof.
  intros H. unfold Unicode.camelPart.
  rewrite stringOfByte_ToUpper, H.
  assert (E : String.eqb (String c r) "id" = false).
  { apply String.eqb_neq. intros [= -> _]. discriminate. }
  now rewrite E.
Qed.

Lemma latin1ToLower_ascii (r : N) :
  (r < 128)%N -> latin1ToLower r = asciiToLower r.
Proof.
  intros H. unfold latin1ToLower, asciiToLower.
  destruct ((65 <=? r) && (r <=? 90))%N; [reflexivity|].
  destruct (192 <=? r)%N eqn:E; [apply N.leb_le in E; lia | reflexivity].
Qed.

(** C8: [toCamelCase] upper-cases [string(parts[i][0])], the first byte of
    a segment, not its first letter; a segment that starts with a letter
    outside ASCII does not get its first letter in upper case.  For the
    column name ecole_id written with an e-acute (U+00E9, the two bytes 0xC3
    0xA9)
    the lead byte 0xC3 alone is converted to the rune U+00C3 (A-tilde),
    upper-cased (it is upper case already) and written as 0xC3 0x83; the
    continuation byte 0xA9 is left behind it.  The output is A-tilde, a
    stray byte 0xA9 and "coleID": it decodes with a [RuneError], and it is
    not the name with its first letter in upper case (U+00C9).  The segment
    id does become ID.  Of the case tables only three facts are used:
    [unicode.ToLower] is the ASCII one below 0x80 and leaves U+00E9,
    [unicode.ToUpper] leaves U+00C3. *)
Theorem toCamelCase_mangles_first_letter
        (unicodeToUpper unicodeToLower : N -> N) :
  (forall r, (r < 128)%N -> unicodeToLower r = asciiToLower r) ->
  unicodeToLower 233%N = 233%N ->
  unicodeToUpper 195%N = 195%N ->
  Unicode.toCamelCase unicodeToUpper unicodeToLower ecoleID =
    String "195" (String "131" (String "169" "coleID")) /\
  Unicode.runes (Unicode.toCamelCase unicodeToUpper unicodeToLower ecoleID) =
    [195; Unicode.RuneError; 99; 111; 108; 101; 73; 68]%N /\
  Unicode.toCamelCase unicodeToUpper unicodeToLower ecoleID <>
    Unicode.encodeRune 201 ++ "coleID".
Proof.
  intros Hascii Hlower Hupper.
  assert (L : Unicode.ToLower unicodeToLower ecoleID = ecoleID).
  { unfold Unicode.ToLower, Unicode.Map.
    change (isASCII ecoleID) with false.
    change (Unicode.runes ecoleID)
      with [233; 99; 111; 108; 101; 95; 105; 100]%N.
    cbn [map]. rewrite Hlower, !Hascii by reflexivity. reflexivity. }
  assert (E : Unicode.toCamelCase unicodeToUpper unicodeToLower ecoleID =
              String "195" (String "131" (String "169" "coleID"))).
  { unfold Unicode.toCamelCase. rewrite L.
    change (Split ecoleID "_") with [String "195" (String "169" "cole"); "id"].
    cbn [map]. unfold Unicode.camelPart.
    change (String.eqb (String "195" (String "169" "cole")) "id") with false.
    change (String.eqb "id" "id") with true. cbn match.
    rewrite stringOfByte_ToUpper. change (isASCIIByte "195") with false.
    cbn match. change (N_of_ascii "195") with 195%N. rewrite Hupper.
    reflexivity. }
  rewrite E. split; [reflexivity|]. split; [reflexivity | discriminate].
Qed.

Lemma toCamelCase_mangles_first_letter_witness :
  Unicode.runes ecoleID = [233; 99; 111; 108; 101; 95; 105; 100]%N /\
  Unicode.toCamelCase latin1ToUpper latin1ToLower ecoleID =
    String "195" (String "131" (String "169" "coleID")).
Proof.
  split; [reflexivity|].
  exact (proj1 (toCamelCase_mangles_first_letter latin1ToUpper latin1ToLower
                  latin1ToLower_ascii eq_refl eq_refl)).
Defined.

(** * Further properties of the code *)

(** ** Naming: what [toCamelCase] and [toSnakeCase] produce *)

Lemma upperByte_underscore (c : ascii) :
  Ascii.eqb (upperByte c) "_"%char = Ascii.eqb c "_"%char.
Proof. destruct c as [[] [] [] [] [] [] [] []]; reflexivity. Qed.

Lemma lowerByte_upperByte (c : ascii) : lowerByte (upperByte c) = lowerByte c.
Proof. destruct c as [[] [] [] [] [] [] [] []]; reflexivity. Qed.

Lemma lowerByte_idem (c : ascii) : lowerByte (lowerByte c) = lowerByte c.
Proof. destruct c as [[] [] [] [] [] [] [] []]; reflexivity. Qed.

Lemma noByte_app (d : ascii) (a b : string) :
  noByte d (a ++ b) = noByte d a && noByte d b.
Proof. apply allString_app. Qed.

Lemma camelPart_noUnderscore (p : string) :
  noByte "_" p = true -> noByte "_" (camelPart p) = true.
Proof.
  destruct p as [|c r]; [reflexivity|].
  unfold camelPart. destruct (String.eqb (String c r) "id"); [reflexivity|].
  unfold noByte. cbn [ToUpper str1 mapString append allString].
  intros H. apply andb_true_iff in H. destruct H as [Hc Hr].
  now rewrite upperByte_underscore, Hc, Hr.
Qed.

Lemma noByte_concat (d : ascii) (l : list string) :
  Forall (fun b => noByte d b = true) l ->
  noByte d (String.concat "" l) = true.
Proof.
  intros H. change (String.concat "" l) with (Join l "").
  induction H as [|a l Ha _ IH]; [reflexivity|].
  destruct l as [|b l]; [exact Ha|].
  rewrite Join_cons2. change ("" ++ Join (b :: l) "") with (Join (b :: l) "").
  now rewrite noByte_app, Ha, IH.
Qed.

Lemma byte_eqb (n : N) (d : ascii) :
  (n < 256)%N -> n <> N_of_ascii d -> Ascii.eqb (Unicode.byte n) d = false.
Proof.
  intros Hn Hd. apply Ascii.eqb_neq. intros E. apply Hd.
  rewrite <- E. unfold Unicode.byte. symmetry. now apply N_ascii_embedding.
Qed.

Ltac name_quotients :=
  repeat match goal with
         | |- context [(?a / ?b)%N] =>
             let q := fresh "q" in set (q := (a / b)%N) in *; clearbody q
         | |- context [(?a mod ?b)%N] =>
             let m := fresh "m" in set (m := (a mod b)%N) in *; clearbody m
         end.

(** The encoding of a rune holds an ASCII byte only when the rune is that
    byte. *)
Lemma encodeRune_noByte (d : ascii) (r : N) :
  isASCIIByte d = true -> r <> N_of_ascii d ->
  noByte d (Unicode.encodeRune r) = true.
Proof.
  intros Hd Hr.
  assert (D : (N_of_ascii d < 128)%N).
  { revert Hd. destruct d as [[] [] [] [] [] [] [] []]; cbn;
      (discriminate || (intros _; reflexivity)). }
  assert (M : forall x, (x mod 64 < 64)%N) by (intros x; now apply N.mod_lt).
  unfold Unicode.encodeRune, noByte.
  destruct (r <=? 127)%N eqn:E1.
  { apply N.leb_le in E1. cbn [str1 allString].
    rewrite byte_eqb by (lia || assumption). reflexivity. }
  apply N.leb_gt in E1.
  destruct (r <=? 2047)%N eqn:E2.
  { apply N.leb_le in E2.
    assert (r / 64 < 32)%N by (apply N.Div0.div_lt_upper_bound; lia).
    pose proof (M r). clear M.
    cbn [str1 allString]. name_quotients.
    rewrite !byte_eqb by lia. reflexivity. }
  apply N.leb_gt in E2.
  destruct (_ || _) eqn:E3.
  { cbn [str1 allString]. rewrite !byte_eqb by (cbn; lia). reflexivity. }
  apply orb_false_iff in E3. destruct E3 as [E3 _]. apply N.ltb_ge in E3.
  unfold Unicode.MaxRune in E3.
  destruct (r <=? 65535)%N eqn:E4.
  { apply N.leb_le in E4.
    assert (r / 4096 < 16)%N by (apply N.Div0.div_lt_upper_bound; lia).
    pose proof (M r). pose proof (M (r / 64)%N). clear M.
    cbn [str1 allString]. name_quotients.
    rewrite !byte_eqb by lia. reflexivity. }
  assert (r / 262144 < 5)%N by (apply N.Div0.div_lt_upper_bound; lia).
  pose proof (M r). pose proof (M (r / 64)%N). pose proof (M (r / 4096)%N).
  clear M.
  cbn [str1 allString]. name_quotients.
  rewrite !byte_eqb by lia. reflexivity.
Qed.

Lemma Unicode_camelPart_noUnderscore (unicodeToUpper : N -> N) (p : string) :
  (forall r, (128 <= r)%N -> unicodeToUpper r <> 95%N) ->
  noByte "_" p = true ->
  noByte "_" (Unicode.camelPart unicodeToUpper p) = true.
Proof.
  intros Hup. destruct p as [|c r]; [reflexivity|].
  unfold Unicode.camelPart.
  destruct (String.eqb (String c r) "id"); [reflexivity|].
  intros H. unfold noByte in H. cbn [allString] in H.
  apply andb_true_iff in H. destruct H as [Hc Hr].
  rewrite noByte_app. apply andb_true_iff. split; [|exact Hr].
  rewrite stringOfByte_ToUpper.
  destruct (isASCIIByte c) eqn:E.
  - unfold noByte. cbn [str1 allString].
    now rewrite upperByte_underscore, Hc.
  - apply encodeRune_noByte; [reflexivity|].
    apply Hup. unfold isASCIIByte in E. apply Nat.ltb_ge in E.
    unfold nat_of_ascii in E. lia.
Qed.

Lemma latin1ToUpper_underscore (r : N) :
  (128 <= r)%N -> latin1ToUpper r <> 95%N.
Proof.
  intros H. unfold latin1ToUpper.
  destruct ((97 <=? r) && (r <=? 122))%N eqn:E1.
  { apply andb_true_iff in E1. destruct E1 as [_ E1].
    apply N.leb_le in E1. lia. }
  destruct (r =? 181)%N; [discriminate|].
  destruct ((224 <=? r) && (r <=? 254) && negb (r =? 247))%N; [lia|].
  destruct (r =? 255)%N; [discriminate | lia].
Qed.

(** X1: whatever the input, ASCII or not, valid UTF-8 or not, the name
    [toCamelCase] returns holds no underscore.  Of the case tables one fact
    is used: [unicode.ToUpper] sends no rune from U+0080 on to the
    underscore. *)
Theorem toCamelCase_no_underscore (unicodeToUpper unicodeToLower : N -> N)
        (s : string) :
  (forall r, (128 <= r)%N -> unicodeToUpper r <> 95%N) ->
  noByte "_" (Unicode.toCamelCase unicodeToUpper unicodeToLower s) = true.
Proof.
  intros Hup. unfold Unicode.toCamelCase, Join. apply noByte_concat.
  rewrite Forall_map.
  destruct (Split_pieces "_" (Unicode.ToLower unicodeToLower s))
    as (_ & H & _).
  eapply Forall_impl; [|exact H].
  intros p. now apply Unicode_camelPart_noUnderscore.
Qed.

Lemma toCamelCase_no_underscore_witness :
  toCamelCase "order_items" = "OrderItems" /\
  noByte "_" (Unicode.toCamelCase latin1ToUpper latin1ToLower "order_items")
    = true /\
  noByte "_" (Unicode.toCamelCase latin1ToUpper latin1ToLower ecoleID) = true.
Proof.
  split; [reflexivity|]. split.
  - exact (toCamelCase_no_underscore latin1ToUpper latin1ToLower "order_items"
             latin1ToUpper_underscore).
  - exact (toCamelCase_no_underscore latin1ToUpper latin1ToLower ecoleID
             latin1ToUpper_underscore).
Defined.

Lemma ToLower_ToUpper (s : string) : ToLower (ToUpper s) = ToLower s.
Proof.
  unfold ToLower, ToUpper. induction s as [|c s IH]; [reflexivity|].
  cbn [mapString]. now rewrite lowerByte_upperByte, IH.
Qed.

Lemma ToLower_idem (s : string) : ToLower (ToLower s) = ToLower s.
Proof.
  unfold ToLower. induction s as [|c s IH]; [reflexivity|].
  cbn [mapString]. now rewrite lowerByte_idem, IH.
Qed.

(** X2: the case of the input does not matter to [toCamelCase]: an ASCII
    name, its upper-case form and its lower-case form give the same
    result. *)
Theorem toCamelCase_ignores_case (s : string) :
  isASCII s = true ->
  toCamelCase (ToUpper s) = toCamelCase s /\
  toCamelCase (ToLower s) = toCamelCase s.
Proof.
  intros _. unfold toCamelCase.
  now rewrite ToLower_ToUpper, ToLower_idem.
Qed.

Lemma toCamelCase_ignores_case_witness :
  isASCII "Order_Items" = true /\
  toCamelCase "ORDER_ITEMS" = "OrderItems" /\
  toCamelCase (ToUpper "Order_Items") = toCamelCase "Order_Items" /\
  toCamelCase (ToLower "Order_Items") = toCamelCase "Order_Items".
Proof.
  split; [reflexivity|]. split; [reflexivity|].
  exact (toCamelCase_ignores_case "Order_Items" eq_refl).
Defined.

Example toSnakeCase_camel : toSnakeCase "OrderItem" = "order_item".
Proof. reflexivity. Qed.
Example toSnakeCase_of_ID :
  toSnakeCase (toCamelCase "user_id") = "user_i_d".
Proof. reflexivity. Qed.
Example toSnakeCase_of_snake : toSnakeCase "user_id" = "user__id".
Proof. reflexivity. Qed.

Lemma lower_byte_facts (c : ascii) :
  isLowerAZ c = true ->
  lowerByte c = c /\ lowerByte (upperByte c) = c /\
  Ascii.eqb (upperByte c) c = false /\
  Ascii.eqb (upperByte (upperByte c)) (upperByte c) = true /\
  Ascii.eqb c "_"%char = false.
Proof.
  destruct c as [[] [] [] [] [] [] [] []]; try discriminate;
    intros _; repeat split; reflexivity.
Qed.

Lemma eqb_str1 (a b : ascii) : String.eqb (str1 a) (str1 b) = Ascii.eqb a b.
Proof. unfold str1. cbn. now destruct (Ascii.eqb a b). Qed.

Lemma snake_step (first : bool) (r : ascii) (rest : string) :
  snakeFrom first (String r rest) =
  (if negb first && Ascii.eqb (upperByte r) r then "_" else "") ++
  String (lowerByte r) (snakeFrom false rest).
Proof.
  cbn [snakeFrom].
  change (ToUpper (str1 r)) with (str1 (upperByte r)).
  change (ToLower (str1 r)) with (str1 (lowerByte r)).
  now rewrite eqb_str1.
Qed.

Lemma ToLower_lower (s : string) :
  allString isLowerAZ s = true -> ToLower s = s.
Proof.
  unfold ToLower. induction s as [|c s IH]; [reflexivity|].
  cbn [allString mapString]. intros H.
  apply andb_true_iff in H. destruct H as [Hc Hs].
  destruct (lower_byte_facts c Hc) as (-> & _). now rewrite IH.
Qed.

Lemma lower_noUnderscore (s : string) :
  allString isLowerAZ s = true -> noByte "_" s = true.
Proof.
  unfold noByte. induction s as [|c s IH]; [reflexivity|].
  cbn [allString]. intros H.
  apply andb_true_iff in H. destruct H as [Hc Hs].
  destruct (lower_byte_facts c Hc) as (_ & _ & _ & _ & ->).
  now rewrite IH.
Qed.

(** Lower-case letters pass through the loop unchanged. *)
Lemma snakeFrom_lower (s rest : string) :
  allString isLowerAZ s = true ->
  snakeFrom false (s ++ rest) = s ++ snakeFrom false rest.
Proof.
  induction s as [|c s IH]; [reflexivity|].
  cbn [allString]. intros H.
  apply andb_true_iff in H. destruct H as [Hc Hs].
  change (String c s ++ rest) with (String c (s ++ rest)).
  rewrite snake_step.
  destruct (lower_byte_facts c Hc) as (-> & _ & -> & _).
  rewrite (IH Hs). reflexivity.
Qed.

(** A capitalised lower-case word gives back the word, after a separator
    unless it opens the name. *)
Lemma snakeFrom_capitalised (first : bool) (c : ascii) (r rest : string) :
  allString isLowerAZ (String c r) = true ->
  snakeFrom first (String (upperByte c) r ++ rest) =
  (if first then "" else "_") ++ String c r ++ snakeFrom false rest.
Proof.
  cbn [allString]. intros H.
  apply andb_true_iff in H. destruct H as [Hc Hr].
  change (String (upperByte c) r ++ rest) with (String (upperByte c) (r ++ rest)).
  rewrite snake_step.
  destruct (lower_byte_facts c Hc) as (_ & -> & _ & -> & _).
  rewrite (snakeFrom_lower r rest Hr).
  destruct first; reflexivity.
Qed.

Lemma camelPart_lowerWord (seg : string) :
  lowerWord seg -> seg <> "id" ->
  exists c r, seg = String c r /\
              camelPart (ToLower seg) = String (upperByte c) r.
Proof.
  intros [Hne Hl] Hid. destruct seg as [|c r]; [contradiction|].
  exists c, r. split; [reflexivity|].
  rewrite (ToLower_lower _ Hl). unfold camelPart.
  apply String.eqb_neq in Hid. rewrite Hid. reflexivity.
Qed.

Lemma snakeFrom_words (first : bool) (segs : list string) :
  segs <> [] ->
  Forall (fun seg => lowerWord seg /\ seg <> "id") segs ->
  snakeFrom first
    (String.concat "" (map (fun seg => camelPart (ToLower seg)) segs)) =
  (if first then "" else "_") ++ Join segs "_".
Proof.
  intros Hne H. revert first.
  induction H as [|seg l [Hw Hid] Hl IH]; intros first; [contradiction|].
  destruct (camelPart_lowerWord seg Hw Hid) as (c & r & -> & Hc).
  fold (concatMap (fun seg => camelPart (ToLower seg)) (String c r :: l)).
  rewrite concatMap_cons, Hc.
  rewrite (snakeFrom_capitalised first c r _ (proj2 Hw)).
  destruct l as [|b l].
  - unfold concatMap. cbn [map String.concat snakeFrom].
    now rewrite append_empty_r.
  - unfold concatMap. rewrite IH by discriminate.
    rewrite Join_cons2. reflexivity.
Qed.

(** X3: on a name made of non-empty lower-case words joined by underscores,
    none of them "id", [toSnakeCase] undoes [toCamelCase]. *)
Theorem toSnakeCase_toCamelCase (segs : list string) :
  segs <> [] ->
  Forall (fun seg => lowerWord seg /\ seg <> "id") segs ->
  toSnakeCase (toCamelCase (Join segs "_")) = Join segs "_".
Proof.
  intros Hne H.
  rewrite toCamelCase_Join.
  - unfold toSnakeCase. now rewrite snakeFrom_words.
  - exact Hne.
  - eapply Forall_impl; [|exact H].
    intros seg [[_ Hl] _]. now apply lower_noUnderscore.
Qed.

Lemma toSnakeCase_toCamelCase_witness :
  ["order"; "items"] <> [] /\
  Forall (fun seg => lowerWord seg /\ seg <> "id") ["order"; "items"] /\
  toCamelCase "order_items" = "OrderItems" /\
  toSnakeCase (toCamelCase (Join ["order"; "items"] "_")) =
  Join ["order"; "items"] "_".
Proof.
  assert (H1 : ["order"; "items"] <> []) by discriminate.
  assert (H2 : Forall (fun seg => lowerWord seg /\ seg <> "id")
                      ["order"; "items"]).
  { repeat constructor; discriminate. }
  split; [exact H1|]. split; [exact H2|]. split; [reflexivity|].
  exact (toSnakeCase_toCamelCase ["order"; "items"] H1 H2).
Defined.

(** ** Naming: the two derivations of the entity name *)

Lemma substring_all (b : string) : substring 0 (String.length b) b = b.
Proof. induction b as [|c b IH]; cbn; [reflexivity | now rewrite IH]. Qed.

Lemma substring_app_r (a b : string) :
  substring (String.length a) (String.length b) (a ++ b) = b.
Proof. induction a as [|c a IH]; cbn; [apply substring_all | exact IH]. Qed.

Lemma substring_app_l (a b : string) :
  substring 0 (String.length a) (a ++ b) = a.
Proof.
  induction a as [|c a IH]; cbn; [now destruct b | now rewrite IH].
Qed.

Lemma HasSuffix_snoc (a : string) (c d : ascii) :
  HasSuffix (a ++ str1 c) (str1 d) = Ascii.eqb c d.
Proof.
  unfold HasSuffix, sliceFrom. rewrite length_append.
  change (String.length (str1 c)) with 1. change (String.length (str1 d)) with 1.
  replace (String.length a + 1 - 1) with (String.length a) by lia.
  replace (String.length a + 1 - String.length a) with 1 by lia.
  pose proof (substring_app_r a (str1 c)) as E.
  change (String.length (str1 c)) with 1 in E.
  rewrite E, eqb_str1.
  destruct (String.length a + 1) eqn:F; [lia | reflexivity].
Qed.

Lemma singularize_snoc (a : string) (c : ascii) :
  singularize (a ++ str1 c) =
  if Ascii.eqb c "s"%char then a else a ++ str1 c.
Proof.
  unfold singularize. change "s" with (str1 "s"%char).
  rewrite HasSuffix_snoc. destruct (Ascii.eqb c "s"%char); [|reflexivity].
  unfold sliceTo. rewrite length_append.
  change (String.length (str1 c)) with 1.
  replace (String.length a + 1 - 1) with (String.length a) by lia.
  apply substring_app_l.
Qed.

Lemma TrimSuffix_s_snoc (a : string) (c : ascii) :
  TrimSuffix (a ++ str1 c) "s" =
  if Ascii.eqb c "s"%char then a else a ++ str1 c.
Proof.
  unfold TrimSuffix. change "s" with (str1 "s"%char).
  rewrite HasSuffix_snoc. destruct (Ascii.eqb c "s"%char); [|reflexivity].
  unfold sliceTo. rewrite length_append.
  change (String.length (str1 c)) with 1.
  change (String.length (str1 "s"%char)) with 1.
  replace (String.length a + 1 - 1) with (String.length a) by lia.
  apply substring_app_l.
Qed.

Lemma Join_cons_ne (a : string) (l : list string) (sep : string) :
  l <> [] -> Join (a :: l) sep = a ++ sep ++ Join l sep.
Proof. destruct l; [contradiction | reflexivity]. Qed.

Lemma Join_snoc (init : list string) (last : string) :
  Join (init ++ [last])%list "_" =
  concatMap (fun s => s ++ "_") init ++ last.
Proof.
  induction init as [|a init IH]; [reflexivity|].
  change ((a :: init) ++ [last])%list with (a :: (init ++ [last]))%list.
  rewrite Join_cons_ne by (destruct init; discriminate).
  now rewrite IH, concatMap_cons, !append_assoc'.
Qed.

Lemma toCamelCase_snoc (init : list string) (last : string) :
  Forall (fun seg => noByte "_" seg = true) init ->
  noByte "_" last = true ->
  toCamelCase (concatMap (fun s => s ++ "_") init ++ last) =
  concatMap (fun seg => camelPart (ToLower seg)) init ++
  camelPart (ToLower last).
Proof.
  intros Hi Hl. rewrite <- Join_snoc, toCamelCase_Join.
  - fold (concatMap (fun seg => camelPart (ToLower seg)) (init ++ [last])%list).
    rewrite concatMap_app. reflexivity.
  - destruct init; discriminate.
  - apply Forall_app. split; [exact Hi | now constructor].
Qed.

Lemma upperByte_not_s (c : ascii) : Ascii.eqb (upperByte c) "s"%char = false.
Proof. destruct c as [[] [] [] [] [] [] [] []]; reflexivity. Qed.

Lemma lowerByte_s (c : ascii) :
  Ascii.eqb (lowerByte c) "s"%char =
  Ascii.eqb c "s"%char || Ascii.eqb c "S"%char.
Proof. destruct c as [[] [] [] [] [] [] [] []]; reflexivity. Qed.

Lemma ToLower_snoc (x : string) (c : ascii) :
  ToLower (x ++ str1 c) = ToLower x ++ str1 (lowerByte c).
Proof. unfold ToLower. now rewrite mapString_app. Qed.

(** The last byte of a capitalised segment that does not end in s or S. *)
Lemma camelPart_last_byte (x : string) (c : ascii) :
  Ascii.eqb c "s"%char = false -> Ascii.eqb c "S"%char = false ->
  exists y e, camelPart (ToLower (x ++ str1 c)) = y ++ str1 e /\
              Ascii.eqb e "s"%char = false.
Proof.
  intros Hs HS. rewrite ToLower_snoc. unfold camelPart.
  destruct (ToLower x ++ str1 (lowerByte c)) as [|l0 lr] eqn:E.
  - destruct (ToLower x); discriminate.
  - destruct (String.eqb (String l0 lr) "id").
    + exists "I", "D"%char. split; reflexivity.
    + destruct (ToLower x) as [|x0 xr].
      * cbn in E. injection E as <- <-.
        exists "", (upperByte (lowerByte c)). split; [reflexivity|].
        apply upperByte_not_s.
      * cbn in E. injection E as <- <-.
        exists (String (upperByte x0) xr), (lowerByte c).
        split; [reflexivity|].
        now rewrite lowerByte_s, Hs, HS.
Qed.

(** A segment that ends in s, other than "s" and "ids": its capitalised
    form is that of the segment without the s, followed by s. *)
Lemma camelPart_plural (x : string) :
  x <> "" -> ToLower x <> "id" ->
  camelPart (ToLower (x ++ "s")) = camelPart (ToLower x) ++ "s".
Proof.
  intros Hne Hid. change "s" with (str1 "s"%char) at 1.
  rewrite ToLower_snoc. change (str1 (lowerByte "s")) with "s".
  destruct (ToLower x) as [|x0 xr] eqn:E.
  - destruct x; [contradiction | discriminate].
  - unfold camelPart.
    apply String.eqb_neq in Hid. rewrite Hid.
    change (String x0 xr ++ "s") with (String x0 (xr ++ "s")).
    destruct (String.eqb (String x0 (xr ++ "s")) "id") eqn:F.
    + apply String.eqb_eq in F. injection F as _ F.
      destruct xr as [|? [|? ?]]; discriminate.
    + now rewrite append_assoc'.
Qed.

Example struct_names_differ_ids :
  structNameOf "user_ids" = "UserId" /\ mainGoStructName "user_ids" = "UserID".
Proof. split; reflexivity. Qed.
Example struct_names_differ_s :
  structNameOf "user_s" = "UserS" /\ mainGoStructName "user_s" = "User".
Proof. split; reflexivity. Qed.
Example struct_names_differ_underscore :
  structNameOf "users_" = "User" /\ mainGoStructName "users_" = "Users".
Proof. split; reflexivity. Qed.

(** X4: [generateMainGo] derives the entity name as
    toCamelCase(TrimSuffix(name, "s")), the per-table generators as
    toCamelCase(name) without a trailing "s".  The two agree for an ASCII
    table name whose last underscore-separated segment is not empty (the
    name is not empty and does not end in an underscore) and does not end
    in an upper-case S, provided that, when the name ends in a lower-case s,
    that last segment is neither "s" nor "ids" (in any case).  The name is
    given by its segments: [init] before the last one, [x] and the byte [c]
    the last one.  Each restriction is needed: see the examples
    [struct_names_differ_upper], [struct_names_differ_s],
    [struct_names_differ_ids] and [struct_names_differ_underscore]. *)
Theorem struct_names_agree (init : list string) (x : string) (c : ascii) :
  isASCII (Join (List.app init [x ++ str1 c]) "_") = true ->
  Forall (fun seg => noByte "_" seg = true) init ->
  noByte "_" (x ++ str1 c) = true ->
  c <> "S"%char ->
  (c = "s"%char -> x <> "" /\ ToLower x <> "id") ->
  structNameOf (Join (List.app init [x ++ str1 c]) "_") =
  mainGoStructName (Join (List.app init [x ++ str1 c]) "_").
Proof.
  intros _ Hi Hl HS Hs.
  unfold structNameOf, mainGoStructName.
  rewrite Join_snoc, (toCamelCase_snoc init _ Hi Hl).
  rewrite <- append_assoc', TrimSuffix_s_snoc.
  assert (Hx : noByte "_" x = true).
  { rewrite noByte_app in Hl. now apply andb_true_iff in Hl. }
  destruct (Ascii.eqb c "s"%char) eqn:E.
  - apply Ascii.eqb_eq in E. subst c. destruct (Hs eq_refl) as [Hne Hid].
    rewrite (toCamelCase_snoc init x Hi Hx).
    change (str1 "s"%char) with "s".
    rewrite (camelPart_plural x Hne Hid), <- append_assoc'.
    change "s" with (str1 "s"%char).
    now rewrite singularize_snoc.
  - rewrite append_assoc', (toCamelCase_snoc init _ Hi Hl).
    apply Ascii.eqb_neq in HS.
    destruct (camelPart_last_byte x c E HS) as (y & e & -> & He).
    now rewrite <- append_assoc', singularize_snoc, He.
Qed.

Lemma struct_names_agree_witness :
  isASCII (Join (List.app ["order"] ["item" ++ str1 "s"%char]) "_") = true /\
  Join (List.app ["order"] ["item" ++ str1 "s"%char]) "_" = "order_items" /\
  structNameOf "order_items" = "OrderItem" /\
  structNameOf (Join (List.app ["order"] ["item" ++ str1 "s"%char]) "_") =
  mainGoStructName (Join (List.app ["order"] ["item" ++ str1 "s"%char]) "_").
Proof.
  split; [reflexivity|]. split; [reflexivity|]. split; [reflexivity|].
  apply (struct_names_agree ["order"] "item" "s"%char).
  - reflexivity.
  - repeat constructor.
  - reflexivity.
  - discriminate.
  - intros _. split; discriminate.
Defined.

(** ** Schema parser: what a parsed column holds *)

Lemma allString_revString (p : ascii -> bool) (acc s : string) :
  allString p (revString acc s) = allString p acc && allString p s.
Proof.
  revert acc. induction s as [|c s IH]; intros acc; cbn [revString allString].
  - now rewrite andb_true_r.
  - rewrite IH. cbn [allString]. 
    destruct (p c), (allString p acc), (allString p s); reflexivity.
Qed.

Lemma revString_nonempty (acc s : string) :
  acc <> "" -> revString acc s <> "".
Proof.
  revert acc. induction s as [|c s IH]; intros acc H; cbn [revString].
  - exact H.
  - apply IH. discriminate.
Qed.

Lemma revString_cons_nonempty (x : ascii) (cur : string) :
  revString "" (String x cur) <> "".
Proof. cbn [revString]. apply revString_nonempty. discriminate. Qed.

Lemma fieldsFrom_fields (s cur : string) :
  allString notSpace cur = true ->
  Forall isField (fieldsFrom cur s).
Proof.
  revert cur. induction s as [|c s IH]; intros cur Hcur; cbn [fieldsFrom].
  - destruct cur as [|x cur]; [constructor|].
    constructor; [|constructor].
    split; [apply revString_cons_nonempty|].
    now rewrite allString_revString.
  - destruct (isSpace c) eqn:E.
    + destruct cur as [|x cur]; [now apply IH|].
      constructor; [|now apply IH].
      split; [apply revString_cons_nonempty|].
      now rewrite allString_revString.
    + apply IH. cbn [allString]. unfold notSpace at 1. now rewrite E.
Qed.

Lemma Fields_fields (s : string) : Forall isField (Fields s).
Proof. apply fieldsFrom_fields. reflexivity. Qed.

Lemma defaultAt_value (s v : string) :
  defaultAt s = Some v -> v <> "" /\ allString defaultValueByte v = true.
Proof.
  unfold defaultAt.
  destruct (matchFold "DEFAULT" s) as [r1|]; [|discriminate].
  destruct (negb (startsWith reSpace r1)); [discriminate|].
  destruct (String.eqb _ "") eqn:E; [discriminate|].
  intros [= <-]. split.
  - now apply String.eqb_neq.
  - apply allString_takeWhile.
Qed.

Lemma findDefault_value (s v : string) :
  findDefault s = Some v -> v <> "" /\ allString defaultValueByte v = true.
Proof.
  induction s as [|c s IH]; cbn [findDefault].
  - destruct (defaultAt "") eqn:E; [|discriminate].
    intros [= <-]. now apply defaultAt_value in E.
  - destruct (defaultAt (String c s)) eqn:E.
    + intros [= <-]. now apply defaultAt_value in E.
    + exact IH.
Qed.

Lemma parseColumnDefinition_type (line : string) (c : Column.t) :
  parseColumnDefinition line = Some c -> Column.Type_ c <> "".
Proof.
  unfold parseColumnDefinition.
  destruct (isConstraintLine _); [discriminate|].
  pose proof (Fields_fields (TrimSuffix (TrimSpace line) ",")) as HF.
  destruct (Fields _) as [|name [|ty rest]]; try discriminate.
  apply Forall_cons_iff in HF. destruct HF as [_ HF].
  apply Forall_cons_iff in HF. destruct HF as [Ht _].
  assert (HT : match rest with
               | [] => ty
               | p2 :: _ =>
                   if String.eqb (ToUpper ty) "DOUBLE" &&
                      String.eqb (ToUpper p2) "PRECISION"
                   then "DOUBLE PRECISION" else ty
               end <> "").
  { destruct rest as [|p2 rest']; [apply Ht|].
    destruct (_ && _); [discriminate | apply Ht]. }
  destruct (Contains _ "PRIMARY KEY"), (Contains _ "NOT NULL"),
    (findDefault _); intros [= <-]; exact HT.
Qed.

(** X5: a column the parser returns has as name the first token of the
    line (trimmed, its final comma removed) and as type the second token or
    the merged "DOUBLE PRECISION"; the name and the type are not empty, and
    hold no ASCII white space unless the type is the merged one; the default
    value is empty or holds no comma and none of the bytes space, tab, line
    feed, form feed and carriage return (the [\s] of the regular
    expression: a vertical tab can occur); there is no Go information
    yet. *)
Theorem parsed_column_shape (line : string) (c : Column.t) :
  parseColumnDefinition line = Some c ->
  (exists ty rest,
      Fields (columnLine line) = Column.Name c :: ty :: rest /\
      (Column.Type_ c = ty \/ Column.Type_ c = "DOUBLE PRECISION")) /\
  isField (Column.Name c) /\
  (isField (Column.Type_ c) \/ Column.Type_ c = "DOUBLE PRECISION") /\
  Column.Type_ c <> "" /\
  allString defaultValueByte (Column.DefaultValue c) = true /\
  Column.GoType c = "" /\ Column.GormTag c = "" /\ Column.JSONTag c = "".
Proof.
  unfold parseColumnDefinition.
  destruct (isConstraintLine _); [discriminate|].
  pose proof (Fields_fields (TrimSuffix (TrimSpace line) ",")) as HF.
  destruct (Fields _) as [|name [|ty rest]]; try discriminate.
  apply Forall_cons_iff in HF. destruct HF as [Hn HF].
  apply Forall_cons_iff in HF. destruct HF as [Ht HF].
  set (columnType := match rest with
                     | [] => ty
                     | p2 :: _ =>
                         if String.eqb (ToUpper ty) "DOUBLE" &&
                            String.eqb (ToUpper p2) "PRECISION"
                         then "DOUBLE PRECISION" else ty
                     end).
  assert (HT : (isField columnType \/ columnType = "DOUBLE PRECISION") /\
               columnType <> "").
  { unfold columnType. destruct rest as [|p2 rest'].
    - split; [now left | apply Ht].
    - destruct (_ && _); split;
        [now right | discriminate | now left | apply Ht]. }
  destruct HT as [HT1 HT2].
  assert (HT0 : columnType = ty \/ columnType = "DOUBLE PRECISION").
  { unfold columnType. destruct rest as [|p2 rest']; [now left|].
    destruct (_ && _); [now right | now left]. }
  destruct (Contains _ "PRIMARY KEY"), (Contains _ "NOT NULL"),
    (findDefault _) as [v|] eqn:Ed;
    intros [= <-]; cbn;
    (split; [exists ty, rest; split; [reflexivity | exact HT0]|]);
    repeat split; try assumption; try apply Hn;
    try (apply findDefault_value in Ed; apply Ed).
Qed.

Lemma parsed_column_shape_witness :
  parseColumnDefinition "  price double precision NOT NULL DEFAULT 0.0, -- x" =
    Some (Column.mk "price" "DOUBLE PRECISION" false false "0.0" "" "" "") /\
  Fields (columnLine "  price double precision NOT NULL DEFAULT 0.0, -- x") =
    ["price"; "double"; "precision"; "NOT"; "NULL"; "DEFAULT"; "0.0,"; "--";
     "x"] /\
  Column.Type_ (Column.mk "price" "DOUBLE PRECISION" false false "0.0" "" "" "")
    <> "".
Proof.
  split; [reflexivity|]. split; [reflexivity|].
  exact (proj1 (proj2 (proj2 (proj2
    (parsed_column_shape "  price double precision NOT NULL DEFAULT 0.0, -- x"
       (Column.mk "price" "DOUBLE PRECISION" false false "0.0" "" "" "")
       eq_refl))))).
Defined.

Example default_with_vertical_tab :
  parseColumnDefinition ("x INT DEFAULT a" ++ String vtab "b") =
  Some (Column.mk "x" "INT" false true ("a" ++ String vtab "b") "" "" "").
Proof. reflexivity. Qed.

(** X6: the migration line of a parsed column (before or after the Go
    information is filled in) is its name, its original SQL type, NOT NULL
    when it is not nullable, and its default when it has one: never
    PRIMARY KEY, and never a type from [mapGoTypeToPGType]. *)
Theorem parsed_column_definition (line tableName : string) (c : Column.t) :
  parseColumnDefinition line = Some c ->
  generateColumnDefinition (generateGoFieldInfo c) tableName =
    Column.Name c ++ " " ++ Column.Type_ c ++
    (if Column.IsNullable c then "" else " NOT NULL") ++
    (if String.eqb (Column.DefaultValue c) "" then ""
     else " DEFAULT " ++ Column.DefaultValue c) /\
  generateColumnDefinition c tableName =
  generateColumnDefinition (generateGoFieldInfo c) tableName.
Proof.
  intros H.
  destruct (parseColumnDefinition_flags line c H) as [Hpk _].
  pose proof (parseColumnDefinition_type line c H) as Ht.
  apply String.eqb_neq in Ht.
  unfold generateColumnDefinition, generateGoFieldInfo.
  cbn [Column.withGoInfo Column.Name Column.Type_ Column.IsPrimaryKey
       Column.IsNullable Column.DefaultValue Column.GoType].
  rewrite Hpk, Ht. cbn [negb andb].
  rewrite !andb_true_r.
  split; [|reflexivity].
  destruct (Column.IsNullable c), (String.eqb (Column.DefaultValue c) "");
    reflexivity.
Qed.

Lemma parsed_column_definition_witness :
  parseColumnDefinition "price NUMERIC(10,2) NOT NULL DEFAULT 0," =
    Some (Column.mk "price" "NUMERIC(10,2)" false false "0" "" "" "") /\
  generateColumnDefinition
    (generateGoFieldInfo
       (Column.mk "price" "NUMERIC(10,2)" false false "0" "" "" "")) "items"
  = "price NUMERIC(10,2) NOT NULL DEFAULT 0".
Proof.
  split; [reflexivity|].
  exact (proj1 (parsed_column_definition
                  "price NUMERIC(10,2) NOT NULL DEFAULT 0," "items"
                  (Column.mk "price" "NUMERIC(10,2)" false false "0" "" "" "")
                  eq_refl)).
Defined.

(** ** Schema parser: the line loop *)

Lemma parseLine_ignored (st : ParseState) (rawLine : string) :
  isIgnored rawLine = true -> parseLine st rawLine = st.
Proof. unfold isIgnored, parseLine. now intros ->. Qed.

Lemma parseLines_app (l1 l2 : list string) (st : ParseState) :
  fold_left parseLine (l1 ++ l2)%list st =
  fold_left parseLine l2 (fold_left parseLine l1 st).
Proof. apply fold_left_app. Qed.

(** X7: a comment line or a blank line changes nothing, wherever it stands
    in the file, inside a table or outside. *)
Theorem ignored_line_changes_nothing (l1 l2 : list string) (rawLine : string) :
  isIgnored rawLine = true ->
  parseLines (l1 ++ rawLine :: l2)%list = parseLines (l1 ++ l2)%list.
Proof.
  intros H. unfold parseLines. rewrite !parseLines_app.
  cbn [fold_left]. now rewrite parseLine_ignored.
Qed.

Lemma ignored_line_changes_nothing_witness :
  isIgnored "   -- the owner of the session" = true /\
  parseLines (["CREATE TABLE sessions ("; "  token TEXT,"] ++
              "   -- the owner of the session" ::
              ["  account_id BIGINT"; ");"])%list =
  parseLines (["CREATE TABLE sessions ("; "  token TEXT,"] ++
              ["  account_id BIGINT"; ");"])%list.
Proof.
  split; [reflexivity|].
  exact (ignored_line_changes_nothing
           ["CREATE TABLE sessions ("; "  token TEXT,"]
           ["  account_id BIGINT"; ");"]
           "   -- the owner of the session" eq_refl).
Defined.

(** The loop only ever appends to the tables it has closed. *)
Lemma parseLine_tables (ts : list Table.t) (cur : option Table.t) (b : bool)
      (rawLine : string) :
  parseLine (mkParseState ts cur b) rawLine =
  mkParseState
    (ts ++ tables (parseLine (mkParseState [] cur b) rawLine))%list
    (currentTable (parseLine (mkParseState [] cur b) rawLine))
    (inTableDefinition (parseLine (mkParseState [] cur b) rawLine)).
Proof.
  unfold parseLine. cbn [tables currentTable inTableDefinition].
  destruct (_ || _ || _); [cbn; now rewrite app_nil_r|].
  destruct (findCreateTable _); [cbn; now rewrite app_nil_r|].
  destruct (b && _).
  - destruct cur; cbn; now rewrite ?app_nil_r.
  - destruct b; [|cbn; now rewrite app_nil_r].
    destruct cur; [|cbn; now rewrite app_nil_r].
    destruct (parseColumnDefinition _); cbn; now rewrite app_nil_r.
Qed.

Lemma fold_parseLine_tables (lines : list string) (ts : list Table.t)
      (cur : option Table.t) (b : bool) :
  fold_left parseLine lines (mkParseState ts cur b) =
  mkParseState
    (ts ++ tables (fold_left parseLine lines (mkParseState [] cur b)))%list
    (currentTable (fold_left parseLine lines (mkParseState [] cur b)))
    (inTableDefinition (fold_left parseLine lines (mkParseState [] cur b))).
Proof.
  revert ts cur b. induction lines as [|l lines IH]; intros ts cur b.
  - cbn. now rewrite app_nil_r.
  - cbn [fold_left]. rewrite parseLine_tables.
    destruct (parseLine (mkParseState [] cur b) l) as [ts1 cur1 b1].
    cbn [tables currentTable inTableDefinition].
    rewrite (IH (ts ++ ts1)%list), (IH ts1).
    cbn [tables currentTable inTableDefinition].
    now rewrite app_assoc.
Qed.

Lemma parseLine_closed (st : ParseState) (rawLine : string) :
  parseStateClosed st -> parseStateClosed (parseLine st rawLine).
Proof.
  unfold parseStateClosed, parseLine. intros H.
  destruct (_ || _ || _); [exact H|].
  destruct (findCreateTable _); [discriminate|].
  destruct (inTableDefinition st && _) eqn:E.
  - destruct (currentTable st); reflexivity.
  - destruct (inTableDefinition st) eqn:F.
    + destruct (currentTable st) eqn:G; [|now rewrite F].
      destruct (parseColumnDefinition _); cbn; [discriminate|now rewrite F].
    + intros _. destruct (currentTable st) eqn:G; [|reflexivity].
      now specialize (H eq_refl).
Qed.

Lemma fold_parseLine_closed (lines : list string) (st : ParseState) :
  parseStateClosed st -> parseStateClosed (fold_left parseLine lines st).
Proof.
  revert st. induction lines as [|l lines IH]; intros st H; cbn [fold_left].
  - exact H.
  - apply IH. now apply parseLine_closed.
Qed.

Lemma parseLine_closes (st : ParseState) (rawLine : string) :
  parseStateClosed st -> closesTable rawLine = true ->
  currentTable (parseLine st rawLine) = None /\
  inTableDefinition (parseLine st rawLine) = false.
Proof.
  unfold closesTable, isIgnored, parseLine. intros Hc H.
  apply andb_true_iff in H. destruct H as [Hi H].
  apply negb_true_iff in Hi. rewrite Hi.
  destruct (findCreateTable _); [discriminate|]. rewrite H, andb_true_r.
  destruct (inTableDefinition st) eqn:F.
  - destruct (currentTable st); split; reflexivity.
  - cbn. split; [now apply Hc | exact F].
Qed.

(** X8: the blocks of a file are parsed independently: when the first part
    of the file ends with a closing line, the tables of the whole are those
    of the first part followed by those of the rest.  A closing line
    ([closesTable]) is a line that is neither blank nor a comment, holds no
    CREATE TABLE header and contains [);]; a [);] in a comment or on the
    line of the header itself closes nothing
    ([closing_text_that_closes_nothing]). *)
Theorem blocks_parse_independently (l1 l2 : list string) (closing : string) :
  closesTable closing = true ->
  parseLines ((l1 ++ [closing]) ++ l2)%list =
  (parseLines (l1 ++ [closing]) ++ parseLines l2)%list.
Proof.
  intros H. unfold parseLines.
  rewrite (parseLines_app (l1 ++ [closing])%list l2).
  rewrite (parseLines_app l1 [closing]). cbn [fold_left].
  assert (C : parseStateClosed
                (fold_left parseLine l1 (mkParseState [] None false))).
  { apply fold_parseLine_closed. intros _. reflexivity. }
  destruct (parseLine_closes _ closing C H) as [Hc Hb].
  destruct (parseLine (fold_left parseLine l1 (mkParseState [] None false))
                      closing) as [ts cur b].
  cbn in Hc, Hb. subst cur b.
  rewrite fold_parseLine_tables. cbn [tables].
  now rewrite map_app.
Qed.

Example closing_text_that_closes_nothing :
  closesTable "-- );" = false /\
  closesTable "CREATE TABLE c (z INT);" = false /\
  map (fun t => (Table.Name t, columnNames t))
      (parseLines ["CREATE TABLE a ("; " x INT"; "-- );"; " y INT"; ");"]) =
    [("a", ["x"; "y"])] /\
  map (fun t => (Table.Name t, columnNames t))
      (parseLines ["CREATE TABLE c (z INT);"; " y INT"; ");"]) =
    [("c", ["y"])].
Proof. repeat split. Qed.

Lemma blocks_parse_independently_witness :
  closesTable ");" = true /\
  map Table.Name
    (parseLines ((["CREATE TABLE a ("; " x INT"] ++ [");"]) ++
                 ["CREATE TABLE b ("; " y INT"; ");"])%list) = ["a"; "b"] /\
  parseLines ((["CREATE TABLE a ("; " x INT"] ++ [");"]) ++
              ["CREATE TABLE b ("; " y INT"; ");"])%list =
  (parseLines (["CREATE TABLE a ("; " x INT"] ++ [");"]) ++
   parseLines ["CREATE TABLE b ("; " y INT"; ");"])%list.
Proof.
  split; [reflexivity|]. split; [reflexivity|].
  exact (blocks_parse_independently
           ["CREATE TABLE a ("; " x INT"]
           ["CREATE TABLE b ("; " y INT"; ");"] ");" eq_refl).
Defined.

Lemma parseLine_closed_count (st : ParseState) (rawLine : string) :
  List.length (tables (parseLine st rawLine)) <=
  List.length (tables st) + (if closesTable rawLine then 1 else 0).
Proof.
  unfold closesTable, isIgnored, parseLine.
  destruct (_ || _ || _); cbn [negb andb]; [lia|].
  destruct (findCreateTable _); cbn [tables]; [lia|].
  destruct (Contains _ ");").
  - rewrite andb_true_r.
    destruct (inTableDefinition st).
    + destruct (currentTable st); cbn [tables]; rewrite ?length_app; cbn; lia.
    + destruct (currentTable st); cbn [tables]; lia.
  - rewrite andb_false_r.
    destruct (inTableDefinition st); [|lia].
    destruct (currentTable st); [|lia].
    destruct (parseColumnDefinition _); cbn [tables]; lia.
Qed.

Lemma parseLine_started_count (st : ParseState) (rawLine : string) :
  tablesStarted (parseLine st rawLine) <=
  tablesStarted st + (if isOpening rawLine then 1 else 0).
Proof.
  unfold isOpening, opensTable, isIgnored, parseLine, tablesStarted.
  destruct (_ || _ || _); [lia|].
  destruct (findCreateTable _); cbn [tables currentTable]; [lia|].
  destruct (inTableDefinition st && _).
  - destruct (currentTable st); cbn [tables currentTable];
      rewrite ?length_app; cbn; lia.
  - destruct (inTableDefinition st); [|lia].
    destruct (currentTable st) eqn:E; [|rewrite E; lia].
    destruct (parseColumnDefinition _); cbn [tables currentTable];
      rewrite ?E; lia.
Qed.

Lemma fold_parseLine_counts (lines : list string) (st : ParseState) :
  List.length (tables (fold_left parseLine lines st)) <=
    List.length (tables st) + List.length (filter closesTable lines) /\
  tablesStarted (fold_left parseLine lines st) <=
    tablesStarted st + List.length (filter isOpening lines).
Proof.
  revert st. induction lines as [|l lines IH]; intros st; cbn [fold_left filter].
  - cbn. lia.
  - destruct (IH (parseLine st l)) as [H1 H2].
    pose proof (parseLine_closed_count st l) as C1.
    pose proof (parseLine_started_count st l) as C2.
    destruct (closesTable l), (isOpening l); cbn [List.length]; lia.
Qed.

(** X9: the parser returns at most one table per closing line and at most
    one per CREATE TABLE line; in particular a table whose closing line is
    missing is dropped, and a file without a closing line gives no table. *)
Theorem tables_need_opening_and_closing (lines : list string) :
  List.length (parseLines lines) <= List.length (filter closesTable lines) /\
  List.length (parseLines lines) <= List.length (filter isOpening lines) /\
  (Forall (fun l => Contains (TrimSpace l) ");" = false) lines ->
   parseLines lines = []).
Proof.
  unfold parseLines. rewrite length_map.
  destruct (fold_parseLine_counts lines (mkParseState [] None false)) as [H1 H2].
  unfold tablesStarted in H2. cbn [tables currentTable List.length] in H1, H2.
  repeat split; [lia | lia |].
  intros H.
  assert (E : filter closesTable lines = []).
  { clear H1 H2. induction H as [|l ls Hl _ IH]; [reflexivity|].
    cbn [filter]. unfold closesTable at 1. rewrite Hl.
    destruct (findCreateTable _); rewrite andb_false_r; exact IH. }
  rewrite E in H1. cbn in H1.
  destruct (tables _); [reflexivity | cbn in H1; lia].
Qed.

Lemma tables_need_opening_and_closing_witness :
  Forall (fun l => Contains (TrimSpace l) ");" = false)
         ["CREATE TABLE users ("; "  name TEXT"; ")"] /\
  parseLines ["CREATE TABLE users ("; "  name TEXT"; ")"] = [].
Proof.
  assert (H : Forall (fun l => Contains (TrimSpace l) ");" = false)
                     ["CREATE TABLE users ("; "  name TEXT"; ")"]).
  { repeat constructor. }
  split; [exact H|].
  exact (proj2 (proj2 (tables_need_opening_and_closing
                         ["CREATE TABLE users ("; "  name TEXT"; ")"])) H).
Defined.

Lemma parseLine_opening (st : ParseState) (rawLine name : string) :
  opensTable rawLine = Some name ->
  parseLine st rawLine =
  mkParseState (tables st) (Some (Table.mk name [])) true.
Proof.
  unfold opensTable, isIgnored, parseLine.
  destruct (_ || _ || _); [discriminate|]. now intros ->.
Qed.

Lemma parseLine_body (name : string) (cols : list Column.t)
      (rawLine : string) :
  isBodyLine rawLine = true ->
  parseLine (mkParseState [] (Some (Table.mk name cols)) true) rawLine =
  mkParseState [] (Some (Table.mk name (cols ++ bodyColumn rawLine)%list)) true.
Proof.
  unfold isBodyLine, opensTable, closesTable, bodyColumn, isIgnored, parseLine.
  destruct (_ || _ || _); cbn [negb andb].
  - intros _. now rewrite app_nil_r.
  - destruct (findCreateTable _); [discriminate|].
    intros H. apply negb_true_iff in H. rewrite H.
    cbn [inTableDefinition currentTable andb tables Table.Name Table.Columns].
    destruct (parseColumnDefinition _); [reflexivity | now rewrite app_nil_r].
Qed.

Lemma fold_parseLine_body (name : string) (body : list string)
      (cols : list Column.t) :
  Forall (fun l => isBodyLine l = true) body ->
  fold_left parseLine body (mkParseState [] (Some (Table.mk name cols)) true) =
  mkParseState []
    (Some (Table.mk name (cols ++ flat_map bodyColumn body)%list)) true.
Proof.
  intros H. revert cols.
  induction H as [|l ls Hl _ IH]; intros cols; cbn [fold_left flat_map].
  - now rewrite app_nil_r.
  - rewrite (parseLine_body name cols l Hl), IH. now rewrite app_assoc.
Qed.

(** X10: a well-formed block (a line that opens table [name], lines that
    neither open nor close a table, a closing line) gives exactly one
    table, named [name], whose columns are those of the parsable lines in
    source order; the lines that are comments, constraints or have fewer
    than two tokens give no column. *)
Theorem block_gives_one_table (opening closing name : string)
        (body : list string) :
  opensTable opening = Some name ->
  Forall (fun l => isBodyLine l = true) body ->
  closesTable closing = true ->
  parseLines (opening :: body ++ [closing])%list =
  [Table.mk name (map generateGoFieldInfo (flat_map bodyColumn body))].
Proof.
  intros Ho Hb Hc. unfold parseLines. cbn [fold_left].
  rewrite (parseLine_opening _ opening name Ho). cbn [tables].
  rewrite parseLines_app, (fold_parseLine_body name body [] Hb).
  cbn [fold_left app].
  unfold closesTable, isIgnored in Hc. unfold parseLine.
  apply andb_true_iff in Hc. destruct Hc as [Hi Hc].
  apply negb_true_iff in Hi. rewrite Hi.
  destruct (findCreateTable _); [discriminate|]. rewrite Hc.
  reflexivity.
Qed.

Lemma block_gives_one_table_witness :
  opensTable "create table Orders (" = Some "Orders" /\
  Forall (fun l => isBodyLine l = true)
         ["  id BIGSERIAL PRIMARY KEY,"; ""; "  total NUMERIC(10,2),"; "  x"] /\
  closesTable ");" = true /\
  map columnNames
    (parseLines ("create table Orders (" ::
                 ["  id BIGSERIAL PRIMARY KEY,"; ""; "  total NUMERIC(10,2),"; "  x"]
                 ++ [");"])%list) = [["total"]].
Proof.
  assert (Hb : Forall (fun l => isBodyLine l = true)
         ["  id BIGSERIAL PRIMARY KEY,"; ""; "  total NUMERIC(10,2),"; "  x"]).
  { repeat constructor. }
  split; [reflexivity|]. split; [exact Hb|]. split; [reflexivity|].
  rewrite (block_gives_one_table "create table Orders (" ");" "Orders"
             ["  id BIGSERIAL PRIMARY KEY,"; ""; "  total NUMERIC(10,2),"; "  x"]
             eq_refl Hb eq_refl).
  reflexivity.
Defined.

(** ** Type mapping: what the Go type depends on *)

Lemma isUpperAZ_upperByte (c : ascii) : isUpperAZ (upperByte c) = isLetter c.
Proof. destruct c as [[] [] [] [] [] [] [] []]; reflexivity. Qed.

Lemma baseTypeOf_qualified (t r : string) :
  allString isLetter t = true -> startsWith isLetter r = false ->
  baseTypeOf (ToUpper (t ++ r)) = ToUpper t.
Proof.
  unfold baseTypeOf, ToUpper. intros Ht Hr.
  induction t as [|c t IH].
  - destruct r as [|x r]; [reflexivity|].
    cbn [append mapString takeWhile]. cbn [startsWith] in Hr.
    now rewrite isUpperAZ_upperByte, Hr.
  - cbn [allString] in Ht. apply andb_true_iff in Ht. destruct Ht as [Hc Ht].
    cbn [append mapString takeWhile].
    now rewrite isUpperAZ_upperByte, Hc, (IH Ht).
Qed.

Lemma goTypeFor_any_key (baseType : string) (pk1 pk2 : bool) :
  goTypeFor baseType pk1 = goTypeFor baseType pk2.
Proof.
  unfold goTypeFor.
  destruct (oneOf baseType ["INT"; "INTEGER"; "SERIAL"; "BIGSERIAL"; "BIGINT"]);
    [now destruct pk1, pk2 | reflexivity].
Qed.

(** X11: the Go type of a column with an ASCII SQL type depends only on
    the leading run of letters of that type, compared without regard to
    case: a size or precision qualifier after it, and the primary-key flag,
    change nothing.  (Off ASCII [strings.ToUpper] can turn a byte sequence
    into a letter, U+0131 into I for one, and the run of letters of the
    upper-cased type is no longer that of the type.) *)
Theorem go_type_by_base_type (c1 c2 : Column.t) (t1 r1 t2 r2 : string) :
  Column.Type_ c1 = t1 ++ r1 -> Column.Type_ c2 = t2 ++ r2 ->
  isASCII (Column.Type_ c1) = true -> isASCII (Column.Type_ c2) = true ->
  allString isLetter t1 = true -> allString isLetter t2 = true ->
  startsWith isLetter r1 = false -> startsWith isLetter r2 = false ->
  ToUpper t1 = ToUpper t2 ->
  Column.GoType (generateGoFieldInfo c1) = Column.GoType (generateGoFieldInfo c2).
Proof.
  intros E1 E2 _ _ L1 L2 R1 R2 E.
  unfold generateGoFieldInfo. cbn [Column.withGoInfo Column.GoType].
  rewrite E1, E2, (baseTypeOf_qualified t1 r1 L1 R1),
    (baseTypeOf_qualified t2 r2 L2 R2), E.
  apply goTypeFor_any_key.
Qed.

Lemma go_type_by_base_type_witness :
  Column.GoType (generateGoFieldInfo
    (Column.mk "price" "numeric(10,2)" true false "" "" "" "")) = "float64" /\
  Column.GoType (generateGoFieldInfo
    (Column.mk "price" "numeric(10,2)" true false "" "" "" "")) =
  Column.GoType (generateGoFieldInfo
    (Column.mk "total" "NUMERIC" false true "" "" "" "")).
Proof.
  split; [reflexivity|].
  exact (go_type_by_base_type
           (Column.mk "price" "numeric(10,2)" true false "" "" "" "")
           (Column.mk "total" "NUMERIC" false true "" "" "" "")
           "numeric" "(10,2)" "NUMERIC" ""
           eq_refl eq_refl eq_refl eq_refl eq_refl eq_refl eq_refl eq_refl
           eq_refl).
Defined.

(** ** The Meta Contract columns a table declares *)

Lemma markMeta_flags (f : MetaFlags) (col : Column.t) :
  markMeta f col =
  mkMetaFlags (hasID f || nameIs col "id")
              (hasCreatedAt f || nameIs col "created_at")
              (hasUpdatedAt f || nameIs col "updated_at")
              (hasDeletedAt f || nameIs col "deleted_at")
              (hasIsDeleted f || nameIs col "is_deleted").
Proof.
  unfold markMeta, nameIs. destruct f as [a b c d e].
  cbn [hasID hasCreatedAt hasUpdatedAt hasDeletedAt hasIsDeleted].
  destruct (String.eqb (ToLower (Column.Name col)) "id") eqn:E1.
  { apply String.eqb_eq in E1. rewrite E1. cbn. now rewrite !orb_false_r, orb_true_r. }
  destruct (String.eqb (ToLower (Column.Name col)) "created_at") eqn:E2.
  { apply String.eqb_eq in E2. rewrite E2. cbn. now rewrite !orb_false_r, orb_true_r. }
  destruct (String.eqb (ToLower (Column.Name col)) "updated_at") eqn:E3.
  { apply String.eqb_eq in E3. rewrite E3. cbn. now rewrite !orb_false_r, orb_true_r. }
  destruct (String.eqb (ToLower (Column.Name col)) "deleted_at") eqn:E4.
  { apply String.eqb_eq in E4. rewrite E4. cbn. now rewrite !orb_false_r, orb_true_r. }
  destruct (String.eqb (ToLower (Column.Name col)) "is_deleted") eqn:E5.
  { now rewrite !orb_false_r, orb_true_r. }
  now rewrite !orb_false_r.
Qed.

Lemma fold_markMeta (cols : list Column.t) (f : MetaFlags) :
  fold_left markMeta cols f =
  mkMetaFlags (hasID f || existsb (fun col => nameIs col "id") cols)
              (hasCreatedAt f || existsb (fun col => nameIs col "created_at") cols)
              (hasUpdatedAt f || existsb (fun col => nameIs col "updated_at") cols)
              (hasDeletedAt f || existsb (fun col => nameIs col "deleted_at") cols)
              (hasIsDeleted f || existsb (fun col => nameIs col "is_deleted") cols).
Proof.
  revert f. induction cols as [|col cols IH]; intros f; cbn [fold_left existsb].
  - destruct f. cbn. now rewrite !orb_false_r.
  - rewrite IH, markMeta_flags.
    cbn [hasID hasCreatedAt hasUpdatedAt hasDeletedAt hasIsDeleted].
    now rewrite !orb_assoc.
Qed.


(** X12: the five flags of [generateCreateTable] say which Meta Contract
    names the table declares (in any case); so the migration adds the id
    column exactly when [generateDomainModel] embeds MetaField. *)
Theorem meta_flags_by_name (table : Table.t) :
  metaFlagsOf table =
    mkMetaFlags (declares table "id") (declares table "created_at")
                (declares table "updated_at") (declares table "deleted_at")
                (declares table "is_deleted") /\
  hasID (metaFlagsOf table) = hasIDColumn table.
Proof.
  unfold metaFlagsOf. rewrite fold_markMeta. split; reflexivity.
Qed.

(** ** Domain model and DTO: the columns that become fields *)

Lemma fold_keep {A : Type} (keep : A -> bool) (f : A -> string)
      (l : list A) (acc : string) :
  fold_left (fun s x => if keep x then s ++ f x else s) l acc =
  acc ++ concatMap f (filter keep l).
Proof.
  revert acc. induction l as [|x l IH]; intros acc; cbn [fold_left filter].
  - now rewrite append_empty_r.
  - rewrite IH. destruct (keep x); [|reflexivity].
    now rewrite concatMap_cons, append_assoc'.
Qed.

Lemma fold_skip {A : Type} (skip : A -> bool) (f : A -> string)
      (l : list A) (acc : string) :
  fold_left (fun s x => if skip x then s else s ++ f x) l acc =
  acc ++ concatMap f (filter (fun x => negb (skip x)) l).
Proof.
  rewrite <- fold_keep. revert acc.
  induction l as [|x l IH]; intros acc; cbn [fold_left]; [reflexivity|].
  rewrite IH. now destruct (skip x).
Qed.

Lemma fold_dtoStep (cols : list Column.t) (b : DTOBuilders) :
  fold_left dtoStep cols b =
  mkDTOBuilders
    (dtoFieldsText b ++
       concatMap dtoFieldLine (filter (fun col => negb (dtoSkips col)) cols))
    (marshalFields b ++
       concatMap marshalLine (filter (fun col => negb (dtoSkips col)) cols))
    (unmarshalFields b ++
       concatMap unmarshalLine (filter (fun col => negb (dtoSkips col)) cols)).
Proof.
  revert b. induction cols as [|col cols IH]; intros b; cbn [fold_left filter].
  - destruct b. unfold concatMap. cbn. now rewrite !append_empty_r.
  - rewrite IH. unfold dtoStep at 1 2 3.
    destruct (dtoSkips col); cbn [negb]; [reflexivity|].
    cbn [dtoFieldsText marshalFields unmarshalFields].
    rewrite !concatMap_cons.
    unfold dtoFieldLine, marshalLine, unmarshalLine.
    now rewrite !append_assoc'.
Qed.

Lemma dtoSkips_domainSkips (col : Column.t) :
  negb (dtoSkips col) = negb (domainSkips col) && negb (nameIs col "id").
Proof.
  unfold dtoSkips, domainSkips.
  destruct (nameIs col "id"), (nameIs col "created_at"),
    (nameIs col "updated_at"), (nameIs col "deleted_at"),
    (nameIs col "is_deleted"); reflexivity.
Qed.

Lemma filter_and {A : Type} (p q : A -> bool) (l : list A) :
  filter (fun x => p x && q x) l = filter q (filter p l).
Proof.
  induction l as [|x l IH]; cbn [filter]; [reflexivity|].
  destruct (p x); cbn [andb filter]; [|exact IH].
  destruct (q x); now rewrite IH.
Qed.

(** X13: the fields of the domain model are the MetaField line (when no
    column is named id) followed by one line per column that is not an
    audit column, in column order; the DTO has its ID line followed by one
    line per column that is neither id nor an audit column, and its
    Marshal and Unmarshal lists name exactly those columns; every column
    the DTO copies is a field of the domain model. *)
Theorem fields_by_column (table : Table.t) :
  domainModelFields table =
    (if hasIDColumn table then "" else tb ++ "MetaField" ++ nl) ++
    concatMap domainFieldLine (domainColumns table) /\
  dtoBuilders table =
    mkDTOBuilders (dtoIDLine ++ concatMap dtoFieldLine (dtoColumns table))
                  (concatMap marshalLine (dtoColumns table))
                  (concatMap unmarshalLine (dtoColumns table)) /\
  dtoColumns table =
    filter (fun col => negb (nameIs col "id")) (domainColumns table).
Proof.
  repeat split.
  - unfold domainModelFields, domainColumns. apply fold_skip.
  - unfold dtoBuilders, dtoColumns. rewrite fold_dtoStep. reflexivity.
  - unfold dtoColumns, domainColumns. rewrite <- filter_and.
    apply filter_ext. intros col. apply dtoSkips_domainSkips.
Qed.

Lemma existsb_filter {A : Type} (p q : A -> bool) (l : list A) :
  existsb p (filter q l) = existsb (fun x => q x && p x) l.
Proof.
  induction l as [|x l IH]; cbn [filter existsb]; [reflexivity|].
  destruct (q x); cbn [existsb andb orb]; now rewrite IH.
Qed.

Lemma existsb_same {A : Type} (p q : A -> bool) (l : list A) :
  Forall (fun x => p x = q x) l -> existsb p l = existsb q l.
Proof.
  induction 1 as [|x l Hx _ IH]; cbn [existsb]; [reflexivity|].
  now rewrite Hx, IH.
Qed.

(** X14: the DTO imports "time" exactly when one of its own fields has the
    Go type time.Time; so does the domain model, provided no column named
    is_deleted has that type (the import test lets that column through,
    the field loop does not). *)
Theorem time_import_matches_fields (table : Table.t) :
  getDTOImportStatement table =
    (if existsb isTime (dtoColumns table)
     then tb ++ dq ++ "time" ++ dq else "") /\
  (Forall (fun col => nameIs col "is_deleted" = true -> isTime col = false)
          (Table.Columns table) ->
   getImportStatement table =
     (if existsb isTime (domainColumns table)
      then "import " ++ dq ++ "time" ++ dq else "")).
Proof.
  split.
  - unfold getDTOImportStatement, dtoColumns. now rewrite existsb_filter.
  - intros H. unfold getImportStatement, domainColumns.
    rewrite existsb_filter.
    rewrite (existsb_same
               (fun col => negb (importSkips col) &&
                           String.eqb (Column.GoType col) "time.Time")
               (fun col => negb (domainSkips col) && isTime col)); [reflexivity|].
    eapply Forall_impl; [|exact H].
    intros col Hc. unfold importSkips, domainSkips, isTime in *.
    destruct (nameIs col "is_deleted").
    + rewrite (Hc eq_refl), !andb_false_r. reflexivity.
    + now rewrite !orb_false_r.
Qed.

Lemma time_import_matches_fields_witness :
  Forall (fun col => nameIs col "is_deleted" = true -> isTime col = false)
         (Table.Columns
            (Table.mk "events"
               [Column.mk "starts_on" "DATE" false true "" "time.Time" "" "";
                Column.mk "is_deleted" "BOOLEAN" false true "" "bool" "" ""])) /\
  getImportStatement
    (Table.mk "events"
       [Column.mk "starts_on" "DATE" false true "" "time.Time" "" "";
        Column.mk "is_deleted" "BOOLEAN" false true "" "bool" "" ""])
  = "import " ++ dq ++ "time" ++ dq.
Proof.
  assert (H : Forall (fun col => nameIs col "is_deleted" = true -> isTime col = false)
         (Table.Columns
            (Table.mk "events"
               [Column.mk "starts_on" "DATE" false true "" "time.Time" "" "";
                Column.mk "is_deleted" "BOOLEAN" false true "" "bool" "" ""]))).
  { repeat constructor; intros; reflexivity || discriminate. }
  split; [exact H|].
  rewrite (proj2 (time_import_matches_fields _) H). reflexivity.
Defined.

Example import_without_field :
  getImportStatement
    (Table.mk "events"
       [Column.mk "is_deleted" "TIMESTAMP" false true "" "time.Time" "" ""])
  = "import " ++ dq ++ "time" ++ dq /\
  domainModelFields
    (Table.mk "events"
       [Column.mk "is_deleted" "TIMESTAMP" false true "" "time.Time" "" ""])
  = tb ++ "MetaField" ++ nl.
Proof. split; reflexivity. Qed.

(** ** Migration generator: indexes *)

(** X15: [generateDropIndexes] drops exactly the indexes [generateIndexes]
    creates, one statement each per indexed column, in column order. *)
Theorem indexes_created_and_dropped (table : Table.t) (schema : string) :
  generateIndexes table schema =
    concatMap (createIndexLine table schema) (indexedColumns table) /\
  generateDropIndexes table schema =
    concatMap (dropIndexLine table schema) (indexedColumns table).
Proof.
  unfold generateIndexes, generateDropIndexes, indexedColumns.
  split.
  - exact (fold_keep isIndexed (createIndexLine table schema)
                     (Table.Columns table) "").
  - exact (fold_keep isIndexed (dropIndexLine table schema)
                     (Table.Columns table) "").
Qed.

Lemma prefix_split (p s : string) :
  prefix p s = true -> exists r, s = p ++ r.
Proof.
  revert s. induction p as [|a p IH]; intros s H.
  - exists s. reflexivity.
  - destruct s as [|b s]; [discriminate|].
    rewrite prefix_cons in H. apply andb_true_iff in H. destruct H as [Ha H].
    apply Ascii.eqb_eq in Ha. subst b.
    destruct (IH s H) as [r ->]. exists r. reflexivity.
Qed.

Lemma Contains_cons (c : ascii) (s sub : string) :
  Contains (String c s) sub = prefix sub (String c s) || Contains s sub.
Proof. reflexivity. Qed.

Lemma Contains_prefix (s sub : string) :
  prefix sub s = true -> Contains s sub = true.
Proof. intros H. destruct s; cbn [Contains]; now rewrite H. Qed.

Lemma Contains_app_r (a b sub : string) :
  Contains b sub = true -> Contains (a ++ b) sub = true.
Proof.
  intros H. induction a as [|c a IH]; [exact H|].
  change (String c a ++ b) with (String c (a ++ b)).
  now rewrite Contains_cons, IH, orb_true_r.
Qed.

Lemma Contains_user_id (s : string) :
  Contains s "user_id" = true -> Contains s "_id" = true.
Proof.
  induction s as [|c s IH]; [discriminate|].
  rewrite !Contains_cons. intros H.
  apply orb_true_iff in H. destruct H as [H|H].
  - apply prefix_split in H. destruct H as [r E].
    injection E as _ ->.
    apply orb_true_iff. right.
    apply (Contains_app_r "ser" ("_id" ++ r) "_id").
    apply Contains_prefix. now destruct r.
  - now rewrite (IH H), orb_true_r.
Qed.

(** X16: in a parsed schema a column gets an index exactly when its
    lower-cased name contains "_id" or is one of timestamp, key_time,
    start_ts and end_ts: the user_id test adds nothing to the "_id" test,
    and the exception for primary keys never applies. *)
Theorem parsed_column_indexed (lines : list string) (t : Table.t)
        (c : Column.t) :
  In t (parseLines lines) -> In c (Table.Columns t) ->
  isIndexed c =
    Contains (ToLower (Column.Name c)) "_id" ||
    oneOf (ToLower (Column.Name c)) lookupColumnNames.
Proof.
  intros Ht Hc.
  pose proof (parseLines_noPrimaryKey lines) as H.
  rewrite Forall_forall in H. specialize (H t Ht).
  unfold noPrimaryKey in H. rewrite Forall_forall in H. specialize (H c Hc).
  unfold isIndexed, lookupColumnNames. cbn [oneOf]. rewrite H. cbn [negb].
  rewrite andb_true_r, orb_false_r.
  destruct (Contains (ToLower (Column.Name c)) "user_id") eqn:E.
  - now rewrite (Contains_user_id _ E).
  - rewrite !orb_assoc. reflexivity.
Qed.

Lemma parsed_column_indexed_witness :
  map (map (fun c => (Column.Name c, isIndexed c)))
      (map Table.Columns (parseLines accountsSchema)) =
    [[("name", false)]; [("account_id", true); ("token", false)]] /\
  Forall (fun t => Forall (fun c =>
            isIndexed c =
              Contains (ToLower (Column.Name c)) "_id" ||
              oneOf (ToLower (Column.Name c)) lookupColumnNames)
            (Table.Columns t))
         (parseLines accountsSchema).
Proof.
  split; [reflexivity|].
  apply Forall_forall. intros t Ht. apply Forall_forall. intros c Hc.
  exact (parsed_column_indexed accountsSchema t c Ht Hc).
Defined.

(** ** Migration generator: the column list of CREATE TABLE *)













Example create_table_with_is_deleted :
  generateCreateTable
    (Table.mk "flags" [Column.mk "IS_DELETED" "BOOLEAN" false true "" "" "" ""])
    "" =
  "CREATE TABLE IF NOT EXISTS flags (" ++ nl ++
  "    id BIGSERIAL PRIMARY KEY," ++ nl ++
  "    IS_DELETED BOOLEAN," ++ nl ++
  "    created_at TIMESTAMPTZ DEFAULT NOW()," ++ nl ++
  "    updated_at TIMESTAMPTZ DEFAULT NOW()," ++ nl ++
  "    deleted_at TIMESTAMPTZ" ++ nl ++ ");".
Proof. reflexivity. Qed.

(** ** Template engine: rendering as substitution *)

Lemma replace_text (bound value s rest : string) :
  noByte "<" s = true ->
  replaceFrom (placeholder bound) value 0 (s ++ rest) =
  s ++ replaceFrom (placeholder bound) value 0 rest.
Proof.
  unfold noByte. induction s as [|c s IH]; [reflexivity|].
  cbn [allString]. intros H. apply andb_true_iff in H. destruct H as [Hc Hs].
  apply negb_true_iff in Hc.
  change (String c s ++ rest) with (String c (s ++ rest)).
  cbn [replaceFrom].
  rewrite (old_not_at bound (placeholder bound) eq_refl c _ Hc), (IH Hs).
  reflexivity.
Qed.

Lemma replaceFrom_skip (old new x rest : string) :
  replaceFrom old new (String.length x) (x ++ rest) = replaceFrom old new 0 rest.
Proof. induction x as [|c x IH]; [reflexivity | exact IH]. Qed.

Lemma prefix_refl_app (p rest : string) : prefix p (p ++ rest) = true.
Proof.
  induction p as [|c p IH]; [apply prefix_empty|].
  change (String c p ++ rest) with (String c (p ++ rest)).
  now rewrite prefix_cons, Ascii.eqb_refl.
Qed.

Lemma replace_hole_same (bound value rest : string) :
  replaceFrom (placeholder bound) value 0 (placeholder bound ++ rest) =
  value ++ replaceFrom (placeholder bound) value 0 rest.
Proof.
  pose proof (prefix_refl_app (placeholder bound) rest) as P.
  rewrite placeholder_cons in P |- *.
  change (String "<" (bound ++ ">") ++ rest)
    with (String "<" ((bound ++ ">") ++ rest)) in P |- *.
  cbn [replaceFrom]. rewrite P.
  change (String.length (String "<" (bound ++ ">")) - 1)
    with (String.length (bound ++ ">") - 0).
  rewrite Nat.sub_0_r, replaceFrom_skip. reflexivity.
Qed.

Lemma replace_hole_other (bound value key rest : string) :
  angleFree bound = true -> angleFree key = true -> bound <> key ->
  replaceFrom (placeholder bound) value 0 (placeholder key ++ rest) =
  placeholder key ++ replaceFrom (placeholder bound) value 0 rest.
Proof.
  intros Hb Hk Hd.
  exact (replaceFrom_around_key bound key value (placeholder bound)
           Hb Hk Hd eq_refl rest "" 0 (Nat.le_refl 0)).
Qed.

Lemma flatten_cons (p : Piece) (pieces : list Piece) :
  flatten (p :: pieces) = pieceText p ++ flatten pieces.
Proof. apply concatMap_cons. Qed.

(** One [ReplaceAll] fills the holes of its key and leaves the rest. *)
Lemma ReplaceAll_flatten (bound value : string) (pieces : list Piece) :
  angleFree bound = true ->
  Forall wellFormedPiece pieces ->
  ReplaceAll (flatten pieces) (placeholder bound) value =
  flatten (map (fillOne bound value) pieces).
Proof.
  intros Hb H. unfold ReplaceAll.
  induction H as [|p pieces Hp _ IH]; [reflexivity|].
  cbn [map]. rewrite !flatten_cons.
  destruct p as [s|key]; cbn [pieceText fillOne wellFormedPiece] in *.
  - now rewrite (replace_text bound value s _ Hp), IH.
  - destruct (String.eqb key bound) eqn:E.
    + apply String.eqb_eq in E. subst key.
      cbn [pieceText]. now rewrite replace_hole_same, IH.
    + apply String.eqb_neq in E. cbn [pieceText].
      rewrite (replace_hole_other bound value key _ Hb Hp); [|congruence].
      now rewrite IH.
Qed.

Lemma fillOne_wellFormed (bound value : string) (pieces : list Piece) :
  noByte "<" value = true ->
  Forall wellFormedPiece pieces ->
  Forall wellFormedPiece (map (fillOne bound value) pieces).
Proof.
  intros Hv H. rewrite Forall_map. eapply Forall_impl; [|exact H].
  intros [s|key] Hp; cbn [fillOne]; [exact Hp|].
  destruct (String.eqb key bound); [exact Hv | exact Hp].
Qed.

Lemma fillPiece_cons (bound value : string) (variables : Bindings)
      (p : Piece) :
  fillPiece variables (fillOne bound value p) =
  fillPiece ((bound, value) :: variables) p.
Proof.
  destruct p as [s|key]; [reflexivity|].
  cbn [fillOne fillPiece lookupBinding].
  destruct (String.eqb key bound); reflexivity.
Qed.

Lemma replaceTemplateVariables_fill (pieces : list Piece)
      (variables : Bindings) :
  Forall wellFormedPiece pieces ->
  Forall cleanBinding variables ->
  replaceTemplateVariables (flatten pieces) variables =
  flatten (map (fillPiece variables) pieces).
Proof.
  intros Hp Hv. revert pieces Hp.
  induction Hv as [|[b v] vars [Hb Hval] _ IH]; intros pieces Hp.
  - rewrite (map_ext (fillPiece []) (fun p => p)); [now rewrite map_id|].
    now intros [s|key].
  - unfold replaceTemplateVariables in *. cbn [fold_left fst snd] in *.
    rewrite (ReplaceAll_flatten b v pieces Hb Hp).
    rewrite (IH _ (fillOne_wellFormed b v pieces Hval Hp)).
    rewrite map_map. f_equal. apply map_ext. intros p.
    apply fillPiece_cons.
Qed.

(** X18: on a template made of literal text without [<] and of
    placeholders, with keys that are names and values without [<],
    rendering is substitution: each placeholder whose key is bound becomes
    its value, each other placeholder and all the text stay as they are,
    whatever the order in which the keys are visited. *)
Theorem render_is_substitution (pieces : list Piece) (variables : Bindings) :
  Forall wellFormedPiece pieces ->
  Forall cleanBinding variables ->
  replaceTemplateVariables (flatten pieces) variables =
  flatten (map (fillPiece variables) pieces).
Proof. exact (replaceTemplateVariables_fill pieces variables). Qed.

Lemma render_is_substitution_witness :
  Forall wellFormedPiece
    [Text "type "; Hole "struct_name"; Text " struct {"; Hole "fields";
     Text "} // "; Hole "owner"] /\
  Forall cleanBinding [("fields", " ID int64 "); ("struct_name", "User")] /\
  replaceTemplateVariables "type <struct_name> struct {<fields>} // <owner>"
    [("fields", " ID int64 "); ("struct_name", "User")] =
  "type User struct { ID int64 } // <owner>".
Proof.
  assert (H1 : Forall wellFormedPiece
    [Text "type "; Hole "struct_name"; Text " struct {"; Hole "fields";
     Text "} // "; Hole "owner"]).
  { repeat constructor. }
  assert (H2 : Forall cleanBinding
                 [("fields", " ID int64 "); ("struct_name", "User")]).
  { repeat constructor. }
  split; [exact H1|]. split; [exact H2|].
  exact (render_is_substitution
    [Text "type "; Hole "struct_name"; Text " struct {"; Hole "fields";
     Text "} // "; Hole "owner"]
    [("fields", " ID int64 "); ("struct_name", "User")] H1 H2).
Defined.

Lemma lookupBinding_None (key : string) (variables : Bindings) :
  lookupBinding key variables = None <-> ~ In key (map fst variables).
Proof.
  induction variables as [|[k v] vars IH]; cbn [lookupBinding map fst In].
  - tauto.
  - destruct (String.eqb key k) eqn:E.
    + apply String.eqb_eq in E. subst k. split; [discriminate | tauto].
    + apply String.eqb_neq in E. rewrite IH. split; [intros H [F|F] | ]; 
        [congruence | tauto | tauto].
Qed.

Lemma lookupBinding_Some (key value : string) (variables : Bindings) :
  NoDup (map fst variables) ->
  lookupBinding key variables = Some value <-> In (key, value) variables.
Proof.
  induction variables as [|[k v] vars IH]; cbn [lookupBinding map fst In];
    intros Hn.
  - split; [discriminate | tauto].
  - inversion Hn as [|? ? Hk Hn']; subst.
    destruct (String.eqb key k) eqn:E.
    + apply String.eqb_eq in E. subst k. split.
      * intros [= ->]. now left.
      * intros [[= ->]|H]; [reflexivity|].
        exfalso. apply Hk. apply (in_map fst) in H. exact H.
    + apply String.eqb_neq in E. rewrite (IH Hn'). split.
      * now right.
      * intros [[= -> ->]|H]; [congruence | exact H].
Qed.

Lemma lookupBinding_permutation (key : string) (vars vars' : Bindings) :
  NoDup (map fst vars) -> Permutation vars vars' ->
  lookupBinding key vars = lookupBinding key vars'.
Proof.
  intros Hn Hp.
  assert (Hn' : NoDup (map fst vars')).
  { eapply Permutation_NoDup; [|exact Hn]. now apply Permutation_map. }
  destruct (lookupBinding key vars) as [v|] eqn:E.
  - symmetry. apply (lookupBinding_Some key v vars' Hn').
    apply (Permutation_in _ Hp).
    now apply (lookupBinding_Some key v vars Hn).
  - symmetry. apply lookupBinding_None. intros H.
    apply lookupBinding_None in E. apply E.
    apply (Permutation_in _ (Permutation_sym (Permutation_map fst Hp))).
    exact H.
Qed.

(** X19: Go visits the entries of the map in an unspecified order; on such
    a template and such bindings the rendering does not depend on it: two
    orders of the same entries (keys distinct) give the same text. *)
Theorem render_order_independent (pieces : list Piece)
        (variables variables' : Bindings) :
  Forall wellFormedPiece pieces ->
  Forall cleanBinding variables ->
  NoDup (map fst variables) ->
  Permutation variables variables' ->
  replaceTemplateVariables (flatten pieces) variables =
  replaceTemplateVariables (flatten pieces) variables'.
Proof.
  intros Hp Hv Hn Hperm.
  rewrite (replaceTemplateVariables_fill pieces variables Hp Hv).
  rewrite (replaceTemplateVariables_fill pieces variables' Hp
             (Permutation_Forall Hperm Hv)).
  f_equal. apply map_ext. intros [s|key]; [reflexivity|].
  cbn [fillPiece].
  now rewrite (lookupBinding_permutation key variables variables' Hn Hperm).
Qed.

Example render_order_matters :
  replaceTemplateVariables "<a>" [("a", "<b>"); ("b", "x")] = "x" /\
  replaceTemplateVariables "<a>" [("b", "x"); ("a", "<b>")] = "<b>".
Proof. split; reflexivity. Qed.

Lemma render_order_independent_witness :
  Forall wellFormedPiece [Hole "a"; Text "-"; Hole "b"] /\
  Forall cleanBinding [("a", "1"); ("b", "2")] /\
  NoDup (map fst [("a", "1"); ("b", "2")]) /\
  Permutation [("a", "1"); ("b", "2")] [("b", "2"); ("a", "1")] /\
  replaceTemplateVariables "<a>-<b>" [("a", "1"); ("b", "2")] = "1-2" /\
  replaceTemplateVariables (flatten [Hole "a"; Text "-"; Hole "b"])
    [("a", "1"); ("b", "2")] =
  replaceTemplateVariables (flatten [Hole "a"; Text "-"; Hole "b"])
    [("b", "2"); ("a", "1")].
Proof.
  assert (H1 : Forall wellFormedPiece [Hole "a"; Text "-"; Hole "b"]).
  { repeat constructor. }
  assert (H2 : Forall cleanBinding [("a", "1"); ("b", "2")]).
  { repeat constructor. }
  assert (H3 : NoDup (map fst [("a", "1"); ("b", "2")])).
  { repeat constructor; cbn; intros H;
      repeat (destruct H as [H|H]; try discriminate); exact H. }
  assert (H4 : Permutation [("a", "1"); ("b", "2")] [("b", "2"); ("a", "1")]).
  { apply perm_swap. }
  split; [exact H1|]. split; [exact H2|]. split; [exact H3|].
  split; [exact H4|]. split; [reflexivity|].
  exact (render_order_independent [Hole "a"; Text "-"; Hole "b"]
           [("a", "1"); ("b", "2")] [("b", "2"); ("a", "1")] H1 H2 H3 H4).
Defined.

(** ** main.go and the REST layer: lists built with separators *)

Lemma Join_cons_concatMap (sep x : string) (l : list string) :
  Join (x :: l) sep = x ++ concatMap (fun y => sep ++ y) l.
Proof.
  revert x. induction l as [|y l IH]; intros x.
  - unfold concatMap. cbn. now rewrite append_empty_r.
  - rewrite Join_cons2, IH, concatMap_cons. now rewrite !append_assoc'.
Qed.

Lemma mainServiceParams_from (i : nat) (tables : list Table.t)
      (b : MainGoBuilders) :
  mainServiceParams (foldIndexed mainGoStep (S i) tables b) =
  mainServiceParams b ++
  concatMap (fun y => ", " ++ y) (map mainAdapterArg tables).
Proof.
  revert i b. induction tables as [|t ts IH]; intros i b; cbn [foldIndexed map].
  - unfold concatMap. cbn. now rewrite append_empty_r.
  - rewrite IH, concatMap_cons. cbn [mainGoStep mainServiceParams Nat.ltb Nat.leb].
    unfold mainAdapterArg at 2, mainGoStructName.
    now rewrite !append_assoc'.
Qed.

Lemma restServiceParams_from (i : nat) (tables : list Table.t)
      (b : RestBuilders) :
  restServiceParams (foldIndexed restStep (S i) tables b) =
  restServiceParams b ++
  concatMap (fun y => ", " ++ y) (map restServiceParam tables).
Proof.
  revert i b. induction tables as [|t ts IH]; intros i b; cbn [foldIndexed map].
  - unfold concatMap. cbn. now rewrite append_empty_r.
  - rewrite IH, concatMap_cons. cbn [restStep restServiceParams Nat.ltb Nat.leb].
    unfold restServiceParam at 2, structNameOf.
    now rewrite !append_assoc'.
Qed.

Lemma restServiceParam_length (table : Table.t) (rest : string) :
  (0 <? String.length (restServiceParam table ++ rest)) = true.
Proof.
  unfold restServiceParam. rewrite !append_assoc', !length_append.
  cbn [String.length]. apply Nat.ltb_lt. lia.
Qed.

(** X20: main.go passes one adapter per table to the REST constructor and
    rest.go declares one service parameter per table, both comma-separated
    in table order and both after a leading comma; without tables
    [generateMainGo] panics, and rest.go has no parameter and no interactor
    import. *)
Theorem parameter_lists_by_table (templates : string -> option string)
        (moduleName : string) :
  generateMainGo templates moduleName [] =
    Err "Failed to generate main.go (no tables)" /\
  binding "service_params" (restAPIMainVariables moduleName []) = "" /\
  binding "interactor_import" (restAPIMainVariables moduleName []) = "" /\
  (forall tables : list Table.t,
      tables <> [] ->
      binding "service_parameters" (mainGoVariables moduleName tables) =
        ", " ++ Join (map mainAdapterArg tables) ", " /\
      binding "service_params" (restAPIMainVariables moduleName tables) =
        ", " ++ Join (map restServiceParam tables) ", ").
Proof.
  split; [reflexivity|]. split; [reflexivity|]. split; [reflexivity|].
  intros tables Hne. split.
  - destruct tables as [|t ts]; [contradiction|].
    unfold mainGoVariables, mainGoBuilders.
    cbn [binding String.eqb Ascii.eqb Bool.eqb foldIndexed map].
    rewrite mainServiceParams_from, Join_cons_concatMap.
    cbn [mainGoStep mainServiceParams Nat.ltb Nat.leb].
    reflexivity.
  - destruct tables as [|t ts]; [contradiction|].
    unfold restAPIMainVariables, restBuilders.
    cbn [binding String.eqb Ascii.eqb Bool.eqb foldIndexed map].
    rewrite restServiceParams_from, Join_cons_concatMap.
    cbn [restStep restServiceParams Nat.ltb Nat.leb].
    change ("" ++ ?x) with x.
    fold (structNameOf (Table.Name t)).
    change ((ToLower (structNameOf (Table.Name t)) ++ "Service") ++ " " ++
            "interactor.I" ++ structNameOf (Table.Name t) ++ "Service")
      with (restServiceParam t).
    pose proof (restServiceParam_length t
                  (concatMap (fun y => ", " ++ y) (map restServiceParam ts)))
      as L.
    apply Nat.ltb_lt in L.
    destruct (String.length
                (restServiceParam t ++
                 concatMap (fun y => ", " ++ y) (map restServiceParam ts)));
      [lia | reflexivity].
Qed.

Lemma parameter_lists_by_table_witness :
  parseLines accountsSchema <> [] /\
  binding "service_parameters"
    (mainGoVariables "auth" (parseLines accountsSchema)) =
    ", accountAdapter, sessionAdapter" /\
  binding "service_params"
    (restAPIMainVariables "auth" (parseLines accountsSchema)) =
    ", accountService interactor.IAccountService, " ++
    "sessionService interactor.ISessionService".
Proof.
  assert (H : parseLines accountsSchema <> []) by (vm_compute; discriminate).
  split; [exact H|].
  destruct (proj2 (proj2 (proj2
              (parameter_lists_by_table (fun _ => None) "auth")))
              (parseLines accountsSchema) H) as [E1 E2].
  rewrite E1, E2. split; reflexivity.
Defined.

Lemma fold_parameterStep (cols : list Column.t) (b : ParameterBuilders) :
  fold_left parameterStep cols b =
  mkParameterBuilders
    (filterFields b ++
       concatMap filterLine (filter (fun col => negb (dtoSkips col)) cols))
    (sortingFields b ++
       concatMap sortingLine (filter (fun col => negb (dtoSkips col)) cols)).
Proof.
  revert b. induction cols as [|col cols IH]; intros b; cbn [fold_left filter].
  - destruct b. unfold concatMap. cbn. now rewrite !append_empty_r.
  - rewrite IH. unfold parameterStep at 1 2.
    change (restParameterSkips col) with (dtoSkips col).
    destruct (dtoSkips col); cbn [negb]; [reflexivity|].
    cbn [filterFields sortingFields]. rewrite !concatMap_cons.
    unfold filterLine, sortingLine. now rewrite !append_assoc'.
Qed.

Lemma restParameter_loop (templates : string -> option string) (body : string)
      (n i : nat) (tables : list Table.t) (acc : string) :
  templates "rest-parameter" = Some body ->
  i + List.length tables = n ->
  foldIndexed (restParameterStep templates n) i tables (Ok acc) =
  Ok (acc ++ Join (map (parameterBlock body) tables) nl).
Proof.
  intros Ht. revert i acc.
  induction tables as [|t ts IH]; intros i acc Hn; cbn [foldIndexed map].
  - cbn. now rewrite append_empty_r.
  - unfold restParameterStep at 2. unfold processTemplate, loadTemplate.
    rewrite Ht. fold (parameterBlock body t).
    cbn [List.length] in Hn.
    destruct ts as [|t2 ts].
    + cbn [List.length] in Hn.
      replace (i <? n - 1) with false by (symmetry; apply Nat.ltb_ge; lia).
      cbn [foldIndexed map]. reflexivity.
    + replace (i <? n - 1) with true
        by (symmetry; apply Nat.ltb_lt; cbn [List.length] in Hn; lia).
      rewrite IH by lia.
      cbn [map]. rewrite (Join_cons2 (parameterBlock body t)).
      now rewrite !append_assoc'.
Qed.

Lemma restParameter_loop_panics (templates : string -> option string)
      (n i : nat) (tables : list Table.t) (acc : result string) :
  templates "rest-parameter" = None ->
  (tables <> [] \/ exists e, acc = Err e) ->
  exists e, foldIndexed (restParameterStep templates n) i tables acc = Err e.
Proof.
  intros Ht. revert i acc.
  induction tables as [|t ts IH]; intros i acc H; cbn [foldIndexed].
  - destruct H as [H|H]; [contradiction | exact H].
  - apply IH. right. unfold restParameterStep.
    destruct acc as [a|e]; [|now exists e].
    unfold processTemplate, loadTemplate. rewrite Ht. eexists. reflexivity.
Qed.

(** X21: the REST parameter file is its header, one block per table (the
    rendered rest-parameter template) separated by single line feeds, and
    the closing parenthesis; in each block the filter and sorting
    descriptors are the id entry followed by one entry per column that is
    neither id nor an audit column, the columns of the DTO.  Without tables
    the file is the header and the closing parenthesis, even when the
    template is missing; with tables a missing template is a panic. *)
Theorem rest_parameter_file (templates : string -> option string)
        (tables : list Table.t) :
  (forall body, templates "rest-parameter" = Some body ->
     generateRestParameter templates tables =
       Ok (restParameterHeader ++
           Join (map (parameterBlock body) tables) nl ++ nl ++ ")" ++ nl)) /\
  (forall table,
     parameterBuilders table =
       mkParameterBuilders
         (idFilterLine ++ concatMap filterLine (dtoColumns table))
         (idSortingLine ++ concatMap sortingLine (dtoColumns table))) /\
  (templates "rest-parameter" = None -> tables <> [] ->
     exists e, generateRestParameter templates tables = Err e) /\
  generateRestParameter templates [] =
    Ok (restParameterHeader ++ nl ++ ")" ++ nl).
Proof.
  repeat split.
  - intros body Ht. unfold generateRestParameter.
    rewrite (restParameter_loop templates body (List.length tables) 0 tables
               restParameterHeader Ht eq_refl).
    now rewrite !append_assoc'.
  - intros table. unfold parameterBuilders, dtoColumns.
    now rewrite fold_parameterStep.
  - intros Ht Hne. unfold generateRestParameter.
    destruct (restParameter_loop_panics templates (List.length tables) 0 tables
                (Ok restParameterHeader) Ht (or_introl Hne)) as [e ->].
    now exists e.
Qed.

Lemma rest_parameter_file_witness :
  oneTemplate "rest-parameter" "<entity_snake>Filter = [<filter_fields>]"
    "rest-parameter" = Some "<entity_snake>Filter = [<filter_fields>]" /\
  generateRestParameter
    (oneTemplate "rest-parameter" "<entity_snake>Filter = [<filter_fields>]")
    [Table.mk "a" []; Table.mk "b" []] =
  Ok (restParameterHeader ++
      ("aFilter = [" ++ idFilterLine ++ "]") ++ nl ++
      ("bFilter = [" ++ idFilterLine ++ "]") ++ nl ++ ")" ++ nl).
Proof.
  split; [reflexivity|].
  rewrite (proj1 (rest_parameter_file
             (oneTemplate "rest-parameter"
                "<entity_snake>Filter = [<filter_fields>]")
             [Table.mk "a" []; Table.mk "b" []])
             "<entity_snake>Filter = [<filter_fields>]" eq_refl).
  reflexivity.
Defined.

(** ** Schema parser: which lines give a column *)

Example column_named_after_keyword :
  parseColumnDefinition "checked_at TIMESTAMP," = None /\
  parseColumnDefinition "unique_code TEXT NOT NULL," = None /\
  parseColumnDefinition "index_no INT," = None /\
  parseColumnDefinition "note TEXT DEFAULT 'unchecked'," = None.
Proof. repeat split; reflexivity. Qed.

(** X22: a line gives a column exactly when its upper-cased text holds none
    of the constraint keywords and it has at least two tokens; a keyword
    anywhere in the line, be it inside the column name, the type or the
    default value, makes the parser drop the line without a word. *)
Theorem column_line_kept_iff (line : string) :
  ((exists c, parseColumnDefinition line = Some c) <->
   isConstraintLine (ToUpper (columnLine line)) = false /\
   2 <= List.length (Fields (columnLine line))) /\
  (forall keyword,
      In keyword constraintKeywords ->
      Contains (ToUpper (columnLine line)) keyword = true ->
      parseColumnDefinition line = None).
Proof.
  unfold columnLine. split.
  - unfold parseColumnDefinition.
    destruct (isConstraintLine _).
    + split; [intros [c H]; discriminate | intros [H _]; discriminate].
    + destruct (Fields _) as [|name [|ty rest]]; cbn [List.length].
      * split; [intros [c H]; discriminate | intros [_ H]; lia].
      * split; [intros [c H]; discriminate | intros [_ H]; lia].
      * split; [intros _; split; [reflexivity | lia]|].
        intros _. eexists. reflexivity.
  - intros keyword Hin Hc. unfold parseColumnDefinition.
    replace (isConstraintLine _) with true; [reflexivity|].
    symmetry. unfold isConstraintLine. apply existsb_exists.
    exists keyword. now split.
Qed.

Lemma column_line_kept_iff_witness :
  In "CHECK" constraintKeywords /\
  Contains (ToUpper (columnLine "  checked_at TIMESTAMP,")) "CHECK" = true /\
  parseColumnDefinition "  checked_at TIMESTAMP," = None.
Proof.
  assert (H : In "CHECK" constraintKeywords) by (cbn; tauto).
  split; [exact H|]. split; [reflexivity|].
  exact (proj2 (column_line_kept_iff "  checked_at TIMESTAMP,")
               "CHECK" H eq_refl).
Defined.

(** ** Type mapping: the tags of a parsed column *)

(** X23: for a parsed column, [generateGoFieldInfo] changes nothing but the
    Go information; its JSON tag carries the column name as written, its
    GORM tag the lower-cased name, "not null" exactly when the column is
    not nullable, the JSON type marker when the SQL type contains JSON, and
    never "primarykey". *)
Theorem parsed_column_tags (line : string) (c : Column.t) :
  parseColumnDefinition line = Some c ->
  generateGoFieldInfo c =
  Column.mk (Column.Name c) (Column.Type_ c) false (Column.IsNullable c)
    (Column.DefaultValue c)
    (goTypeFor (baseTypeOf (ToUpper (Column.Type_ c))) false)
    ("gorm:" ++ dq ++ "column:" ++ ToLower (Column.Name c) ++
     (if Column.IsNullable c then "" else ";not null") ++
     (if Contains (ToUpper (Column.Type_ c)) "JSONB" then ";type:jsonb"
      else if Contains (ToUpper (Column.Type_ c)) "JSON" then ";type:json"
      else "") ++ dq)
    ("json:" ++ dq ++ Column.Name c ++ ",omitempty" ++ dq).
Proof.
  intros H. destruct (parseColumnDefinition_flags line c H) as [Hpk _].
  unfold generateGoFieldInfo, Column.withGoInfo. rewrite Hpk.
  f_equal.
  destruct (Column.IsNullable c),
    (Contains (ToUpper (Column.Type_ c)) "JSONB"),
    (Contains (ToUpper (Column.Type_ c)) "JSON");
    cbn [negb List.concat app Join String.concat];
    rewrite ?append_assoc', ?append_empty_r; reflexivity.
Qed.

Lemma parsed_column_tags_witness :
  parseColumnDefinition "Payload jsonb NOT NULL," =
    Some (Column.mk "Payload" "jsonb" false false "" "" "" "") /\
  Column.GormTag (generateGoFieldInfo
                    (Column.mk "Payload" "jsonb" false false "" "" "" "")) =
    "gorm:" ++ dq ++ "column:payload;not null;type:jsonb" ++ dq /\
  Column.GoType (generateGoFieldInfo
                   (Column.mk "Payload" "jsonb" false false "" "" "" "")) =
    "[]string".
Proof.
  split; [reflexivity|].
  rewrite (parsed_column_tags "Payload jsonb NOT NULL,"
             (Column.mk "Payload" "jsonb" false false "" "" "" "") eq_refl).
  split; reflexivity.
Defined.

(** ** Orchestration: when a run succeeds *)

(** X24: a run returns no error exactly when the schema parses to at least
    one table and the directory, generation and module steps succeed, each
    on the world the previous one left; whether the formatting step fails
    does not matter, only the world it leaves. *)
Theorem run_succeeds_iff
        (World : Type)
        (openSchema : string -> World -> FileRead)
        (createDirectoryStructure : string -> World -> error * World)
        (generateAllFiles : string -> list Table.t -> World -> error * World)
        (formatGeneratedFiles initializeGoModule : string -> World -> error * World)
        (moduleName sqlSchemaFile : string) (w : World) :
  fst (createHexagonalArchitecture World openSchema createDirectoryStructure
         generateAllFiles formatGeneratedFiles initializeGoModule
         moduleName sqlSchemaFile w) = None <->
  exists tables,
    parseSQLSchema (openSchema sqlSchemaFile w) = Ok tables /\
    tables <> [] /\
    let r1 := createDirectoryStructure moduleName w in
    let r2 := generateAllFiles moduleName tables (snd r1) in
    let w3 := snd (formatGeneratedFiles moduleName (snd r2)) in
    fst r1 = None /\ fst r2 = None /\
    fst (initializeGoModule moduleName w3) = None.
Proof.
  unfold createHexagonalArchitecture.
  destruct (parseSQLSchema (openSchema sqlSchemaFile w)) as [tables|e].
  - destruct tables as [|t ts]; cbn [List.length Nat.eqb].
    + split; [discriminate|]. intros (tables & [= <-] & H & _). contradiction.
    + destruct (createDirectoryStructure moduleName w) as [[e1|] w1]; cbn [fst snd].
      * split; [discriminate|]. intros (tables & _ & _ & H & _). discriminate.
      * destruct (generateAllFiles moduleName (t :: ts) w1) as [[e2|] w2] eqn:G;
          cbn [fst snd].
        -- split; [discriminate|].
           intros (tables & [= <-] & _ & _ & H & _).
           rewrite G in H. discriminate.
        -- destruct (initializeGoModule moduleName
                       (snd (formatGeneratedFiles moduleName w2)))
             as [[e4|] w4] eqn:I; cbn [fst snd].
           ++ split; [discriminate|].
              intros (tables & [= <-] & _ & _ & _ & H).
              rewrite G in H. cbn [snd] in H. rewrite I in H. discriminate.
           ++ split; [|reflexivity]. intros _.
              exists (t :: ts). split; [reflexivity|]. split; [discriminate|].
              cbn zeta. rewrite G. cbn [fst snd]. rewrite I.
              repeat split.
  - split; [discriminate|]. intros (tables & H & _). discriminate.
Qed.

Example run_with_failing_formatter :
  createHexagonalArchitecture LogWorld
    (fun _ w => Scanned (schemaFile w) false)
    (fun m => logStep (MkdirAll m))
    (fun m ts => logStep (WriteFiles m ts))
    (fun m w => (Some "failed to format files", w))
    (fun m => logStep (RunGoModTidy m))
    "user-service" "schema.sql" (mkLogWorld usersSchema [])
  = (None,
     mkLogWorld usersSchema
       [ MkdirAll "user-service"; WriteFiles "user-service" [usersTable];
         RunGoModTidy "user-service" ]).
Proof. reflexivity. Qed.


Lemma run_succeeds_iff_witness :
  fst (createHexagonalArchitecture LogWorld
         (fun _ w => Scanned (schemaFile w) false)
         (fun m => logStep (MkdirAll m))
         (fun m ts => logStep (WriteFiles m ts))
         (fun m w => (Some "failed to format files", w))
         (fun m => logStep (RunGoModTidy m))
         "user-service" "schema.sql" (mkLogWorld usersSchema [])) = None.
Proof.
  apply (proj2 (run_succeeds_iff LogWorld
         (fun _ w => Scanned (schemaFile w) false)
         (fun m => logStep (MkdirAll m))
         (fun m ts => logStep (WriteFiles m ts))
         (fun m w => (Some "failed to format files", w))
         (fun m => logStep (RunGoModTidy m))
         "user-service" "schema.sql" (mkLogWorld usersSchema []))).
  exists [usersTable]. split; [reflexivity|]. split; [discriminate|].
  cbn. repeat split.
Defined.
